(** * Heading detection and outline extraction: a shallow embedding

    The development embeds the document-structure engine of the PDF
    structure extractor: [AdvancedPDFExtractor.analyze_font_distribution]
    and its helpers (pdf_extractor.py) and [SmartHeadingDetector]
    (heading_detector.py), and proves properties of the embedded functions.

    Conventions of the embedding.
    - A Python [str] is the list of its code points ([pystr]).
    - Python floats (font sizes, positions, scores) are exact rationals [Q];
      comparisons are the boolean comparisons of [Q], division is the one
      of [Q] (both quotients of a cluster have a positive denominator on
      every call from the analysis).
    - A Python exception is a value of [exn]; a method that can raise returns
      a [result].
    - The only attribute of the detector that changes after [__init__] is
      [font_hierarchy]; it is the state threaded through the methods.
    - What Python's [str] methods and the [re] classes [\s], [\d], [\w] take
      from the Unicode character database is a parameter ([Ucd]); [ascii_ucd]
      gives these tables on code points below 128. *)

From Stdlib Require Import List Bool ZArith NArith QArith Lqa Lia.
From Stdlib Require Import String Ascii Permutation Sorted.
Import ListNotations.

Set Implicit Arguments.

(* ================================================================== *)
(** ** Python values: strings, exceptions *)

Definition pystr := list N.

(** A literal of the source, written as a Rocq string of ASCII characters. *)
Definition py (s : string) : pystr :=
  List.map N_of_ascii (list_ascii_of_string s).

Inductive exn : Type := KeyError | IndexError | AttributeError.

Inductive result (A : Type) : Type :=
| Ok (a : A)
| Raise (e : exn).

Arguments Ok {A} a.
Arguments Raise {A} e.

Definition bind {A B : Type} (m : result A) (f : A -> result B) : result B :=
  match m with
  | Ok a => f a
  | Raise e => Raise e
  end.

Notation "x <- m ;; k" := (bind m (fun x => k))
  (at level 61, m at next level, right associativity).

(** [for x in l: acc = f(acc, x)] where the body can raise. *)
Fixpoint foldM {A B : Type} (f : B -> A -> result B) (l : list A) (acc : B)
  : result B :=
  match l with
  | [] => Ok acc
  | x :: l' => acc' <- f acc x ;; foldM f l' acc'
  end.

(** The Unicode character database, as far as the program consults it. *)
Class Ucd : Type := {
  isspace : N -> bool;      (* str.isspace, and \s of re *)
  isdecimal : N -> bool;    (* \d of re *)
  isword : N -> bool;       (* \w of re *)
  ch_isupper : N -> bool;   (* Py_UNICODE_ISUPPER *)
  ch_islower : N -> bool;   (* Py_UNICODE_ISLOWER *)
  ch_istitle : N -> bool;   (* Py_UNICODE_ISTITLE *)
  str_lower : pystr -> pystr;   (* str.lower *)
  str_title : pystr -> pystr    (* str.title *)
}.

(** *** The tables on code points below 128 *)

Definition in_range (lo hi c : N) : bool := (lo <=? c)%N && (c <=? hi)%N.

Definition ascii_isspace (c : N) : bool :=
  in_range 9 13 c || in_range 28 32 c.

Definition ascii_isupper (c : N) : bool := in_range 65 90 c.
Definition ascii_islower (c : N) : bool := in_range 97 122 c.
Definition ascii_isdecimal (c : N) : bool := in_range 48 57 c.

Definition ascii_isword (c : N) : bool :=
  ascii_isupper c || ascii_islower c || ascii_isdecimal c || (c =? 95)%N.

Definition ascii_tolower (c : N) : N :=
  if ascii_isupper c then (c + 32)%N else c.

Definition ascii_toupper (c : N) : N :=
  if ascii_islower c then (c - 32)%N else c.

(** [str.title]: a character is upper-cased when the character before it
    is not cased, and lower-cased when it is. *)
Fixpoint ascii_title_from (previous_is_cased : bool) (s : pystr) : pystr :=
  match s with
  | [] => []
  | c :: s' =>
      (if previous_is_cased then ascii_tolower c else ascii_toupper c)
        :: ascii_title_from (ascii_isupper c || ascii_islower c) s'
  end.

Definition ascii_ucd : Ucd := {|
  isspace := ascii_isspace;
  isdecimal := ascii_isdecimal;
  isword := ascii_isword;
  ch_isupper := ascii_isupper;
  ch_islower := ascii_islower;
  ch_istitle := fun _ => false;
  str_lower := List.map ascii_tolower;
  str_title := ascii_title_from false
|}.

(* ================================================================== *)
(** ** Sorting and selection of the Python runtime *)

Section Runtime.
Variable A : Type.

Fixpoint drop_while (p : A -> bool) (l : list A) : list A :=
  match l with
  | [] => []
  | x :: l' => if p x then drop_while p l' else l
  end.

(** [list.sort] and [sorted] are stable: the result is the one of insertion
    sort, where [leb x y] says that the key of [x] is not after the key of
    [y] in the requested order. *)
Fixpoint insert_sorted (leb : A -> A -> bool) (x : A) (l : list A) : list A :=
  match l with
  | [] => [x]
  | y :: l' => if leb x y then x :: l else y :: insert_sorted leb x l'
  end.

Fixpoint stable_sort (leb : A -> A -> bool) (l : list A) : list A :=
  match l with
  | [] => []
  | x :: l' => insert_sorted leb x (stable_sort leb l')
  end.

(** [max(l, key=...)] on a non-empty list [x :: l]: the first maximal item;
    [ltb best y] says that the key of [y] is greater than the key of [best]. *)
Fixpoint py_max_from (ltb : A -> A -> bool) (best : A) (l : list A) : A :=
  match l with
  | [] => best
  | y :: l' => py_max_from ltb (if ltb best y then y else best) l'
  end.

End Runtime.

Definition Qltb (a b : Q) : bool := negb (Qle_bool b a).

(* ================================================================== *)
(** ** Strings and regular expressions *)

(** The regular expressions of the source. [Eol] is [$]. *)
Inductive regex : Type :=
| Void
| Eps
| Eol
| Cls (p : N -> bool)
| Seq (r1 r2 : regex)
| Alt (r1 r2 : regex)
| Star (r : regex).

Definition Plus (r : regex) : regex := Seq r (Star r).
Definition Opt (r : regex) : regex := Alt r Eps.
Definition Chr (c : N) : regex := Cls (N.eqb c).
Definition one_of (cs : list N) : N -> bool :=
  fun c => existsb (N.eqb c) cs.

Definition mkSeq (r1 r2 : regex) : regex :=
  match r1 with
  | Void => Void
  | Eps => r2
  | _ => Seq r1 r2
  end.

Definition mkAlt (r1 r2 : regex) : regex :=
  match r1, r2 with
  | Void, _ => r2
  | _, Void => r1
  | _, _ => Alt r1 r2
  end.

(** [nullable rest r]: [r] matches the empty string in front of [rest].
    Without MULTILINE, [$] holds at the end and before a final newline. *)
Fixpoint nullable (rest : pystr) (r : regex) : bool :=
  match r with
  | Void => false
  | Eps => true
  | Eol => match rest with
           | [] => true
           | [c] => (c =? 10)%N
           | _ => false
           end
  | Cls _ => false
  | Seq r1 r2 => nullable rest r1 && nullable rest r2
  | Alt r1 r2 => nullable rest r1 || nullable rest r2
  | Star _ => true
  end.

(** The derivative of [r] by [c], read in front of [rest]. *)
Fixpoint deriv (c : N) (rest : pystr) (r : regex) : regex :=
  match r with
  | Void | Eps | Eol => Void
  | Cls p => if p c then Eps else Void
  | Seq r1 r2 =>
      mkAlt (mkSeq (deriv c rest r1) r2)
            (if nullable (c :: rest) r1 then deriv c rest r2 else Void)
  | Alt r1 r2 => mkAlt (deriv c rest r1) (deriv c rest r2)
  | Star r1 => mkSeq (deriv c rest r1) (Star r1)
  end.

(** Length of the longest prefix of [s] that [r] matches. Every pattern of
    the source that is used for substitution is one greedy repetition of a
    character class, for which the match found by [re] is the longest. *)
Fixpoint re_longest (r : regex) (s : pystr) : option nat :=
  match s with
  | [] => if nullable [] r then Some O else None
  | c :: s' =>
      match re_longest (deriv c s' r) s' with
      | Some n => Some (S n)
      | None => if nullable s r then Some O else None
      end
  end.

(** [re.match(pattern, s)] as a truth value (patterns start with [^]). *)
Definition re_match (r : regex) (s : pystr) : bool :=
  match re_longest r s with
  | Some _ => true
  | None => false
  end.

(** [re.sub('^...', repl, s)]: only a match at the start is replaced. *)
Definition re_sub_start (r : regex) (repl s : pystr) : pystr :=
  match re_longest r s with
  | Some n => repl ++ skipn n s
  | None => s
  end.

(** [re.sub(pattern, repl, s)] for a pattern without [^] that matches no
    empty string: scan from the left; [skip] counts the characters of the
    current match still to be dropped. *)
Fixpoint re_sub_from (r : regex) (repl s : pystr) (skip : nat) : pystr :=
  match s with
  | [] => []
  | c :: s' =>
      match skip with
      | S k => re_sub_from r repl s' k
      | O =>
          match re_longest r s with
          | Some (S n) => repl ++ re_sub_from r repl s' n
          | _ => c :: re_sub_from r repl s' O
          end
      end
  end.

Definition re_sub (r : regex) (repl s : pystr) : pystr :=
  re_sub_from r repl s O.

(** [kw in s] *)
Fixpoint str_startswith (kw s : pystr) : bool :=
  match kw, s with
  | [], _ => true
  | _ :: _, [] => false
  | k :: kw', c :: s' => (k =? c)%N && str_startswith kw' s'
  end.

Fixpoint str_contains (kw s : pystr) : bool :=
  str_startswith kw s ||
  match s with
  | [] => false
  | _ :: s' => str_contains kw s'
  end.

(** [s.endswith('.')] *)
Definition str_endswith_dot (s : pystr) : bool :=
  match rev s with
  | c :: _ => (c =? 46)%N
  | [] => false
  end.

Section Strings.
Context {U : Ucd}.

(** [s.strip()] *)
Definition str_strip (s : pystr) : pystr :=
  rev (drop_while isspace (rev (drop_while isspace s))).

(** [s.split()]: the maximal runs of non-space characters; [cur] is the
    current word, reversed. *)
Fixpoint str_split_from (s cur : pystr) : list pystr :=
  match s with
  | [] => match cur with [] => [] | _ => [rev cur] end
  | c :: s' =>
      if isspace c
      then match cur with
           | [] => str_split_from s' []
           | _ => rev cur :: str_split_from s' []
           end
      else str_split_from s' (c :: cur)
  end.

Definition str_split (s : pystr) : list pystr := str_split_from s [].

(** [s.isupper()]: no lower- or title-case character and at least one
    upper-case character. *)
Fixpoint str_isupper_from (cased : bool) (s : pystr) : bool :=
  match s with
  | [] => cased
  | c :: s' =>
      if ch_islower c || ch_istitle c then false
      else str_isupper_from (cased || ch_isupper c) s'
  end.

Definition str_isupper (s : pystr) : bool := str_isupper_from false s.

(** [s.islower()] *)
Fixpoint str_islower_from (cased : bool) (s : pystr) : bool :=
  match s with
  | [] => cased
  | c :: s' =>
      if ch_isupper c || ch_istitle c then false
      else str_islower_from (cased || ch_islower c) s'
  end.

Definition str_islower (s : pystr) : bool := str_islower_from false s.

(** The classes of [re]. *)
Definition re_d : regex := Cls isdecimal.
Definition re_s : regex := Cls isspace.

End Strings.

(* ================================================================== *)
(** ** The data model *)

Inductive Level : Type := Title | H1 | H2 | H3.

Inductive Language : Type :=
| Latin | Japanese | Chinese | Cjk | Hebrew | Arabic | Hindi.

(** A text element as the extractor produces it. [text], [size] and [page]
    are the keys every record carries; a key that a record may lack is an
    [option], [None] when it is absent. *)
Record Element : Type := {
  text : pystr;
  size : Q;
  page : Z;
  y_pos : option Q;
  is_bold : option bool;
  is_left_aligned : option bool;
  is_centered : option bool;
  starts_with_number : option bool;
  language_type : option Language
}.

(** [element[key]] and [element.get(key, default)] *)
Definition getitem {A : Type} (field : option A) : result A :=
  match field with
  | Some v => Ok v
  | None => Raise KeyError
  end.

Definition get {A : Type} (field : option A) (default : A) : A :=
  match field with
  | Some v => v
  | None => default
  end.

Definition Level_eqb (a b : Level) : bool :=
  match a, b with
  | Title, Title | H1, H1 | H2, H2 | H3, H3 => true
  | _, _ => false
  end.

(** The hierarchy is a dict from level names to sizes, kept in insertion
    order. *)
Definition FontHierarchy := list (Level * Q).

Fixpoint dict_get (h : FontHierarchy) (k : Level) (default : Q) : Q :=
  match h with
  | [] => default
  | (k', v) :: h' => if Level_eqb k k' then v else dict_get h' k default
  end.

Fixpoint dict_set (h : FontHierarchy) (k : Level) (v : Q) : FontHierarchy :=
  match h with
  | [] => [(k, v)]
  | (k', v') :: h' =>
      if Level_eqb k k' then (k, v) :: h' else (k', v') :: dict_set h' k v
  end.

(* ================================================================== *)
(** ** pdf_extractor.py: the font distribution *)

Module Extractor.
Local Open Scope Q_scope.

Definition font_size_threshold : Q := 8.0.

(** [Counter] and [defaultdict(list)] keyed by font size. *)
Definition Counter := list (Q * nat).

Fixpoint counter_get (c : Counter) (k : Q) : nat :=
  match c with
  | [] => O
  | (k', n) :: c' => if Qeq_bool k k' then n else counter_get c' k
  end.

Fixpoint counter_incr (c : Counter) (k : Q) : Counter :=
  match c with
  | [] => [(k, 1%nat)]
  | (k', n) :: c' =>
      if Qeq_bool k k' then (k', S n) :: c' else (k', n) :: counter_incr c' k
  end.

Definition SizeIndex := list (Q * list Element).

Fixpoint index_get (d : SizeIndex) (k : Q) : list Element :=
  match d with
  | [] => []
  | (k', es) :: d' => if Qeq_bool k k' then es else index_get d' k
  end.

Fixpoint index_append (d : SizeIndex) (k : Q) (e : Element) : SizeIndex :=
  match d with
  | [] => [(k, [e])]
  | (k', es) :: d' =>
      if Qeq_bool k k' then (k', es ++ [e]) :: d'
      else (k', es) :: index_append d' k e
  end.

(** [set(font_sizes)]: one representative of each size. *)
Fixpoint set_of (l : list Q) : list Q :=
  match l with
  | [] => []
  | x :: l' => x :: filter (fun y => negb (Qeq_bool x y)) (set_of l')
  end.

Record Cluster : Type := {
  c_size : Q;
  c_count : nat;
  c_rank : nat;
  frequency_score : Q;
  size_score : Q;
  importance : Q
}.

Record FontAnalysis : Type := {
  sizes : list Q;
  counts : option Counter;
  clusters : list Cluster;
  hierarchy : FontHierarchy;
  size_to_elements : option SizeIndex
}.

Definition sum_values (c : Counter) : nat :=
  fold_left (fun acc kv => (acc + snd kv)%nat) c O.

Definition py_max (l : list Q) : Q :=
  match l with
  | [] => 0
  | x :: l' => py_max_from Qltb x l'
  end.

Definition Q_of_nat (n : nat) : Q := inject_Z (Z.of_nat n).

(** The loop body of [_create_font_clusters] for the size at index [i]. *)
Definition make_cluster (all_sizes : list Q) (counts : Counter)
  (i : nat) (sz : Q) : Cluster :=
  let frequency := Q_of_nat (counter_get counts sz)
                   / Q_of_nat (sum_values counts) in
  let relative := match all_sizes with
                  | [] => 0
                  | _ => sz / py_max all_sizes
                  end in
  {| c_size := sz;
     c_count := counter_get counts sz;
     c_rank := S i;
     frequency_score := frequency;
     size_score := relative;
     importance := relative * 0.7 + frequency * 0.3 |}.

Fixpoint enumerate_from {A : Type} (i : nat) (l : list A) : list (nat * A) :=
  match l with
  | [] => []
  | x :: l' => (i, x) :: enumerate_from (S i) l'
  end.

Definition _create_font_clusters (all_sizes : list Q) (counts : Counter)
  : list Cluster :=
  List.map (fun ix => make_cluster all_sizes counts (fst ix) (snd ix))
           (enumerate_from O all_sizes).

(** [sorted(clusters, key=lambda x: x['importance'], reverse=True)] *)
Definition by_importance_desc (a b : Cluster) : bool :=
  Qle_bool (importance b) (importance a).

Definition early_count (d : SizeIndex) (c : Cluster) : nat :=
  List.length (filter (fun e => (page e <=? 2)%Z) (index_get d (c_size c))).

(** The title candidates: of the three most important clusters, those with
    an element on pages 1-2, each with the number of such elements. *)
Definition title_candidates (d : SizeIndex) (sorted_clusters : list Cluster)
  : list (Q * nat) :=
  flat_map (fun c => match early_count d c with
                     | O => []
                     | n => [(c_size c, n)]
                     end)
           (firstn 3 sorted_clusters).

Definition choose_title (d : SizeIndex) (sorted_clusters : list Cluster) : Q :=
  match title_candidates d sorted_clusters with
  | cand :: cands =>
      fst (py_max_from (fun a b => (snd a <? snd b)%nat) cand cands)
  | [] => match sorted_clusters with
          | c :: _ => c_size c
          | [] => 0
          end
  end.

Definition remaining_sizes (title_size : Q) (sorted_clusters : list Cluster)
  : list Q :=
  List.map c_size
    (filter (fun c => negb (Qeq_bool (c_size c) title_size)) sorted_clusters).

Definition _create_font_hierarchy (cs : list Cluster) (d : SizeIndex)
  : FontHierarchy :=
  match cs with
  | [] => [(Title, 16); (H1, 14); (H2, 12); (H3, 10)]
  | _ :: _ =>
      let sorted_clusters := stable_sort by_importance_desc cs in
      let title_size := choose_title d sorted_clusters in
      let h := dict_set [] Title title_size in
      match remaining_sizes title_size sorted_clusters with
      | r0 :: r1 :: r2 :: _ =>
          dict_set (dict_set (dict_set h H1 r0) H2 r1) H3 r2
      | [r0; r1] =>
          dict_set (dict_set (dict_set h H1 r0) H2 r1) H3 (r1 - 1)
      | [r0] =>
          dict_set (dict_set (dict_set h H1 r0) H2 (r0 - 1)) H3 (r0 - 2)
      | [] =>
          let base_size := title_size - 2 in
          dict_set (dict_set (dict_set h H1 base_size) H2 (base_size - 1))
                   H3 (base_size - 2)
      end
  end.

(** The three accumulators of the scan in [analyze_font_distribution]. *)
Definition scan_state := (list Q * Counter * SizeIndex)%type.

Definition scan_element (st : scan_state) (e : Element) : scan_state :=
  let '(font_sizes, cnt, idx) := st in
  if Qle_bool font_size_threshold (size e)
  then (font_sizes ++ [size e], counter_incr cnt (size e),
        index_append idx (size e) e)
  else st.

Definition scan_pages (pages_data : list (list Element)) : scan_state :=
  fold_left (fun st page_elements => fold_left scan_element page_elements st)
            pages_data ([], [], []).

Definition analyze_font_distribution (pages_data : list (list Element))
  : FontAnalysis :=
  let '(font_sizes, cnt, idx) := scan_pages pages_data in
  match font_sizes with
  | [] => {| sizes := []; counts := None; clusters := []; hierarchy := [];
             size_to_elements := None |}
  | _ :: _ =>
      let unique_sizes :=
        stable_sort (fun a b => Qle_bool b a) (set_of font_sizes) in
      let cls := _create_font_clusters unique_sizes cnt in
      {| sizes := unique_sizes; counts := Some cnt; clusters := cls;
         hierarchy := _create_font_hierarchy cls idx;
         size_to_elements := Some idx |}
  end.

End Extractor.

(* ================================================================== *)
(** ** heading_detector.py: SmartHeadingDetector *)

(** The detector object: of its attributes only [font_hierarchy] is
    assigned after construction; [None] is the attribute not set. *)
Record Detector : Type := { font_hierarchy : option FontHierarchy }.

Definition new_detector : Detector := {| font_hierarchy := None |}.

(** [heading_info]: a copy of the element with its confidence. *)
Record Candidate : Type := {
  element : Element;
  confidence : Q
}.

Record ClassifiedHeading : Type := {
  level : Level;
  heading_text : pystr;
  heading_page : Z;
  heading_confidence : Q;
  font_size : Q
}.

Record OutlineEntry : Type := {
  entry_level : Level;
  entry_text : pystr;
  entry_page : Z
}.

Record TitleCandidate : Type := {
  tc_text : pystr;
  tc_confidence : Q;
  tc_size : Q;
  tc_page : Z
}.

(** The keys that [_post_process_outline] reads from a heading. *)
Class HeadingLike (A : Type) : Type := {
  level_of : A -> Level;
  text_of : A -> pystr;
  page_of : A -> Z
}.

#[export] Instance ClassifiedHeading_like : HeadingLike ClassifiedHeading :=
  {| level_of := level; text_of := heading_text; page_of := heading_page |}.

#[export] Instance OutlineEntry_like : HeadingLike OutlineEntry :=
  {| level_of := entry_level; text_of := entry_text; page_of := entry_page |}.

Definition pystr_eqb (a b : pystr) : bool :=
  if list_eq_dec N.eq_dec a b then true else false.

Definition min_confidence : Q := 0.4.
Definition title_confidence : Q := 0.6.

Definition exclude_keywords : list pystr :=
  List.map py ["page"; "figure"; "table"; "appendix"; "reference";
               "bibliography"; "footnote"; "header"; "footer"; "copyright";
               "rights"; "reserved"]%string.

Definition title_keywords_latin : list pystr :=
  List.map py ["title"; "chapter"; "part"; "section"; "introduction";
               "abstract"; "summary"; "overview"; "contents"; "index"]%string.

(** The CJK keywords, by code point. *)
Definition title_keywords_cjk : list pystr :=
  [ [0x30BF; 0x30A4; 0x30C8; 0x30EB]; [0x984C; 0x76EE]; [0x6A19; 0x984C];
    [0x7AE0]; [0x90E8]; [0x7BC0]; [0x6982; 0x8981]; [0x8981; 0x7D04];
    [0x76EE; 0x6B21]; [0x7D22; 0x5F15]; [0x6807; 0x9898]; [0x7AE0; 0x8282];
    [0x6458; 0x8981] ]%N.

Definition title_keywords (language : Language) : list pystr :=
  match language with
  | Cjk => title_keywords_cjk
  | _ => title_keywords_latin
  end.

Definition cjk_numerals : list N :=
  [0x4E00; 0x4E8C; 0x4E09; 0x56DB; 0x4E94; 0x516D; 0x4E03; 0x516B; 0x4E5D;
   0x5341]%N.

Definition fullwidth_digits : list N :=
  [0xFF11; 0xFF12; 0xFF13; 0xFF14; 0xFF15; 0xFF16; 0xFF17; 0xFF18; 0xFF19;
   0xFF10]%N.

Definition is_cjk_language (language : Language) : bool :=
  match language with
  | Japanese | Chinese | Cjk => true
  | _ => false
  end.

Definition _get_level_priority (l : Level) : Z :=
  match l with
  | H1 => 1
  | H2 => 2
  | H3 => 3
  | Title => 4
  end.

Section SmartHeadingDetector.
Context {U : Ucd}.
Local Open Scope Q_scope.

Definition dot : regex := Chr 46.
Definition seqs (rs : list regex) : regex := fold_right Seq Eps rs.

(** [^\d+\.?\s+], [^\d+\.\d+\.?\s+] and [^\d+\.\d+\.\d+\.?\s+] *)
Definition numbered_1 : regex := seqs [Plus re_d; Opt dot; Plus re_s].
Definition numbered_2 : regex :=
  seqs [Plus re_d; dot; Plus re_d; Opt dot; Plus re_s].
Definition numbered_3 : regex :=
  seqs [Plus re_d; dot; Plus re_d; dot; Plus re_d; Opt dot; Plus re_s].

Definition heading_patterns : list regex :=
  [ numbered_1;
    numbered_2;
    numbered_3;
    seqs [Plus (Cls (in_range 65 90)); Opt dot; Plus re_s];
    seqs [Plus (Cls (one_of [73; 86; 88]%N)); Opt dot; Plus re_s];
    seqs [Cls (in_range 97 122); Opt (Chr 41); Plus re_s];
    seqs [Chr 40; Cls (in_range 97 122); Chr 41; Plus re_s];
    seqs [Chr 40; Cls (in_range 48 57); Chr 41; Plus re_s] ].

Definition cjk_ordinal (closing : N) : regex :=
  seqs [Chr 0x7B2C;
        Plus (Cls (fun c => one_of cjk_numerals c || isdecimal c));
        Chr closing].

Definition cjk_patterns : list regex :=
  [ cjk_ordinal 0x7AE0;
    cjk_ordinal 0x7BC0;
    cjk_ordinal 0x6761;
    seqs [Plus (Cls (one_of fullwidth_digits));
          Cls (one_of [0xFF0E; 0x3002]%N); Star re_s];
    seqs [Plus (Cls (one_of cjk_numerals));
          Cls (one_of [0x3001; 0xFF0E; 0x3002]%N); Star re_s] ].

Definition has_exclude_keyword (lowered : pystr) : bool :=
  existsb (fun keyword => str_contains keyword lowered) exclude_keywords.

Definition _calculate_size_score (self : Detector) (font_size : Q) : Q :=
  match font_hierarchy self with
  | None | Some [] =>
      if Qle_bool 16 font_size then 1.0
      else if Qle_bool 14 font_size then 0.8
      else if Qle_bool 12 font_size then 0.6
      else 0.3
  | Some h =>
      let title_size := dict_get h Title 16 in
      let h1_size := dict_get h H1 14 in
      if Qle_bool title_size font_size then 1.0
      else if Qle_bool h1_size font_size then 0.8
      else if Qle_bool (dict_get h H2 12) font_size then 0.6
      else if Qle_bool (dict_get h H3 10) font_size then 0.4
      else 0.2
  end.

Definition _calculate_position_score (e : Element) : result Q :=
  let score := 0.0 in
  let score := if get (is_left_aligned e) false then score + 0.4 else score in
  let score := if get (is_centered e) false then score + 0.3 else score in
  y <- getitem (y_pos e) ;;
  Ok (if Qltb y 150 then score + 0.3 else score).

Definition _calculate_pattern_score (txt : pystr) (language : Language)
  : result Q :=
  let text_clean := str_strip txt in
  if existsb (fun pattern => re_match pattern text_clean) heading_patterns
  then Ok 0.8
  else if is_cjk_language language
          && existsb (fun pattern => re_match pattern text_clean) cjk_patterns
  then Ok 0.8
  else
    let text_lower := str_lower text_clean in
    if existsb (fun keyword => str_contains keyword text_lower)
               (title_keywords language)
    then Ok 0.6
    else if str_isupper text_clean && (2 <? List.length text_clean)%nat
    then Ok 0.4
    else
      match text_clean with
      | [] => Raise IndexError
      | first :: _ =>
          if str_isupper [first]
             && (List.length (str_split text_clean) <=? 8)%nat
             && negb (str_endswith_dot text_clean)
          then Ok 0.3
          else Ok 0.0
      end.

Definition _calculate_length_score (txt : pystr) : Q :=
  let char_count := List.length txt in
  let word_count := List.length (str_split txt) in
  if (5 <=? char_count)%nat && (char_count <=? 50)%nat
     && (1 <=? word_count)%nat && (word_count <=? 8)%nat
  then 1.0
  else if (3 <=? char_count)%nat && (char_count <=? 100)%nat
          && (1 <=? word_count)%nat && (word_count <=? 12)%nat
  then 0.7
  else if (char_count <=? 150)%nat then 0.4
  else 0.1.

Definition _calculate_special_score (e : Element) : Q :=
  let txt := str_lower (text e) in
  let score := 0.0 in
  let score := if has_exclude_keyword txt then score - 0.5 else score in
  let score :=
    if get (starts_with_number e) false then score + 0.3 else score in
  let score := if (page e <=? 3)%Z then score + 0.2 else score in
  let score := if (20 <? page e)%Z then score - 0.1 else score in
  score.

Definition _calculate_heading_confidence (self : Detector) (e : Element)
  : result Q :=
  let confidence := 0.0 in
  let txt := text e in
  let size_score := _calculate_size_score self (size e) in
  let confidence := confidence + size_score * 0.3 in
  let confidence :=
    if get (is_bold e) false then confidence + 0.15 else confidence in
  position_score <- _calculate_position_score e ;;
  let confidence := confidence + position_score * 0.2 in
  pattern_score <-
    _calculate_pattern_score txt (get (language_type e) Latin) ;;
  let confidence := confidence + pattern_score * 0.2 in
  let length_score := _calculate_length_score txt in
  let confidence := confidence + length_score * 0.1 in
  let special_score := _calculate_special_score e in
  let confidence := confidence + special_score * 0.05 in
  Ok (if Qltb 1.0 confidence then 1.0 else confidence).

(** The sort key [(x['page'], -x['confidence'], x['y_pos'])]. *)
Definition heading_key (c : Candidate) : result (Z * Q * Q) :=
  y <- getitem (y_pos (element c)) ;;
  Ok (page (element c), - confidence c, y).

Definition key3_leb (a b : Z * Q * Q) : bool :=
  let '(p1, c1, y1) := a in
  let '(p2, c2, y2) := b in
  (p1 <? p2)%Z
  || ((p1 =? p2)%Z && (Qltb c1 c2 || (Qeq_bool c1 c2 && Qle_bool y1 y2))).

Definition _find_potential_headings (self : Detector)
  (pages_data : list (list Element)) : result (list Candidate) :=
  potential_headings <-
    foldM (fun acc page_elements =>
             foldM (fun acc e =>
                      c <- _calculate_heading_confidence self e ;;
                      Ok (if Qle_bool min_confidence c
                          then acc ++ [{| element := e; confidence := c |}]
                          else acc))
                   page_elements acc)
          pages_data [] ;;
  keyed <-
    foldM (fun acc c => k <- heading_key c ;; Ok (acc ++ [(k, c)]))
          potential_headings [] ;;
  Ok (List.map snd
        (stable_sort (fun a b => key3_leb (fst a) (fst b)) keyed)).

Definition _classify_heading_level (self : Detector) (heading : Candidate)
  (title_found : bool) : result (option Level) :=
  let font_size := size (element heading) in
  let pg := page (element heading) in
  let txt := text (element heading) in
  h <- match font_hierarchy self with
       | Some h => Ok h
       | None => Raise AttributeError
       end ;;
  if negb title_found
     && (pg <=? 2)%Z
     && Qle_bool title_confidence (confidence heading)
     && Qle_bool (dict_get h Title 16 - 1) font_size
     && (List.length (str_split txt) <=? 10)%nat
     && negb (has_exclude_keyword (str_lower txt))
  then Ok (Some Title)
  else if Qle_bool (dict_get h H1 14 - 0.5) font_size then Ok (Some H1)
  else if Qle_bool (dict_get h H2 12 - 0.5) font_size then Ok (Some H2)
  else if Qle_bool (dict_get h H3 10 - 0.5) font_size then Ok (Some H3)
  else if re_match numbered_1 txt then Ok (Some H1)
  else if re_match numbered_2 txt then Ok (Some H2)
  else if re_match numbered_3 txt then Ok (Some H3)
  else Ok None.

(** The loop of [_classify_headings]; its state is the list built so far
    and the flag [title_found]. *)
Definition classify_step (self : Detector)
  (st : list ClassifiedHeading * bool) (heading : Candidate)
  : result (list ClassifiedHeading * bool) :=
  let '(classified, title_found) := st in
  lvl <- _classify_heading_level self heading title_found ;;
  match lvl with
  | Some l =>
      Ok (classified ++
            [{| level := l;
                heading_text := text (element heading);
                heading_page := page (element heading);
                heading_confidence := confidence heading;
                font_size := size (element heading) |}],
          match l with Title => true | _ => title_found end)
  | None => Ok (classified, title_found)
  end.

Definition _classify_headings (self : Detector)
  (potential_headings : list Candidate) : result (list ClassifiedHeading) :=
  st <- foldM (classify_step self) potential_headings ([], false) ;;
  Ok (fst st).

Definition leading_class (c : N) : bool :=
  isdecimal c || (c =? 46)%N || isspace c || (c =? 45)%N || (c =? 41)%N
  || (c =? 40)%N.

Definition trailing_class (c : N) : bool :=
  negb (isword c || isspace c || (c =? 46)%N || (c =? 33)%N || (c =? 63)%N).

Definition _clean_heading_text (txt : pystr) : pystr :=
  let txt := re_sub_start (Plus (Cls leading_class)) [] txt in
  let txt := re_sub (Seq (Plus (Cls trailing_class)) Eol) [] txt in
  let txt := str_strip (re_sub (Plus re_s) (py " ") txt) in
  if str_islower txt || str_isupper txt then str_title txt else txt.

Definition is_title (l : Level) : bool := Level_eqb l Title.

(** The loop over [outline_headings]: [seen_texts] and [clean_outline]. *)
Definition dedup_step {A : Type} `{HeadingLike A}
  (st : list pystr * list OutlineEntry) (heading : A)
  : list pystr * list OutlineEntry :=
  let '(seen_texts, clean_outline) := st in
  let text_clean := _clean_heading_text (text_of heading) in
  if negb (existsb (pystr_eqb (str_lower text_clean)) seen_texts)
     && (2 <? List.length text_clean)%nat
  then (seen_texts ++ [str_lower text_clean],
        clean_outline ++
          [{| entry_level := level_of heading;
              entry_text := text_clean;
              entry_page := page_of heading |}])
  else st.

Definition outline_leb (a b : OutlineEntry) : bool :=
  (entry_page a <? entry_page b)%Z
  || ((entry_page a =? entry_page b)%Z
      && (_get_level_priority (entry_level a)
          <=? _get_level_priority (entry_level b))%Z).

Definition _post_process_outline {A : Type} `{HeadingLike A}
  (classified_headings : list A) : list OutlineEntry :=
  match classified_headings with
  | [] => []
  | _ :: _ =>
      let outline_headings :=
        filter (fun h => negb (is_title (level_of h))) classified_headings in
      let clean_outline :=
        snd (fold_left dedup_step outline_headings ([], [])) in
      stable_sort outline_leb clean_outline
  end.

Definition untitled : pystr := py "Untitled Document".

Definition title_step (self : Detector) (acc : list TitleCandidate)
  (e : Element) : result (list TitleCandidate) :=
  c <- _calculate_heading_confidence self e ;;
  if Qle_bool title_confidence c
  then
    h <- match font_hierarchy self with
         | Some h => Ok h
         | None => Raise AttributeError
         end ;;
    Ok (if Qle_bool (dict_get h Title 16 - 2) (size e)
        then acc ++ [{| tc_text := text e; tc_confidence := c;
                        tc_size := size e; tc_page := page e |}]
        else acc)
  else Ok acc.

(** [(x['confidence'], x['size'])] with [reverse=True] *)
Definition title_candidate_geb (a b : TitleCandidate) : bool :=
  Qltb (tc_confidence b) (tc_confidence a)
  || (Qeq_bool (tc_confidence b) (tc_confidence a)
      && Qle_bool (tc_size b) (tc_size a)).

Definition find_document_title (self : Detector)
  (pages_data : list (list Element)) : result pystr :=
  match pages_data with
  | [] => Ok untitled
  | first_page :: _ =>
      title_candidates <-
        foldM (fun acc page_elements =>
                 foldM (title_step self) page_elements acc)
              (firstn 2 pages_data) [] ;;
      match stable_sort title_candidate_geb title_candidates with
      | best :: _ => Ok (_clean_heading_text (tc_text best))
      | [] =>
          match first_page with
          | e :: es =>
              Ok (_clean_heading_text
                    (text (py_max_from (fun a b => Qltb (size a) (size b))
                                       e es)))
          | [] => Ok untitled
          end
      end
  end.

(** [analyze_document_structure] returns the detector as the call leaves
    it, and the outline or the exception raised. *)
Definition analyze_document_structure (self : Detector)
  (pages_data : list (list Element))
  : Detector * result (list OutlineEntry) :=
  match pages_data with
  | [] => (self, Ok [])
  | _ :: _ =>
      let font_analysis := Extractor.analyze_font_distribution pages_data in
      let self :=
        {| font_hierarchy := Some (Extractor.hierarchy font_analysis) |} in
      (self,
       potential_headings <- _find_potential_headings self pages_data ;;
       classified_headings <- _classify_headings self potential_headings ;;
       Ok (_post_process_outline classified_headings))
  end.

End SmartHeadingDetector.

(* ================================================================== *)
(** ** pdf_extractor.py: the computed properties of an element *)

(** [re.search(pattern, s)] as a truth value: a match at some position. *)
Fixpoint re_search (r : regex) (s : pystr) : bool :=
  re_match r s ||
  match s with
  | [] => false
  | _ :: s' => re_search r s'
  end.

(** The element dict of [_extract_page_elements] before the computed
    properties are added. [flags] is the style bit field of the span and
    [bbox] its rectangle, a list of coordinates. *)
Record RawElement : Type := {
  raw_text : pystr;
  raw_font : pystr;
  raw_size : Q;
  raw_flags : Z;
  raw_bbox : list Q;
  raw_page : Z;
  raw_color : Z;
  raw_origin : list Q
}.

(** The dict returned by [_compute_element_properties]. *)
Record ElementProperties : Type := {
  p_is_bold : bool;
  p_is_italic : bool;
  p_width : Q;
  p_height : Q;
  p_x_pos : Q;
  p_y_pos : Q;
  p_char_count : nat;
  p_word_count : nat;
  p_is_uppercase : bool;
  p_has_numbers : bool;
  p_starts_with_number : bool;
  p_is_single_line : bool;
  p_is_left_aligned : bool;
  p_is_centered : bool;
  p_has_cjk : bool;
  p_language_type : Language
}.

(** [bbox[i]] *)
Definition bbox_item (bbox : list Q) (i : nat) : result Q :=
  match nth_error bbox i with
  | Some v => Ok v
  | None => Raise IndexError
  end.

Definition is_cjk_char (c : N) : bool :=
  in_range 0x4E00 0x9FFF c || in_range 0x3040 0x309F c
  || in_range 0x30A0 0x30FF c || in_range 0xF900 0xFAFF c.

Definition is_kana (c : N) : bool :=
  in_range 0x3040 0x309F c || in_range 0x30A0 0x30FF c.

Definition _has_cjk_characters (txt : pystr) : bool :=
  existsb is_cjk_char txt.

Definition _detect_language_type (txt : pystr) : Language :=
  if _has_cjk_characters txt then
    if existsb is_kana txt then Japanese
    else if existsb (in_range 0x4E00 0x9FFF) txt then Chinese
    else Cjk
  else if existsb (in_range 0x0590 0x05FF) txt then Hebrew
  else if existsb (in_range 0x0600 0x06FF) txt then Arabic
  else if existsb (in_range 0x0900 0x097F) txt then Hindi
  else Latin.

Section ElementProperties.
Context {U : Ucd}.
Local Open Scope Q_scope.

Definition _compute_element_properties (raw : RawElement)
  : result ElementProperties :=
  let txt := raw_text raw in
  let bbox := raw_bbox raw in
  let has_bbox := match bbox with [] => false | _ :: _ => true end in
  width <- (if has_bbox
            then x1 <- bbox_item bbox 2 ;; x0 <- bbox_item bbox 0 ;;
                 Ok (x1 - x0)
            else Ok 0) ;;
  height <- (if has_bbox
             then y1 <- bbox_item bbox 3 ;; y0 <- bbox_item bbox 1 ;;
                  Ok (y1 - y0)
             else Ok 0) ;;
  x_pos <- (if has_bbox then bbox_item bbox 0 else Ok 0) ;;
  y_pos <- (if has_bbox then bbox_item bbox 1 else Ok 0) ;;
  left_aligned <- (if has_bbox
                   then x0 <- bbox_item bbox 0 ;; Ok (Qltb x0 100)
                   else Ok false) ;;
  centered <- (if has_bbox
               then x0 <- bbox_item bbox 0 ;;
                    Ok (Qltb 200 x0 && Qltb x0 400)
               else Ok false) ;;
  Ok {| p_is_bold := negb (Z.land (raw_flags raw) (2 ^ 4) =? 0)%Z;
        p_is_italic := negb (Z.land (raw_flags raw) (2 ^ 1) =? 0)%Z;
        p_width := width;
        p_height := height;
        p_x_pos := x_pos;
        p_y_pos := y_pos;
        p_char_count := List.length txt;
        p_word_count := List.length (str_split txt);
        p_is_uppercase := str_isupper txt && (2 <? List.length txt)%nat;
        p_has_numbers := re_search re_d txt;
        p_starts_with_number := re_match (Seq (Plus re_d) (Chr 46)) txt;
        p_is_single_line := negb (existsb (N.eqb 10) txt);
        p_is_left_aligned := left_aligned;
        p_is_centered := centered;
        p_has_cjk := _has_cjk_characters txt;
        p_language_type := _detect_language_type txt |}.

(** [element.update(self._compute_element_properties(element))], read
    through the keys that the detector uses. *)
Definition updated_element (raw : RawElement) : result Element :=
  props <- _compute_element_properties raw ;;
  Ok {| text := raw_text raw;
        size := raw_size raw;
        page := raw_page raw;
        y_pos := Some (p_y_pos props);
        is_bold := Some (p_is_bold props);
        is_left_aligned := Some (p_is_left_aligned props);
        is_centered := Some (p_is_centered props);
        starts_with_number := Some (p_starts_with_number props);
        language_type := Some (p_language_type props) |}.

End ElementProperties.

(* ================================================================== *)
(** ** process_pdfs.py: PDFProcessor *)

(** The result record of a document: [{"title": ..., "outline": [...]}]. *)
Record DocumentResult : Type := {
  result_title : pystr;
  result_outline : list OutlineEntry
}.

Definition _create_empty_result : DocumentResult :=
  {| result_title := py "Untitled Document"; result_outline := [] |}.

Section PDFProcessor.
Context {U : Ucd}.

(** One item of the loop of [_validate_and_clean_result]. The title is a
    string, the outline a list and every item a dict with its three keys by
    the types of this embedding, so the [isinstance] tests hold. *)
Definition validate_item (item : OutlineEntry) : list OutlineEntry :=
  let clean_item :=
    {| entry_level := entry_level item;
       entry_text := str_strip (entry_text item);
       entry_page := entry_page item |} in
  if existsb (Level_eqb (entry_level clean_item)) [H1; H2; H3]
     && (0 <? List.length (entry_text clean_item))%nat
  then [clean_item]
  else [].

Definition _validate_and_clean_result (r : DocumentResult) : DocumentResult :=
  {| result_title := result_title r;
     result_outline := flat_map validate_item (result_outline r) |}.

(** [process_single_pdf] from the pages that [extract_with_metadata]
    returned: the detector of the processor as the call leaves it, and the
    returned record. Every exception ends in the empty result. *)
Definition process_single_pdf (detector : Detector)
  (pages_data : list (list Element)) : Detector * DocumentResult :=
  match pages_data with
  | [] => (detector, _create_empty_result)
  | _ :: _ =>
      let '(detector, outline_data) :=
        analyze_document_structure detector pages_data in
      (detector,
       match outline_data with
       | Raise _ => _create_empty_result
       | Ok outline_data =>
           match find_document_title detector pages_data with
           | Raise _ => _create_empty_result
           | Ok title =>
               _validate_and_clean_result
                 {| result_title := title; result_outline := outline_data |}
           end
       end)
  end.

End PDFProcessor.

(* ================================================================== *)
(** ** Vocabulary of the statements *)

(** Case analysis on every condition of the goal. *)
Ltac split_ifs :=
  repeat match goal with
         | |- context [if ?b then _ else _] => destruct b
         end.

(** The relation decided by a comparison function. *)
Definition le_of {A : Type} (leb : A -> A -> bool) (a b : A) : Prop :=
  leb a b = true.

(** The order of the final sort: page, then level priority. *)
Definition outline_le (a b : OutlineEntry) : Prop :=
  (entry_page a < entry_page b
   \/ (entry_page a = entry_page b
       /\ _get_level_priority (entry_level a)
          <= _get_level_priority (entry_level b)))%Z.

Definition count_titles (classified : list ClassifiedHeading) : nat :=
  List.length (filter (fun c => is_title (level c)) classified).

(** The invariant of the loop of [_classify_headings]: the flag is set
    exactly when the list holds a title, and the list holds at most one. *)
Definition title_invariant (st : list ClassifiedHeading * bool) : Prop :=
  count_titles (fst st) = if snd st then 1%nat else 0%nat.

Module ExtractorSpec.
Import Extractor.
Local Open Scope Q_scope.

Definition fallback_hierarchy : FontHierarchy :=
  [(Title, 16); (H1, 14); (H2, 12); (H3, 10)].

(** The statement of the specification: a stream without qualifying
    element gives the fallback hierarchy. *)
Definition returns_fallback (pages_data : list (list Element)) : Prop :=
  hierarchy (analyze_font_distribution pages_data) = fallback_hierarchy.

(** The statement of the specification for the levels below the title:
    the sizes other than the title size, in descending rank order
    ([sizes] lists the distinct sizes by rank), go to H1, H2 and H3. *)
Definition remaining_by_rank (title_size : Q) (ranked_sizes : list Q)
  : list Q :=
  filter (fun s => negb (Qeq_bool s title_size)) ranked_sizes.

Definition levels_follow_rank (pages_data : list (list Element)) : Prop :=
  let a := analyze_font_distribution pages_data in
  let h := hierarchy a in
  match remaining_by_rank (dict_get h Title 0) (sizes a) with
  | s1 :: s2 :: s3 :: _ =>
      dict_get h H1 0 == s1 /\ dict_get h H2 0 == s2 /\ dict_get h H3 0 == s3
  | [s1; s2] =>
      dict_get h H1 0 == s1 /\ dict_get h H2 0 == s2
      /\ dict_get h H3 0 == s2 - 1
  | [s1] =>
      dict_get h H1 0 == s1 /\ dict_get h H2 0 == s1 - 1
      /\ dict_get h H3 0 == s1 - 2
  | [] =>
      dict_get h H1 0 == dict_get h Title 0 - 2
      /\ dict_get h H2 0 == dict_get h H1 0 - 1
      /\ dict_get h H3 0 == dict_get h H1 0 - 2
  end.

End ExtractorSpec.

Section Vocabulary.
Context {U : Ucd}.
Local Open Scope Q_scope.

Definition lowered (o : OutlineEntry) : pystr := str_lower (entry_text o).

(** An entry made from a heading of [hs] that is no title: same level and
    page, cleaned text, of more than two characters. *)
Definition made_from {A : Type} `{HeadingLike A} (hs : list A)
  (o : OutlineEntry) : Prop :=
  exists h, In h hs
    /\ level_of h <> Title
    /\ entry_level o = level_of h
    /\ entry_text o = _clean_heading_text (text_of h)
    /\ entry_page o = page_of h
    /\ (2 < List.length (entry_text o))%nat.

(** An outline entry that the cleaning rule leaves as it is and that is
    long enough to be kept. *)
Definition settled (o : OutlineEntry) : Prop :=
  _clean_heading_text (entry_text o) = entry_text o
  /\ (2 < List.length (entry_text o))%nat.

(** The element is collected as a title candidate with confidence [c] on
    the detector: its score is at least 0.6 and its size at least the title
    size of the stored hierarchy minus 2. *)
Definition collected (self : Detector) (e : Element) (c : Q) : Prop :=
  _calculate_heading_confidence self e = Ok c
  /\ 0.6 <= c
  /\ exists h, font_hierarchy self = Some h
               /\ dict_get h Title 16 - 2 <= size e.

(** The pair (confidence, size) of the first is not above the one of the
    second, in lexicographic order. *)
Definition not_above (c1 s1 c2 s2 : Q) : Prop :=
  c1 < c2 \/ (c1 == c2 /\ s1 <= s2).

(** What one pass of the loop of [find_document_title] appends to
    [title_candidates] when it does not raise. *)
Definition title_candidate_on (self : Detector) (e : Element)
  : list TitleCandidate :=
  match _calculate_heading_confidence self e with
  | Ok c =>
      if Qle_bool title_confidence c
      then match font_hierarchy self with
           | Some h =>
               if Qle_bool (dict_get h Title 16 - 2) (size e)
               then [{| tc_text := text e; tc_confidence := c;
                        tc_size := size e; tc_page := page e |}]
               else []
           | None => []
           end
      else []
  | Raise _ => []
  end.

(** The scoring of the element returns; it returns at least, or less than,
    the title confidence. *)
Definition scores (self : Detector) (e : Element) : Prop :=
  exists c, _calculate_heading_confidence self e = Ok c.

Definition scores_title_grade (self : Detector) (e : Element) : Prop :=
  exists c, _calculate_heading_confidence self e = Ok c /\ 0.6 <= c.

Definition scores_below_title_grade (self : Detector) (e : Element)
  : Prop :=
  exists c, _calculate_heading_confidence self e = Ok c /\ c < 0.6.

(** The two-run statement of the specification for the title: whatever
    documents were analysed before on the same detector, the title of
    [pages_data] is the same. *)
Definition title_independent_of_history (pages_data : list (list Element))
  : Prop :=
  forall before1 before2 : list (list Element),
    find_document_title
      (fst (analyze_document_structure new_detector before1)) pages_data
    = find_document_title
        (fst (analyze_document_structure new_detector before2)) pages_data.

(** The statement of the specification on the placeholder. *)
Definition placeholder_iff_no_elements (self : Detector)
  (pages_data : list (list Element)) : Prop :=
  find_document_title self pages_data = Ok untitled
  <-> List.concat pages_data = [].

End Vocabulary.

(** Boolean comparisons of sizes as propositions. *)
Ltac qeqb :=
  repeat match goal with
         | H : Qeq_bool _ _ = true |- _ => apply Qeq_bool_iff in H
         | H : Qeq_bool _ _ = false |- _ => apply Qeq_bool_neq in H
         end.

Ltac qle_cases :=
  repeat match goal with
         | |- context [Qle_bool ?a ?b] =>
             let E := fresh "E" in
             destruct (Qle_bool a b) eqn:E;
             [apply Qle_bool_iff in E
             |assert (b < a)%Q by
                (apply Qnot_le_lt; intros L; apply Qle_bool_iff in L;
                 congruence);
              clear E]
         end.

Module ExtractorVocabulary.
Import Extractor.
Local Open Scope Q_scope.

(** The elements that pass the font-size threshold, in document order. *)
Definition qualifying (pages_data : list (list Element)) : list Element :=
  filter (fun e => Qle_bool font_size_threshold (size e))
         (List.concat pages_data).

(** The elements of [l] whose size equals [k]. *)
Definition of_size (k : Q) (l : list Element) : list Element :=
  filter (fun e => Qeq_bool k (size e)) l.

(** What the three accumulators of the scan hold after the elements [qs]
    have passed the threshold. *)
Definition scanned (qs : list Element) (st : scan_state) : Prop :=
  let '(font_sizes, cnt, idx) := st in
  font_sizes = List.map size qs
  /\ (forall k, counter_get cnt k = List.length (of_size k qs))
  /\ sum_values cnt = List.length qs
  /\ (forall k, index_get idx k = of_size k qs).

(** The order of [sorted(..., reverse=True)] on sizes. *)
Definition Qgeb (a b : Q) : bool := Qle_bool b a.

End ExtractorVocabulary.

(** The element with another font size, or another value of its bold
    flag. *)
Definition with_size (e : Element) (s : Q) : Element :=
  {| text := text e; size := s; page := page e; y_pos := y_pos e;
     is_bold := is_bold e; is_left_aligned := is_left_aligned e;
     is_centered := is_centered e;
     starts_with_number := starts_with_number e;
     language_type := language_type e |}.

Definition with_bold (e : Element) (b : bool) : Element :=
  {| text := text e; size := size e; page := page e; y_pos := y_pos e;
     is_bold := Some b; is_left_aligned := is_left_aligned e;
     is_centered := is_centered e;
     starts_with_number := starts_with_number e;
     language_type := language_type e |}.

Section DetectorVocabulary.
Context {U : Ucd}.
Local Open Scope Q_scope.

(** The scoring of the element returns a score on this detector. *)
Definition scorable_by (self : Detector) (e : Element) : Prop :=
  exists c, _calculate_heading_confidence self e = Ok c.

(** The candidate that [_find_potential_headings] keeps for an element:
    none when the score is below [min_confidence]. *)
Definition heading_candidate (self : Detector) (e : Element)
  : list Candidate :=
  match _calculate_heading_confidence self e with
  | Ok c => if Qle_bool min_confidence c
            then [{| element := e; confidence := c |}]
            else []
  | Raise _ => []
  end.

(** The order of the candidate list: page ascending, then confidence
    descending, then vertical position ascending. *)
Definition candidate_le (a b : Candidate) : Prop :=
  (page (element a) < page (element b))%Z
  \/ (page (element a) = page (element b)
      /\ (confidence b < confidence a
          \/ (confidence a == confidence b
              /\ get (y_pos (element a)) 0 <= get (y_pos (element b)) 0))).

(** The classified heading copies text, page, confidence and size of a
    candidate of the list. *)
Definition copied_from (cands : list Candidate) (ch : ClassifiedHeading)
  : Prop :=
  exists c, In c cands
    /\ heading_text ch = text (element c)
    /\ heading_page ch = page (element c)
    /\ heading_confidence ch = confidence c
    /\ font_size ch = size (element c).

(** The sort key of a candidate, with 0 for an absent position. *)
Definition key_of (c : Candidate) : Z * Q * Q :=
  (page (element c), - confidence c, get (y_pos (element c)) 0).

(** The loop body of the collection in [_find_potential_headings]. *)
Definition collect_step (self : Detector) (acc : list Candidate)
  (e : Element) : result (list Candidate) :=
  c <- _calculate_heading_confidence self e ;;
  Ok (if Qle_bool min_confidence c
      then acc ++ [{| element := e; confidence := c |}]
      else acc).

End DetectorVocabulary.

Section PipelineVocabulary.
Context {U : Ucd}.
Local Open Scope Q_scope.

(** The outline entry stems from an element of the document that scores
    at least 0.4 on the detector: it has the page of the element and its
    cleaned text, of more than two characters, and a level below title. *)
Definition stems_from (self : Detector) (pages_data : list (list Element))
  (o : OutlineEntry) : Prop :=
  exists e c,
    In e (List.concat pages_data)
    /\ _calculate_heading_confidence self e = Ok c
    /\ 0.4 <= c
    /\ entry_page o = page e
    /\ entry_text o = _clean_heading_text (text e)
    /\ (2 < List.length (entry_text o))%nat
    /\ In (entry_level o) [H1; H2; H3].

(** The score of the element is at least, or below, the title
    confidence. *)
Definition title_grade (self : Detector) (e : Element) : Prop :=
  exists c, _calculate_heading_confidence self e = Ok c /\ 0.6 <= c.

Definition below_title_grade (self : Detector) (e : Element) : Prop :=
  exists c, _calculate_heading_confidence self e = Ok c /\ c < 0.6.

End PipelineVocabulary.

(* ================================================================== *)
(** ** Sample documents *)

Module Samples.
Local Open Scope Q_scope.

(** An element as the extractor builds it: every computed key present. *)
Definition span (t : string) (sz : Q) (pg : Z) (y : Q)
  (bold left_aligned numbered : bool) : Element :=
  {| text := py t; size := sz; page := pg; y_pos := Some y;
     is_bold := Some bold; is_left_aligned := Some left_aligned;
     is_centered := Some false; starts_with_number := Some numbered;
     language_type := Some Latin |}.

(** A record with only the keys [text], [size] and [page]. *)
Definition bare (t : string) (sz : Q) (pg : Z) : Element :=
  {| text := py t; size := sz; page := pg; y_pos := None;
     is_bold := None; is_left_aligned := None; is_centered := None;
     starts_with_number := None; language_type := None |}.

(** One element below the 8 pt threshold. *)
Definition doc_small_print : list (list Element) :=
  [[span "fine print" 6 1 700 false true false]].

(** A 20 pt title on page 1; on page 3 one 14 pt heading and eight 10 pt
    lines of body text. *)
Definition doc_report : list (list Element) :=
  [ [span "Annual Report" 20 1 100 true true false];
    [];
    [span "Methods" 14 3 100 true true false;
     span "body text one" 10 3 200 false true false;
     span "body text two" 10 3 220 false true false;
     span "body text three" 10 3 240 false true false;
     span "body text four" 10 3 260 false true false;
     span "body text five" 10 3 280 false true false;
     span "body text six" 10 3 300 false true false;
     span "body text seven" 10 3 320 false true false;
     span "body text eight" 10 3 340 false true false] ].

(** A single large bold year on page 1. *)
Definition doc_year : list (list Element) :=
  [[span "2025" 24 1 100 true true false]].

(** An empty first page (a cover without text) and one line on page 2. *)
Definition doc_blank_cover : list (list Element) :=
  [ [];
    [span "the quick brown fox jumps." 10 2 400 false false false] ].

(** Two documents with one title each, of 30 pt and of 12 pt. *)
Definition doc_poster : list (list Element) :=
  [[span "Big Title" 30 1 100 true true false]].

Definition doc_memo : list (list Element) :=
  [[span "Small Title" 12 1 100 true true false]].

(** A page with a 20 pt line of running text and a 14 pt numbered
    heading. *)
Definition doc_article : list (list Element) :=
  [[span "the quick brown fox jumps over." 20 1 400 false false false;
    span "1. Introduction" 14 1 100 true true true]].

(** Classified headings as the classifier builds them. *)
Definition heading (l : Level) (t : string) (pg : Z) : ClassifiedHeading :=
  {| level := l; heading_text := py t; heading_page := pg;
     heading_confidence := 0.8; font_size := 14 |}.

Definition headings_plain : list ClassifiedHeading :=
  [heading Title "Annual Report" 1; heading H1 "1. Introduction" 1;
   heading H2 "1.1 Background" 2; heading H1 "2. Methods" 3].

Definition headings_dashes : list ClassifiedHeading :=
  [heading H1 "abc - -" 1].

End Samples.

Module MoreSamples.
Import Samples.
Local Open Scope Q_scope.

(** One line of running text on page 1. *)
Definition doc_plain : list (list Element) :=
  [[span "the quick brown fox jumps." 10 1 400 false false false]].

(** A page with a record that lacks the computed keys. *)
Definition doc_with_bare_record : list (list Element) :=
  [[span "1. Introduction" 14 1 100 true true true;
    bare "Background" 12 1]].

Definition report_title_candidate : Candidate :=
  {| element := span "Annual Report" 20 1 100 true true false;
     confidence := 0.8 |}.

(** The outline of [doc_report] on the tables for code points below 128. *)
Definition report_outline : list OutlineEntry :=
  Eval vm_compute in
    match snd (@analyze_document_structure ascii_ucd new_detector doc_report)
    with
    | Ok outline => outline
    | Raise _ => []
    end.

Definition headings_numbering_only : list ClassifiedHeading :=
  [heading H1 "2.1 (3) -" 2; heading H2 "- 4 -" 3].

(** The span of a bold numbered heading near the left margin. *)
Definition raw_heading : RawElement :=
  {| raw_text := py "1. Introduction"; raw_font := py "Helvetica-Bold";
     raw_size := 14; raw_flags := 16; raw_bbox := [50; 100; 200; 120];
     raw_page := 1; raw_color := 0; raw_origin := [50; 118] |}.

Definition built_heading : Element :=
  Eval vm_compute in
    match @updated_element ascii_ucd raw_heading with
    | Ok e => e
    | Raise _ => bare "failed" 0 0
    end.

End MoreSamples.

(* ================================================================== *)
(** * Properties *)

(** ** The runtime: stable sort and selection *)

Section SortFacts.
Variable A : Type.
Variable leb : A -> A -> bool.

Lemma insert_sorted_perm (x : A) (l : list A) :
  Permutation (insert_sorted leb x l) (x :: l).
Proof.
  induction l as [|y l IH]; simpl.
  - apply Permutation_refl.
  - destruct (leb x y).
    + apply Permutation_refl.
    + eapply Permutation_trans.
      * apply perm_skip. exact IH.
      * apply perm_swap.
Qed.

Lemma stable_sort_perm (l : list A) : Permutation (stable_sort leb l) l.
Proof.
  induction l as [|x l IH]; simpl.
  - apply perm_nil.
  - eapply Permutation_trans.
    + apply insert_sorted_perm.
    + apply perm_skip. exact IH.
Qed.

(** Sorting a list that is in order already changes nothing. *)
Lemma stable_sort_sorted_id (l : list A) :
  Sorted (le_of leb) l -> stable_sort leb l = l.
Proof.
  induction 1 as [|x l Hs IH Hhd]; simpl.
  - reflexivity.
  - rewrite IH. destruct Hhd as [|y l Hxy]; simpl.
    + reflexivity.
    + unfold le_of in Hxy. rewrite Hxy. reflexivity.
Qed.

Hypothesis leb_total : forall a b, leb a b = false -> leb b a = true.
Hypothesis leb_trans :
  forall a b c, le_of leb a b -> le_of leb b c -> le_of leb a c.

Lemma insert_sorted_sorted (x : A) (l : list A) :
  StronglySorted (le_of leb) l ->
  StronglySorted (le_of leb) (insert_sorted leb x l).
Proof.
  induction 1 as [|y l Hs IH Hall]; simpl.
  - constructor; constructor.
  - destruct (leb x y) eqn:Hxy.
    + constructor.
      * constructor; assumption.
      * constructor; [exact Hxy|].
        rewrite Forall_forall in Hall |- *. intros z Hz.
        eapply leb_trans; [exact Hxy|]. apply Hall; exact Hz.
    + constructor; [exact IH|].
      apply (Permutation_Forall (Permutation_sym (insert_sorted_perm x l))).
      constructor; [|exact Hall].
      apply leb_total; exact Hxy.
Qed.

Lemma stable_sort_sorted (l : list A) :
  StronglySorted (le_of leb) (stable_sort leb l).
Proof.
  induction l as [|x l IH]; simpl.
  - constructor.
  - apply insert_sorted_sorted; exact IH.
Qed.

(** The first item of the sorted list is an item of the list that is in
    front of every item of the list in the order. *)
Lemma stable_sort_head (l : list A) (b : A) (t : list A) :
  stable_sort leb l = b :: t ->
  In b l /\ Forall (fun x => le_of leb b x) l.
Proof.
  intros E.
  pose proof (stable_sort_sorted l) as Hs.
  pose proof (stable_sort_perm l) as Hp.
  rewrite E in Hs, Hp.
  split.
  - apply (Permutation_in _ Hp). left; reflexivity.
  - apply (Permutation_Forall Hp).
    apply StronglySorted_inv in Hs. destruct Hs as [_ Hall].
    constructor; [|exact Hall].
    destruct (leb b b) eqn:Hbb; [exact Hbb|].
    unfold le_of. apply leb_total; exact Hbb.
Qed.

End SortFacts.

Section MaxFacts.
Variable A : Type.
Variable key : A -> Q.

Lemma Qltb_true (a b : Q) : Qltb a b = true <-> (a < b)%Q.
Proof.
  unfold Qltb. rewrite negb_true_iff. split.
  - intros H. apply Qnot_le_lt. intros Hle.
    apply Qle_bool_iff in Hle. congruence.
  - intros H. destruct (Qle_bool b a) eqn:E; [|reflexivity].
    apply Qle_bool_iff in E. exfalso. revert E. apply Qlt_not_le. exact H.
Qed.

Lemma Qltb_false (a b : Q) : Qltb a b = false <-> (b <= a)%Q.
Proof.
  unfold Qltb. rewrite negb_false_iff. apply Qle_bool_iff.
Qed.

Lemma py_max_from_spec (l : list A) (best : A) :
  let m := py_max_from (fun a b => Qltb (key a) (key b)) best l in
  In m (best :: l) /\ (key best <= key m)%Q
  /\ Forall (fun x => (key x <= key m)%Q) l.
Proof.
  revert best. induction l as [|y l IH]; intros best; simpl.
  - split; [left; reflexivity|]. split; [apply Qle_refl|constructor].
  - cbn beta. destruct (Qltb (key best) (key y)) eqn:E.
    + destruct (IH y) as (Hin & Hle & Hall).
      apply Qltb_true in E.
      split; [right; exact Hin|].
      split; [eapply Qle_trans; [apply Qlt_le_weak; exact E|exact Hle]|].
      constructor; assumption.
    + destruct (IH best) as (Hin & Hle & Hall).
      apply Qltb_false in E.
      split.
      { destruct Hin as [Hin|Hin];
          [left; exact Hin|right; right; exact Hin]. }
      split; [exact Hle|].
      constructor; [eapply Qle_trans; [exact E|exact Hle]|exact Hall].
Qed.

End MaxFacts.

(** ** The confidence score *)

Section Scoring.
Context {U : Ucd}.
Local Open Scope Q_scope.

Lemma size_score_bounds (self : Detector) (sz : Q) :
  0.2 <= _calculate_size_score self sz <= 1.
Proof.
  unfold _calculate_size_score.
  destruct (font_hierarchy self) as [[|kv h]|]; split_ifs; lra.
Qed.

Lemma position_score_spec (e : Element) :
  match _calculate_position_score e with
  | Ok p => 0 <= p <= 1
  | Raise x => x = KeyError /\ y_pos e = None
  end.
Proof.
  unfold _calculate_position_score.
  destruct (y_pos e) as [y|]; simpl.
  - split_ifs; lra.
  - split; reflexivity.
Qed.

Lemma pattern_score_spec (txt : pystr) (language : Language) :
  match _calculate_pattern_score txt language with
  | Ok p => 0 <= p <= 0.8
  | Raise x => x = IndexError /\ str_strip txt = []
  end.
Proof.
  unfold _calculate_pattern_score.
  destruct (existsb _ heading_patterns); [lra|].
  destruct (is_cjk_language language && _); [lra|].
  destruct (existsb _ (title_keywords language)); [lra|].
  destruct (str_isupper (str_strip txt) && _); [lra|].
  destruct (str_strip txt) as [|c s].
  - split; reflexivity.
  - split_ifs; lra.
Qed.

Lemma length_score_bounds (txt : pystr) :
  0.1 <= _calculate_length_score txt <= 1.
Proof.
  unfold _calculate_length_score. split_ifs; lra.
Qed.

Lemma special_score_bounds (e : Element) :
  -0.6 <= _calculate_special_score e <= 0.5.
Proof.
  unfold _calculate_special_score. split_ifs; lra.
Qed.

(** The result of [_calculate_heading_confidence], case by case. *)
Lemma heading_confidence_spec (self : Detector) (e : Element) :
  match _calculate_heading_confidence self e with
  | Ok s => 0 <= s <= 1
  | Raise x =>
      (x = KeyError /\ y_pos e = None)
      \/ (x = IndexError /\ str_strip (text e) = [])
  end.
Proof.
  unfold _calculate_heading_confidence.
  pose proof (size_score_bounds self (size e)) as Hsize.
  pose proof (position_score_spec e) as Hpos.
  pose proof (pattern_score_spec (text e) (get (language_type e) Latin))
    as Hpat.
  pose proof (length_score_bounds (text e)) as Hlen.
  pose proof (special_score_bounds e) as Hspec.
  destruct (_calculate_position_score e) as [p|x]; simpl.
  - destruct (_calculate_pattern_score _ _) as [q|x]; simpl.
    + set (a := _calculate_size_score self (size e)) in *.
      set (l := _calculate_length_score (text e)) in *.
      set (s := _calculate_special_score e) in *.
      destruct (get (is_bold e) false);
        match goal with
        | |- context [Qltb ?u ?v] =>
            destruct (Qltb u v) eqn:E;
            [ lra | apply Qltb_false in E; lra ]
        end.
    + right. exact Hpat.
  - left. exact Hpos.
Qed.

(** C1. Whatever the element and the hierarchy held by the detector (also
    none), the score that [_calculate_heading_confidence] returns lies in
    the closed interval from 0 to 1; it returns no score only by raising
    KeyError for a record without [y_pos], or IndexError for a text that is
    empty once stripped. *)
Theorem confidence_in_unit_interval (self : Detector) (e : Element) :
  match _calculate_heading_confidence self e with
  | Ok s => 0 <= s <= 1
  | Raise x =>
      (x = KeyError /\ y_pos e = None)
      \/ (x = IndexError /\ str_strip (text e) = [])
  end.
Proof. exact (heading_confidence_spec self e). Qed.

(** The score exists for every record that has [y_pos] and a text with a
    character that is no white space. *)
Lemma confidence_defined (self : Detector) (e : Element) (y : Q) :
  y_pos e = Some y -> str_strip (text e) <> [] ->
  exists s, _calculate_heading_confidence self e = Ok s /\ 0 <= s <= 1.
Proof.
  intros Hy Ht.
  pose proof (heading_confidence_spec self e) as H.
  destruct (_calculate_heading_confidence self e) as [s|x].
  - exists s. split; [reflexivity|exact H].
  - exfalso. destruct H as [[_ H]|[_ H]]; [congruence|contradiction].
Qed.

(** The flags read with [get] default to false when absent. *)
Lemma absent_flags_default (self : Detector) (e : Element) :
  _calculate_heading_confidence self e =
  _calculate_heading_confidence self
    {| text := text e; size := size e; page := page e; y_pos := y_pos e;
       is_bold := Some (get (is_bold e) false);
       is_left_aligned := Some (get (is_left_aligned e) false);
       is_centered := Some (get (is_centered e) false);
       starts_with_number := Some (get (starts_with_number e) false);
       language_type := Some (get (language_type e) Latin) |}.
Proof. reflexivity. Qed.

End Scoring.

(** ** The outline post-processor *)

Lemma pystr_eqb_true (a b : pystr) : pystr_eqb a b = true <-> a = b.
Proof.
  unfold pystr_eqb. destruct (list_eq_dec N.eq_dec a b); split; congruence.
Qed.

Lemma seen_false (x : pystr) (seen : list pystr) :
  existsb (pystr_eqb x) seen = false -> ~ In x seen.
Proof.
  intros E Hin.
  assert (existsb (pystr_eqb x) seen = true) as E'.
  { apply existsb_exists. exists x. split; [exact Hin|].
    apply pystr_eqb_true; reflexivity. }
  congruence.
Qed.

Lemma outline_leb_le (a b : OutlineEntry) :
  outline_leb a b = true <-> outline_le a b.
Proof.
  unfold outline_leb, outline_le.
  rewrite orb_true_iff, andb_true_iff, Z.ltb_lt, Z.eqb_eq, Z.leb_le.
  reflexivity.
Qed.

Lemma outline_leb_total (a b : OutlineEntry) :
  outline_leb a b = false -> outline_leb b a = true.
Proof.
  intros E. apply outline_leb_le.
  assert (~ outline_le a b) as N.
  { intros L. apply outline_leb_le in L. congruence. }
  unfold outline_le in *. lia.
Qed.

Lemma outline_leb_trans (a b c : OutlineEntry) :
  outline_leb a b = true -> outline_leb b c = true -> outline_leb a c = true.
Proof.
  rewrite !outline_leb_le. unfold outline_le. lia.
Qed.

Section PostProcessing.
Context {U : Ucd}.
Context {A : Type} {HL : HeadingLike A}.

Lemma dedup_fold_inv (hs l : list A) (seen : list pystr)
  (out : list OutlineEntry) :
  incl l hs ->
  Forall (fun h => level_of h <> Title) l ->
  seen = List.map lowered out ->
  NoDup seen ->
  Forall (made_from hs) out ->
  let st := fold_left dedup_step l (seen, out) in
  fst st = List.map lowered (snd st)
  /\ NoDup (fst st)
  /\ Forall (made_from hs) (snd st).
Proof.
  revert seen out.
  induction l as [|h l IH]; intros seen out Hincl Hlev Hseen Hnd Hout; simpl.
  - auto.
  - assert (incl l hs) as Hincl' by (intros x Hx; apply Hincl; right; exact Hx).
    inversion Hlev as [|? ? Hh Hlev']; subst.
    set (text_clean := _clean_heading_text (text_of h)).
    destruct (negb (existsb (pystr_eqb (str_lower text_clean))
                            (List.map lowered out))
              && (2 <? List.length text_clean)%nat)
      eqn:E.
    + apply andb_true_iff in E. destruct E as [E1 E2].
      apply negb_true_iff in E1. apply seen_false in E1.
      apply Nat.ltb_lt in E2.
      apply IH; try assumption.
      * rewrite map_app. reflexivity.
      * apply NoDup_app; [exact Hnd| |].
        -- constructor; [intros []|constructor].
        -- intros x Hx [Hx'|[]]. subst x. contradiction.
      * apply Forall_app. split; [exact Hout|].
        constructor; [|constructor].
        exists h. simpl. repeat split; try assumption; try reflexivity.
        apply Hincl. left; reflexivity.
    + apply IH; try assumption. reflexivity.
Qed.

Lemma not_title_levels (l : Level) : l <> Title -> In l [H1; H2; H3].
Proof. destruct l; simpl; intros; try tauto. Qed.

Lemma filter_not_title (hs : list A) :
  Forall (fun h => level_of h <> Title)
         (filter (fun h => negb (is_title (level_of h))) hs).
Proof.
  apply Forall_forall. intros h Hin. apply filter_In in Hin.
  destruct Hin as [_ E]. intros T. rewrite T in E. discriminate.
Qed.

Lemma post_process_spec (classified : list A) :
  let outline := _post_process_outline classified in
  Forall (made_from classified) outline
  /\ NoDup (List.map lowered outline)
  /\ StronglySorted outline_le outline.
Proof.
  unfold _post_process_outline.
  destruct classified as [|h0 hs0].
  - simpl. repeat split; constructor.
  - set (hs := h0 :: hs0).
    set (ol := filter (fun h => negb (is_title (level_of h))) hs).
    destruct (@dedup_fold_inv hs ol [] []) as (Hseen & Hnd & Hmade).
    + intros x Hx. apply filter_In in Hx. apply Hx.
    + apply filter_not_title.
    + reflexivity.
    + constructor.
    + constructor.
    + set (st := fold_left dedup_step ol ([], [])) in *.
      pose proof (stable_sort_perm outline_leb (snd st)) as Hp.
      simpl. split; [|split].
      * apply (Permutation_Forall (Permutation_sym Hp)). exact Hmade.
      * apply (Permutation_NoDup
                 (Permutation_map lowered (Permutation_sym Hp))).
        rewrite <- Hseen. exact Hnd.
      * pose proof (stable_sort_sorted outline_leb_total
                      outline_leb_trans (snd st)) as Hs.
        clear - Hs. induction Hs as [|a l Hs IH Hall]; constructor.
        -- exact IH.
        -- eapply Forall_impl; [|exact Hall].
           intros b Hb. apply outline_leb_le. exact Hb.
Qed.


Lemma seen_true_false (x : pystr) (seen : list pystr) :
  ~ In x seen -> existsb (pystr_eqb x) seen = false.
Proof.
  intros N. destruct (existsb (pystr_eqb x) seen) eqn:E; [|reflexivity].
  apply existsb_exists in E. destruct E as (y & Hy & E).
  apply pystr_eqb_true in E. subst y. contradiction.
Qed.

Lemma dedup_fold_settled (l : list OutlineEntry) (seen : list pystr)
  (acc : list OutlineEntry) :
  Forall settled l ->
  NoDup (seen ++ List.map lowered l) ->
  fold_left dedup_step l (seen, acc) = (seen ++ List.map lowered l, acc ++ l).
Proof.
  revert seen acc. induction l as [|o l IH]; intros seen acc Hs Hnd.
  - simpl. rewrite !app_nil_r. reflexivity.
  - inversion Hs as [|? ? [Hfix Hlen] Hs']; subst.
    cbn [fold_left List.map].
    assert (dedup_step (seen, acc) o = (seen ++ [lowered o], acc ++ [o])) as E.
    { unfold dedup_step. cbn [text_of level_of page_of OutlineEntry_like].
      rewrite Hfix.
      rewrite seen_true_false.
      - apply Nat.ltb_lt in Hlen. rewrite Hlen. cbn [negb andb].
        destruct o; reflexivity.
      - intros Hin. cbn [List.map] in Hnd.
        apply NoDup_remove_2 in Hnd. apply Hnd.
        apply in_or_app. left. exact Hin. }
    rewrite E. rewrite IH.
    + rewrite <- !app_assoc. reflexivity.
    + exact Hs'.
    + cbn [List.map] in Hnd. rewrite <- app_assoc. exact Hnd.
Qed.

(** C9, as the code has it. Applying the post-processor to its own output
    returns that output unchanged whenever the cleaning rule leaves the text
    of every entry of the output as it is: the length filter, the
    deduplication and the sort are then without effect. *)
Theorem post_process_idempotent_on_clean_texts (classified : list A) :
  Forall (fun o => _clean_heading_text (entry_text o) = entry_text o)
         (_post_process_outline classified) ->
  _post_process_outline (_post_process_outline classified)
  = _post_process_outline classified.
Proof.
  intros Hfix.
  destruct (post_process_spec classified) as (Hmade & Hnd & Hs).
  set (outline := _post_process_outline classified) in *.
  destruct outline as [|o0 os] eqn:Eo; [reflexivity|].
  unfold _post_process_outline at 1.
  assert (filter (fun h : OutlineEntry => negb (is_title (level_of h)))
                 (o0 :: os) = o0 :: os) as Ef.
  { apply forallb_filter_id. apply forallb_forall. intros o Hin.
    rewrite Forall_forall in Hmade.
    destruct (Hmade o Hin) as (h & _ & Hl & El & _).
    cbn [level_of OutlineEntry_like]. rewrite El.
    destruct (level_of h); [contradiction| | |]; reflexivity. }
  rewrite Ef.
  rewrite (@dedup_fold_settled (o0 :: os) [] []).
  - cbn [snd app].
    apply stable_sort_sorted_id.
    apply StronglySorted_Sorted.
    clear - Hs. induction Hs as [|a l Hs IH Hall]; constructor.
    + exact IH.
    + eapply Forall_impl; [|exact Hall].
      intros b Hb. apply outline_leb_le. exact Hb.
  - rewrite Forall_forall in Hfix, Hmade |- *. intros o Hin.
    split; [apply Hfix; exact Hin|].
    destruct (Hmade o Hin) as (h & _ & _ & _ & _ & _ & Hlen). exact Hlen.
  - exact Hnd.
Qed.

End PostProcessing.

(** ** Classification *)

Section Classification.
Context {U : Ucd}.

Lemma count_titles_app (a b : list ClassifiedHeading) :
  count_titles (a ++ b) = (count_titles a + count_titles b)%nat.
Proof.
  unfold count_titles. rewrite filter_app, length_app. reflexivity.
Qed.

(** With a hierarchy on the detector the level of a heading is defined, and
    it is the title only while no title has been found. *)
Lemma classify_level_defined (h : FontHierarchy) (heading : Candidate)
  (title_found : bool) :
  exists lvl,
    _classify_heading_level {| font_hierarchy := Some h |} heading title_found
    = Ok lvl
    /\ (lvl = Some Title -> title_found = false).
Proof.
  unfold _classify_heading_level. cbn [font_hierarchy bind].
  destruct title_found; cbn [negb andb];
    repeat match goal with
           | |- context [if ?b then _ else _] => destruct b
           end;
    eexists; (split; [reflexivity|]); intros E;
    try reflexivity; discriminate E.
Qed.

Lemma classify_step_invariant (h : FontHierarchy)
  (st : list ClassifiedHeading * bool) (heading : Candidate) :
  title_invariant st ->
  exists st', classify_step {| font_hierarchy := Some h |} st heading = Ok st'
              /\ title_invariant st'.
Proof.
  destruct st as [classified title_found].
  unfold title_invariant. cbn [fst snd].
  intros Hinv. unfold classify_step.
  destruct (classify_level_defined h heading title_found) as (lvl & E & Ht).
  rewrite E. cbn [bind].
  destruct lvl as [l|].
  - eexists. split; [reflexivity|]. cbn [fst snd].
    rewrite count_titles_app, Hinv.
    destruct l; cbn.
    + rewrite (Ht eq_refl). reflexivity.
    + destruct title_found; reflexivity.
    + destruct title_found; reflexivity.
    + destruct title_found; reflexivity.
  - eexists. split; [reflexivity|]. exact Hinv.
Qed.

Lemma classify_fold_invariant (h : FontHierarchy) (hs : list Candidate)
  (st : list ClassifiedHeading * bool) :
  title_invariant st ->
  exists st',
    foldM (classify_step {| font_hierarchy := Some h |}) hs st = Ok st'
    /\ title_invariant st'.
Proof.
  revert st. induction hs as [|heading hs IH]; intros st Hinv; cbn [foldM].
  - exists st. split; [reflexivity|exact Hinv].
  - destruct (classify_step_invariant h heading Hinv) as (st1 & E & Hinv1).
    rewrite E. cbn [bind]. apply IH. exact Hinv1.
Qed.

(** C3. For every hierarchy and every list of candidates the classification
    pass returns a list that holds at most one heading of level title; and
    once the flag [title_found] is set, no candidate is given that level. *)
Theorem at_most_one_title (h : FontHierarchy)
  (potential_headings : list Candidate) :
  let self := {| font_hierarchy := Some h |} in
  (exists classified,
     _classify_headings self potential_headings = Ok classified
     /\ (count_titles classified <= 1)%nat)
  /\ (forall heading,
        exists lvl, _classify_heading_level self heading true = Ok lvl
                    /\ In lvl [None; Some H1; Some H2; Some H3]).
Proof.
  cbn zeta. split.
  - unfold _classify_headings.
    destruct (@classify_fold_invariant h potential_headings ([], false))
      as ([classified title_found] & E & Hinv); [reflexivity|].
    rewrite E. cbn [bind fst]. exists classified. split; [reflexivity|].
    unfold title_invariant in Hinv. cbn [fst snd] in Hinv. rewrite Hinv.
    destruct title_found; lia.
  - intros heading.
    destruct (classify_level_defined h heading true) as (lvl & E & Ht).
    exists lvl. split; [exact E|].
    destruct lvl as [[| | |]|]; cbn; auto.
    specialize (Ht eq_refl). discriminate Ht.
Qed.

End Classification.

(** ** The font hierarchy *)

Module ExtractorFacts.
Import Extractor ExtractorSpec.
Local Open Scope Q_scope.

Lemma scan_element_small (st : scan_state) (e : Element) :
  size e < font_size_threshold -> scan_element st e = st.
Proof.
  intros Hlt. unfold scan_element. destruct st as [[fs cnt] idx].
  destruct (Qle_bool font_size_threshold (size e)) eqn:E; [|reflexivity].
  apply Qle_bool_iff in E. exfalso. revert E. apply Qlt_not_le. exact Hlt.
Qed.

Lemma scan_page_small (page_elements : list Element) (st : scan_state) :
  Forall (fun e => size e < font_size_threshold) page_elements ->
  fold_left scan_element page_elements st = st.
Proof.
  induction 1 as [|e l He Hl IH]; simpl.
  - reflexivity.
  - rewrite scan_element_small by exact He. exact IH.
Qed.

Lemma scan_pages_small (pages_data : list (list Element)) (st : scan_state) :
  Forall (fun e => size e < font_size_threshold) (List.concat pages_data) ->
  fold_left (fun st page_elements => fold_left scan_element page_elements st)
            pages_data st = st.
Proof.
  induction pages_data as [|pg pages IH]; simpl; intros Hall.
  - reflexivity.
  - apply Forall_app in Hall. destruct Hall as [Hpg Hrest].
    rewrite scan_page_small by exact Hpg. apply IH. exact Hrest.
Qed.

(** C4, as the code has it. When no element has a font size of 8.0 pt or
    more (the empty stream included), [analyze_font_distribution] returns
    the empty hierarchy; the lookups of its consumers then read the defaults
    title 16, H1 14, H2 12 and H3 10. The fixed hierarchy with these sizes
    is what [_create_font_hierarchy] returns for no clusters. *)
Theorem no_qualifying_size_gives_empty_hierarchy
  (pages_data : list (list Element)) :
  Forall (fun e => size e < 8.0) (List.concat pages_data) ->
  let h := hierarchy (analyze_font_distribution pages_data) in
  h = []
  /\ dict_get h Title 16 = 16 /\ dict_get h H1 14 = 14
  /\ dict_get h H2 12 = 12 /\ dict_get h H3 10 = 10
  /\ (forall d, _create_font_hierarchy [] d = fallback_hierarchy).
Proof.
  intros Hall.
  assert (hierarchy (analyze_font_distribution pages_data) = []) as E.
  { unfold analyze_font_distribution, scan_pages.
    rewrite scan_pages_small by exact Hall. reflexivity. }
  cbn zeta. rewrite E. repeat split; reflexivity.
Qed.

Lemma by_importance_desc_total (a b : Cluster) :
  by_importance_desc a b = false -> by_importance_desc b a = true.
Proof.
  unfold by_importance_desc. intros E.
  apply Qle_bool_iff. apply Qlt_le_weak. apply Qnot_le_lt.
  intros L. apply Qle_bool_iff in L. congruence.
Qed.

Lemma by_importance_desc_trans (a b c : Cluster) :
  by_importance_desc a b = true -> by_importance_desc b c = true ->
  by_importance_desc a c = true.
Proof.
  unfold by_importance_desc. rewrite !Qle_bool_iff. intros H1 H2.
  eapply Qle_trans; eassumption.
Qed.

(** C8, as the code has it. The clusters are put in descending order of
    importance; the sizes other than the title size, in that order, go to
    H1, H2 and H3. With two such sizes H3 is H2 - 1; with one such size S,
    H1 = S, H2 = S - 1 and H3 = S - 2; with none, H1 = title - 2,
    H2 = H1 - 1 and H3 = H1 - 2. *)
Theorem levels_follow_importance (cs : list Cluster) (d : SizeIndex) :
  cs <> [] ->
  let h := _create_font_hierarchy cs d in
  let title_size := dict_get h Title 0 in
  exists sorted_clusters,
    Permutation sorted_clusters cs
    /\ StronglySorted (fun a b => importance b <= importance a)
                      sorted_clusters
    /\ match remaining_sizes title_size sorted_clusters with
       | s1 :: s2 :: s3 :: _ =>
           dict_get h H1 0 = s1 /\ dict_get h H2 0 = s2
           /\ dict_get h H3 0 = s3
       | [s1; s2] =>
           dict_get h H1 0 = s1 /\ dict_get h H2 0 = s2
           /\ dict_get h H3 0 = dict_get h H2 0 - 1
       | [s1] =>
           dict_get h H1 0 = s1 /\ dict_get h H2 0 = s1 - 1
           /\ dict_get h H3 0 = s1 - 2
       | [] =>
           dict_get h H1 0 = title_size - 2
           /\ dict_get h H2 0 = dict_get h H1 0 - 1
           /\ dict_get h H3 0 = dict_get h H1 0 - 2
       end.
Proof.
  intros Hne. destruct cs as [|c0 cs0]; [contradiction|].
  exists (stable_sort by_importance_desc (c0 :: cs0)).
  split; [apply stable_sort_perm|]. split.
  - pose proof (stable_sort_sorted
                  by_importance_desc_total by_importance_desc_trans
                  (c0 :: cs0)) as Hs.
    induction Hs as [|a l Hs IH Hall]; constructor.
    + exact IH.
    + eapply Forall_impl; [|exact Hall].
      intros b Hb. apply Qle_bool_iff. exact Hb.
  - unfold _create_font_hierarchy.
    set (sorted_clusters := stable_sort by_importance_desc (c0 :: cs0)).
    set (t := choose_title d sorted_clusters).
    destruct (remaining_sizes t sorted_clusters)
      as [|r0 [|r1 [|r2 rest]]] eqn:E;
      cbn [dict_set dict_get Level_eqb]; rewrite E;
      repeat split; reflexivity.
Qed.

End ExtractorFacts.

(** ** Title resolution *)

Lemma title_candidate_geb_spec (a b : TitleCandidate) :
  title_candidate_geb a b = true
  <-> (tc_confidence b < tc_confidence a
       \/ (tc_confidence b == tc_confidence a /\ tc_size b <= tc_size a))%Q.
Proof.
  unfold title_candidate_geb.
  rewrite orb_true_iff, andb_true_iff, Qltb_true, Qeq_bool_iff, Qle_bool_iff.
  reflexivity.
Qed.

Lemma title_candidate_geb_total (a b : TitleCandidate) :
  title_candidate_geb a b = false -> title_candidate_geb b a = true.
Proof.
  intros E. apply title_candidate_geb_spec.
  assert (~ (tc_confidence b < tc_confidence a
             \/ (tc_confidence b == tc_confidence a
                 /\ tc_size b <= tc_size a))%Q) as N.
  { intros L. apply title_candidate_geb_spec in L. congruence. }
  destruct (Qlt_le_dec (tc_confidence a) (tc_confidence b)) as [L|L];
    [left; exact L|].
  destruct (Qlt_le_dec (tc_confidence b) (tc_confidence a)) as [L'|L'];
    [exfalso; apply N; left; exact L'|].
  right. split; [lra|].
  destruct (Qlt_le_dec (tc_size b) (tc_size a)) as [S|S]; [|exact S].
  exfalso. apply N. right. split; lra.
Qed.

Lemma title_candidate_geb_trans (a b c : TitleCandidate) :
  title_candidate_geb a b = true -> title_candidate_geb b c = true ->
  title_candidate_geb a c = true.
Proof.
  rewrite !title_candidate_geb_spec. intros [H1|[H1 H1']] [H2|[H2 H2']].
  - left. lra.
  - left. lra.
  - left. lra.
  - right. split; lra.
Qed.

Section TitleResolution.
Context {U : Ucd}.
Local Open Scope Q_scope.

(** One pass of the loop body, whatever the detector holds. *)
Lemma title_step_outcome (self : Detector) (acc : list TitleCandidate)
  (e : Element) :
  match title_step self acc e with
  | Ok r =>
      scores self e
      /\ r = acc ++ title_candidate_on self e
      /\ (font_hierarchy self = None -> scores_below_title_grade self e)
  | Raise x =>
      _calculate_heading_confidence self e = Raise x
      \/ (x = AttributeError /\ font_hierarchy self = None
          /\ scores_title_grade self e)
  end.
Proof.
  unfold title_step, title_candidate_on.
  destruct (_calculate_heading_confidence self e) as [c|x] eqn:E;
    cbn [bind]; [|left; reflexivity].
  destruct (Qle_bool title_confidence c) eqn:Ec.
  - destruct (font_hierarchy self) as [h|] eqn:Eh; cbn [bind].
    + split; [exists c; exact E|]. split; [|intros N; discriminate N].
      destruct (Qle_bool _ (size e)); [reflexivity|].
      rewrite app_nil_r. reflexivity.
    + right. split; [reflexivity|]. split; [reflexivity|].
      exists c. split; [exact E|]. apply Qle_bool_iff in Ec. exact Ec.
  - split; [exists c; exact E|]. split; [rewrite app_nil_r; reflexivity|].
    intros _. exists c. split; [exact E|].
    apply Qnot_le_lt. intros L. apply Qle_bool_iff in L.
    unfold title_confidence in Ec. congruence.
Qed.

Lemma title_scan_outcome (self : Detector) (l : list Element)
  (acc : list TitleCandidate) :
  match foldM (title_step self) l acc with
  | Ok r =>
      Forall (scores self) l
      /\ r = acc ++ flat_map (title_candidate_on self) l
      /\ (font_hierarchy self = None ->
          Forall (scores_below_title_grade self) l)
  | Raise x =>
      (exists e, In e l /\ _calculate_heading_confidence self e = Raise x)
      \/ (x = AttributeError /\ font_hierarchy self = None
          /\ Exists (scores_title_grade self) l)
  end.
Proof.
  revert acc. induction l as [|e l IH]; intros acc; cbn [foldM flat_map].
  - split; [constructor|]. split; [rewrite app_nil_r; reflexivity|].
    intros _. constructor.
  - pose proof (title_step_outcome self acc e) as He.
    destruct (title_step self acc e) as [r1|x]; cbn [bind].
    + destruct He as (Hs & Er & Hlow). subst r1.
      specialize (IH (acc ++ title_candidate_on self e)). revert IH.
      destruct (foldM (title_step self) l _) as [r|x]; intros IH.
      * destruct IH as (Hall & Er & Hlows).
        split; [constructor; assumption|].
        split; [rewrite Er, app_assoc; reflexivity|].
        intros N. constructor; [apply Hlow|apply Hlows]; exact N.
      * destruct IH as [(e' & Hin & E)|(Ex & N & Hex)].
        -- left. exists e'. split; [right; exact Hin|exact E].
        -- right. split; [exact Ex|]. split; [exact N|].
           apply Exists_cons_tl. exact Hex.
    + destruct He as [E|(Ex & N & Hg)].
      * left. exists e. split; [left; reflexivity|exact E].
      * right. split; [exact Ex|]. split; [exact N|].
        apply Exists_cons_hd. exact Hg.
Qed.

Lemma title_scan_pages_outcome (self : Detector)
  (ps : list (list Element)) (acc : list TitleCandidate) :
  match foldM (fun acc page_elements =>
                 foldM (title_step self) page_elements acc) ps acc with
  | Ok r =>
      Forall (scores self) (List.concat ps)
      /\ r = acc ++ flat_map (title_candidate_on self) (List.concat ps)
      /\ (font_hierarchy self = None ->
          Forall (scores_below_title_grade self) (List.concat ps))
  | Raise x =>
      (exists e, In e (List.concat ps)
                 /\ _calculate_heading_confidence self e = Raise x)
      \/ (x = AttributeError /\ font_hierarchy self = None
          /\ Exists (scores_title_grade self) (List.concat ps))
  end.
Proof.
  revert acc. induction ps as [|pg ps IH]; intros acc;
    cbn [foldM List.concat].
  - split; [constructor|]. split; [rewrite app_nil_r; reflexivity|].
    intros _. constructor.
  - pose proof (title_scan_outcome self pg acc) as Hpg.
    destruct (foldM (title_step self) pg acc) as [r1|x]; cbn [bind].
    + destruct Hpg as (Hs & Er & Hlow). subst r1.
      specialize (IH (acc ++ flat_map (title_candidate_on self) pg)).
      revert IH. destruct (foldM _ ps _) as [r|x]; intros IH.
      * destruct IH as (Hall & Er & Hlows).
        split; [apply Forall_app; split; assumption|].
        split; [rewrite Er, flat_map_app, app_assoc; reflexivity|].
        intros N. apply Forall_app. split; [apply Hlow|apply Hlows]; exact N.
      * destruct IH as [(e' & Hin & E)|(Ex & N & Hex)].
        -- left. exists e'. split; [apply in_or_app; right; exact Hin|].
           exact E.
        -- right. split; [exact Ex|]. split; [exact N|].
           apply Exists_app. right. exact Hex.
    + destruct Hpg as [(e & Hin & E)|(Ex & N & Hex)].
      * left. exists e. split; [apply in_or_app; left; exact Hin|exact E].
      * right. split; [exact Ex|]. split; [exact N|].
        apply Exists_app. left. exact Hex.
Qed.

Lemma in_title_candidates (self : Detector) (l : list Element)
  (tc : TitleCandidate) :
  In tc (flat_map (title_candidate_on self) l)
  <-> exists e c, In e l /\ collected self e c
                  /\ tc = {| tc_text := text e; tc_confidence := c;
                             tc_size := size e; tc_page := page e |}.
Proof.
  rewrite in_flat_map. split.
  - intros (e & Hin & Htc). unfold title_candidate_on in Htc.
    destruct (_calculate_heading_confidence self e) as [c|x] eqn:E;
      [|destruct Htc].
    destruct (Qle_bool title_confidence c) eqn:E1; [|destruct Htc].
    destruct (font_hierarchy self) as [h|] eqn:Eh; [|destruct Htc].
    destruct (Qle_bool (dict_get h Title 16 - 2) (size e)) eqn:E2;
      [|destruct Htc].
    destruct Htc as [Htc|[]].
    exists e, c. split; [exact Hin|]. split; [|symmetry; exact Htc].
    apply Qle_bool_iff in E1, E2. unfold title_confidence in E1.
    split; [exact E|]. split; [exact E1|].
    exists h. split; [exact Eh|exact E2].
  - intros (e & c & Hin & (E & H1 & h & Eh & H2) & Htc).
    exists e. split; [exact Hin|]. unfold title_candidate_on.
    rewrite E, Eh. apply Qle_bool_iff in H2.
    assert (Qle_bool title_confidence c = true) as E1
      by (apply Qle_bool_iff; exact H1).
    rewrite E1, H2. left. symmetry. exact Htc.
Qed.

(** C6, as the code has it. Whatever the document and whatever the
    detector holds, [find_document_title] scans the first two pages only
    and either returns or raises, as follows. It raises KeyError or
    IndexError, the exception of the scoring of a scanned element, or
    AttributeError when the detector holds no hierarchy and a scanned
    element scores 0.6 or more. When it returns, every scanned element was
    scored, and the result is: the cleaned text of a collected candidate
    (confidence at least 0.6, size at least the title size minus 2) whose
    pair (confidence, size) no other candidate exceeds; or, when no element
    is collected, the cleaned text of an element of the first page of
    largest size; or, when no element is collected and the first page is
    empty, the placeholder. In particular the placeholder is returned for
    a document without any element. *)
Theorem title_resolution (self : Detector)
  (pages_data : list (list Element)) :
  let scanned := List.concat (firstn 2 pages_data) in
  let first_page := hd [] pages_data in
  match find_document_title self pages_data with
  | Ok r =>
      Forall (scores self) scanned
      /\ (font_hierarchy self = None ->
          Forall (scores_below_title_grade self) scanned)
      /\ ((exists e c,
             In e scanned /\ collected self e c
             /\ r = _clean_heading_text (text e)
             /\ forall e' c', In e' scanned -> collected self e' c' ->
                              not_above c' (size e') c (size e))
          \/ ((forall e c, In e scanned -> ~ collected self e c)
              /\ ((exists e,
                     In e first_page
                     /\ r = _clean_heading_text (text e)
                     /\ Forall (fun e' => size e' <= size e) first_page)
                  \/ (first_page = [] /\ r = untitled))))
      /\ (List.concat pages_data = [] -> r = untitled)
  | Raise x =>
      (exists e, In e scanned
                 /\ _calculate_heading_confidence self e = Raise x
                 /\ (x = KeyError \/ x = IndexError))
      \/ (x = AttributeError /\ font_hierarchy self = None
          /\ Exists (scores_title_grade self) scanned)
  end.
Proof.
  cbn zeta. destruct pages_data as [|first_page rest].
  - cbn. split; [constructor|]. split; [intros _; constructor|].
    split; [|reflexivity].
    right. split; [intros e c []|]. right. split; reflexivity.
  - unfold find_document_title.
    pose proof (title_scan_pages_outcome self
                  (firstn 2 (first_page :: rest)) []) as H.
    set (scanned := List.concat (firstn 2 (first_page :: rest))) in *.
    revert H.
    destruct (foldM _ (firstn 2 (first_page :: rest)) []) as [r|x];
      cbn [bind hd]; intros H.
    + destruct H as (Hall & Er & Hlow). cbn [app] in Er. subst r.
      destruct (stable_sort title_candidate_geb
                  (flat_map (title_candidate_on self) scanned))
        as [|best others] eqn:Es.
      * assert (flat_map (title_candidate_on self) scanned = []) as Enil.
        { pose proof (stable_sort_perm title_candidate_geb
                        (flat_map (title_candidate_on self) scanned)) as Hp.
          rewrite Es in Hp. apply Permutation_nil in Hp. exact Hp. }
        assert (forall e c, In e scanned -> ~ collected self e c) as Hnone.
        { intros e c Hin Hq.
          assert (In {| tc_text := text e; tc_confidence := c;
                        tc_size := size e; tc_page := page e |}
                     (flat_map (title_candidate_on self) scanned)) as Hc.
          { apply in_title_candidates. exists e, c.
            split; [exact Hin|]. split; [exact Hq|reflexivity]. }
          rewrite Enil in Hc. destruct Hc. }
        destruct first_page as [|e es]; cbn iota.
        -- split; [exact Hall|]. split; [exact Hlow|].
           split; [|reflexivity].
           right. split; [exact Hnone|]. right. split; reflexivity.
        -- pose proof (py_max_from_spec size es e) as Hmax.
           cbn zeta in Hmax. destruct Hmax as (Hin & Hle & Hles).
           split; [exact Hall|]. split; [exact Hlow|]. split.
           ++ right. split; [exact Hnone|]. left.
              eexists. split; [exact Hin|]. split; [reflexivity|].
              constructor; assumption.
           ++ intros Hempty. discriminate Hempty.
      * destruct (stable_sort_head
                    title_candidate_geb_total title_candidate_geb_trans _ Es)
          as [Hin Hbest].
        apply in_title_candidates in Hin.
        destruct Hin as (e & c & Hin & Hq & Eb).
        cbn iota.
        split; [exact Hall|]. split; [exact Hlow|]. split.
        -- left. exists e, c. split; [exact Hin|]. split; [exact Hq|].
           split; [rewrite Eb; reflexivity|].
           intros e' c' Hin' Hq'.
           rewrite Forall_forall in Hbest.
           assert (In {| tc_text := text e'; tc_confidence := c';
                         tc_size := size e'; tc_page := page e' |}
                      (flat_map (title_candidate_on self) scanned)) as Hc.
           { apply in_title_candidates. exists e', c'.
             split; [exact Hin'|]. split; [exact Hq'|reflexivity]. }
           specialize (Hbest _ Hc). apply title_candidate_geb_spec in Hbest.
           rewrite Eb in Hbest. cbn in Hbest. exact Hbest.
        -- intros Hempty. exfalso.
           assert (incl scanned (List.concat (first_page :: rest))) as Hsub.
           { unfold scanned. intros x Hx.
             rewrite <- (firstn_skipn 2 (first_page :: rest)), concat_app.
             apply in_or_app. left. exact Hx. }
           apply Hsub in Hin. rewrite Hempty in Hin. destruct Hin.
    + destruct H as [(e & Hin & E)|H]; [|right; exact H].
      left. exists e. split; [exact Hin|]. split; [exact E|].
      pose proof (heading_confidence_spec self e) as Hs. rewrite E in Hs.
      destruct Hs as [[Ex _]|[Ex _]]; [left|right]; exact Ex.
Qed.

End TitleResolution.

(** ** The hierarchy held by the detector *)

Section DetectorState.
Context {U : Ucd}.

(** C7, as the code has it. The outline (or the exception) of
    [analyze_document_structure] depends only on the element stream, and so
    does the title that [find_document_title] returns when it is called on
    the same stream right after the analysis, whatever the detector held
    before. The analysis of a stream with pages stores the derived hierarchy
    on the detector, where later calls read it; the analysis of a stream
    without pages leaves the detector as it was. *)
Theorem analysis_result_depends_on_stream (s1 s2 : Detector)
  (pages_data : list (list Element)) :
  snd (analyze_document_structure s1 pages_data)
  = snd (analyze_document_structure s2 pages_data)
  /\ find_document_title (fst (analyze_document_structure s1 pages_data))
                         pages_data
     = find_document_title (fst (analyze_document_structure s2 pages_data))
                           pages_data
  /\ match pages_data with
     | [] => fst (analyze_document_structure s1 pages_data) = s1
     | _ :: _ =>
         font_hierarchy (fst (analyze_document_structure s1 pages_data))
         = Some (Extractor.hierarchy
                   (Extractor.analyze_font_distribution pages_data))
     end.
Proof.
  destruct pages_data as [|pg pages]; repeat split; reflexivity.
Qed.

(** A record without [y_pos] makes the scoring raise KeyError, whatever
    its other keys. *)
Lemma scoring_needs_y_pos (self : Detector) (e : Element) :
  y_pos e = None -> _calculate_heading_confidence self e = Raise KeyError.
Proof.
  intros E. unfold _calculate_heading_confidence, _calculate_position_score.
  rewrite E. reflexivity.
Qed.

End DetectorState.

(** ** Evaluations on the sample documents *)

Module Evaluations.
Import Samples Extractor ExtractorSpec ExtractorFacts.
#[local] Existing Instance ascii_ucd.
Local Open Scope Q_scope.

(** The score where the noise-keyword penalty and the late-page penalty
    both apply, on the smallest size band. *)
Example confidence_with_both_penalties :
  exists s,
    _calculate_heading_confidence
      {| font_hierarchy := Some fallback_hierarchy |}
      (span "see page" 7 21 500 false false false)
    = Ok s
    /\ s == 0.13.
Proof. eexists. split; [vm_compute; reflexivity|reflexivity]. Qed.

Lemma at_most_one_title_witness :
  let self := {| font_hierarchy := Some fallback_hierarchy |} in
  let hs := [ {| element := span "Annual Report" 20 1 100 true true false;
                 confidence := 0.8 |};
              {| element := span "Second Title" 20 1 200 true true false;
                 confidence := 0.8 |} ] in
  (exists classified,
     _classify_headings self hs = Ok classified
     /\ (count_titles classified <= 1)%nat)
  /\ (forall heading,
        exists lvl, _classify_heading_level self heading true = Ok lvl
                    /\ In lvl [None; Some H1; Some H2; Some H3]).
Proof. exact (at_most_one_title fallback_hierarchy _). Defined.

(** C4: the hierarchy of a stream without qualifying element is not the
    fallback hierarchy. *)
Lemma small_print_hierarchy_not_fallback : ~ returns_fallback doc_small_print.
Proof. unfold returns_fallback. vm_compute. discriminate. Qed.

Lemma no_qualifying_size_witness :
  Forall (fun e => size e < 8.0) (List.concat doc_small_print)
  /\ (let h := hierarchy (analyze_font_distribution doc_small_print) in
      h = []
      /\ dict_get h Title 16 = 16 /\ dict_get h H1 14 = 14
      /\ dict_get h H2 12 = 12 /\ dict_get h H3 10 = 10
      /\ (forall d, _create_font_hierarchy [] d = fallback_hierarchy)).
Proof.
  assert (Forall (fun e => size e < 8.0) (List.concat doc_small_print)) as H.
  { repeat constructor. }
  split; [exact H|].
  exact (no_qualifying_size_gives_empty_hierarchy doc_small_print H).
Defined.

(** C5: the scoring of a record that has only [text], [size] and [page]
    raises KeyError. *)
Example scoring_raises_without_y_pos :
  _calculate_heading_confidence new_detector (bare "Introduction" 14 1)
  = Raise KeyError.
Proof. reflexivity. Qed.

(** C6: a document with an element on page 2 and the placeholder as its
    title. *)
Lemma blank_cover_gets_placeholder :
  ~ placeholder_iff_no_elements
      (fst (analyze_document_structure new_detector doc_blank_cover))
      doc_blank_cover.
Proof.
  unfold placeholder_iff_no_elements. intros [H _].
  assert (List.concat doc_blank_cover = []) as E.
  { apply H. vm_compute. reflexivity. }
  discriminate E.
Qed.

(** The title of [doc_article] on the hierarchy of [doc_memo]: the
    numbered heading is collected and wins. *)
Example article_title_on_memo_hierarchy :
  find_document_title
    (fst (analyze_document_structure new_detector doc_memo)) doc_article
  = Ok (py "Introduction").
Proof. vm_compute. reflexivity. Qed.

Lemma title_resolution_witness :
  let self := fst (analyze_document_structure new_detector doc_memo) in
  let scanned := List.concat (firstn 2 doc_article) in
  (exists e c, In e scanned /\ collected self e c)
  /\ match find_document_title self doc_article with
     | Ok r =>
         Forall (scores self) scanned
         /\ (font_hierarchy self = None ->
             Forall (scores_below_title_grade self) scanned)
         /\ ((exists e c,
                In e scanned /\ collected self e c
                /\ r = _clean_heading_text (text e)
                /\ forall e' c', In e' scanned -> collected self e' c' ->
                                 not_above c' (size e') c (size e))
             \/ ((forall e c, In e scanned -> ~ collected self e c)
                 /\ ((exists e,
                        In e (hd [] doc_article)
                        /\ r = _clean_heading_text (text e)
                        /\ Forall (fun e' => size e' <= size e)
                                  (hd [] doc_article))
                     \/ (hd [] doc_article = [] /\ r = untitled))))
         /\ (List.concat doc_article = [] -> r = untitled)
     | Raise x =>
         (exists e, In e scanned
                    /\ _calculate_heading_confidence self e = Raise x
                    /\ (x = KeyError \/ x = IndexError))
         \/ (x = AttributeError /\ font_hierarchy self = None
             /\ Exists (scores_title_grade self) scanned)
     end.
Proof.
  cbn zeta. split.
  - exists (span "1. Introduction" 14 1 100 true true true).
    eexists. split; [right; left; reflexivity|].
    split; [vm_compute; reflexivity|].
    split; [vm_compute; discriminate|].
    eexists. split; [vm_compute; reflexivity|]. vm_compute. discriminate.
  - exact (title_resolution
             (fst (analyze_document_structure new_detector doc_memo))
             doc_article).
Defined.

(** C7: the title of [doc_article] after the analysis of [doc_poster] is
    not its title after the analysis of [doc_memo]. *)
Lemma title_depends_on_history : ~ title_independent_of_history doc_article.
Proof.
  intros H. specialize (H doc_poster doc_memo).
  vm_compute in H. discriminate H.
Qed.

(** C8: in [doc_report] the 10 pt size is more important than the larger
    14 pt size, and H1 is 10 pt. *)
Lemma report_levels_not_by_rank : ~ levels_follow_rank doc_report.
Proof.
  unfold levels_follow_rank. vm_compute. intros [H _]. discriminate H.
Qed.

Example report_hierarchy :
  hierarchy (analyze_font_distribution doc_report)
  = [(Title, 20); (H1, 10); (H2, 14); (H3, 14 - 1)].
Proof. vm_compute. reflexivity. Qed.

Lemma levels_follow_importance_witness :
  let cs := clusters (analyze_font_distribution doc_report) in
  let d := get (size_to_elements (analyze_font_distribution doc_report)) [] in
  cs <> []
  /\ (let h := _create_font_hierarchy cs d in
      let title_size := dict_get h Title 0 in
      exists sorted_clusters,
        Permutation sorted_clusters cs
        /\ StronglySorted (fun a b => importance b <= importance a)
                          sorted_clusters
        /\ match remaining_sizes title_size sorted_clusters with
           | s1 :: s2 :: s3 :: _ =>
               dict_get h H1 0 = s1 /\ dict_get h H2 0 = s2
               /\ dict_get h H3 0 = s3
           | [s1; s2] =>
               dict_get h H1 0 = s1 /\ dict_get h H2 0 = s2
               /\ dict_get h H3 0 = dict_get h H2 0 - 1
           | [s1] =>
               dict_get h H1 0 = s1 /\ dict_get h H2 0 = s1 - 1
               /\ dict_get h H3 0 = s1 - 2
           | [] =>
               dict_get h H1 0 = title_size - 2
               /\ dict_get h H2 0 = dict_get h H1 0 - 1
               /\ dict_get h H3 0 = dict_get h H1 0 - 2
           end).
Proof.
  cbn zeta.
  assert (clusters (analyze_font_distribution doc_report) <> []) as H.
  { vm_compute. discriminate. }
  split; [exact H|].
  exact (levels_follow_importance
           (get (size_to_elements (analyze_font_distribution doc_report)) [])
           H).
Defined.

(** C9: a second pass changes the text "Abc -", the result of cleaning
    "abc - -", into "Abc". *)
Lemma second_pass_changes_text :
  _post_process_outline (_post_process_outline headings_dashes)
  <> _post_process_outline headings_dashes.
Proof. vm_compute. discriminate. Qed.

Lemma post_process_idempotent_witness :
  Forall (fun o => _clean_heading_text (entry_text o) = entry_text o)
         (_post_process_outline headings_plain)
  /\ _post_process_outline (_post_process_outline headings_plain)
     = _post_process_outline headings_plain.
Proof.
  assert (Forall (fun o => _clean_heading_text (entry_text o) = entry_text o)
                 (_post_process_outline headings_plain)) as H.
  { apply Forall_forall. intros o Hin. apply pystr_eqb_true.
    revert o Hin. apply forallb_forall. vm_compute. reflexivity. }
  split; [exact H|].
  exact (post_process_idempotent_on_clean_texts headings_plain H).
Defined.

(** C10. The title resolver can return the empty string: for the document
    that consists of a large bold "2025" on page 1, that element is the
    winning candidate (confidence 0.67, at the title size), its cleaned text
    is empty, and the empty string is returned, not the placeholder. *)
Theorem title_can_be_empty :
  let self := fst (analyze_document_structure new_detector doc_year) in
  font_hierarchy self = Some [(Title, 24); (H1, 24 - 2); (H2, 24 - 2 - 1);
                              (H3, 24 - 2 - 2)]
  /\ (exists c,
        List.map (_calculate_heading_confidence self) (List.concat doc_year)
        = [Ok c] /\ c == 0.67)
  /\ _clean_heading_text (py "2025") = []
  /\ find_document_title self doc_year = Ok []
  /\ pystr_eqb [] untitled = false.
Proof.
  cbn zeta. split; [vm_compute; reflexivity|].
  split; [eexists; split; [vm_compute; reflexivity|reflexivity]|].
  repeat split; vm_compute; reflexivity.
Qed.

End Evaluations.

(* ================================================================== *)
(** * Further properties *)

Unset Implicit Arguments.

(** ** The scan of the font distribution *)

Module ScanFacts.
Import Extractor ExtractorVocabulary.
Local Open Scope Q_scope.

Lemma Qeq_bool_sym (a b : Q) : Qeq_bool a b = Qeq_bool b a.
Proof.
  destruct (Qeq_bool a b) eqn:E1, (Qeq_bool b a) eqn:E2; try reflexivity;
    qeqb; exfalso; [apply E2|apply E1]; symmetry; assumption.
Qed.

Lemma Qeq_bool_trans_l (q k k' : Q) :
  Qeq_bool k k' = true -> Qeq_bool q k = Qeq_bool q k'.
Proof.
  intros E.
  destruct (Qeq_bool q k) eqn:E1, (Qeq_bool q k') eqn:E2; try reflexivity;
    qeqb; exfalso.
  - apply E2. rewrite E1. exact E.
  - apply E1. rewrite E2. symmetry. exact E.
Qed.

Lemma Qeq_bool_apart (q k k' : Q) :
  Qeq_bool k k' = false -> Qeq_bool q k' = true -> Qeq_bool q k = false.
Proof.
  intros E E'. destruct (Qeq_bool q k) eqn:E1; [|reflexivity].
  qeqb. exfalso. apply E. rewrite <- E1. exact E'.
Qed.

Lemma counter_get_incr (c : Counter) (k q : Q) :
  counter_get (counter_incr c k) q
  = if Qeq_bool q k then S (counter_get c q) else counter_get c q.
Proof.
  induction c as [|[k' n] c IH]; simpl.
  - reflexivity.
  - destruct (Qeq_bool k k') eqn:E; simpl.
    + rewrite (Qeq_bool_trans_l q k k' E).
      destruct (Qeq_bool q k'); reflexivity.
    + destruct (Qeq_bool q k') eqn:E'.
      * rewrite (Qeq_bool_apart q k k' E E'). reflexivity.
      * exact IH.
Qed.

Lemma index_get_append (d : SizeIndex) (k q : Q) (e : Element) :
  index_get (index_append d k e) q
  = if Qeq_bool q k then index_get d q ++ [e] else index_get d q.
Proof.
  induction d as [|[k' es] d IH]; simpl.
  - reflexivity.
  - destruct (Qeq_bool k k') eqn:E; simpl.
    + rewrite (Qeq_bool_trans_l q k k' E).
      destruct (Qeq_bool q k'); reflexivity.
    + destruct (Qeq_bool q k') eqn:E'.
      * rewrite (Qeq_bool_apart q k k' E E'). reflexivity.
      * exact IH.
Qed.

Lemma sum_values_from (c : Counter) (a : nat) :
  fold_left (fun acc kv => (acc + snd kv)%nat) c a
  = (a + sum_values c)%nat.
Proof.
  unfold sum_values. revert a.
  induction c as [|kv c IH]; intros a; simpl.
  - lia.
  - rewrite IH. rewrite (IH (snd kv)). lia.
Qed.

Lemma sum_values_incr (c : Counter) (k : Q) :
  sum_values (counter_incr c k) = S (sum_values c).
Proof.
  induction c as [|[k' n] c IH].
  - reflexivity.
  - simpl. destruct (Qeq_bool k k'); unfold sum_values in *; simpl.
    + rewrite !sum_values_from. lia.
    + rewrite !sum_values_from. fold (sum_values (counter_incr c k)).
      unfold sum_values. rewrite IH. lia.
Qed.

Lemma of_size_snoc (k : Q) (qs : list Element) (e : Element) :
  of_size k (qs ++ [e])
  = of_size k qs ++ (if Qeq_bool k (size e) then [e] else []).
Proof. unfold of_size. rewrite filter_app. reflexivity. Qed.

Lemma scan_element_scanned (qs : list Element) (st : scan_state)
  (e : Element) :
  scanned qs st ->
  scanned (qs ++ filter (fun e => Qle_bool font_size_threshold (size e)) [e])
          (scan_element st e).
Proof.
  destruct st as [[fs cnt] idx]. intros (Hfs & Hcnt & Hsum & Hidx).
  unfold scan_element. cbn [filter].
  destruct (Qle_bool font_size_threshold (size e)).
  - unfold scanned. repeat split.
    + rewrite map_app, Hfs. reflexivity.
    + intros k. rewrite counter_get_incr, of_size_snoc, length_app, Hcnt.
      destruct (Qeq_bool k (size e)); simpl; lia.
    + rewrite sum_values_incr, length_app, Hsum. simpl. lia.
    + intros k. rewrite index_get_append, of_size_snoc, Hidx.
      destruct (Qeq_bool k (size e)); [reflexivity|].
      rewrite app_nil_r. reflexivity.
  - rewrite app_nil_r. repeat split; assumption.
Qed.

Lemma scan_page_scanned (page_elements qs : list Element)
  (st : scan_state) :
  scanned qs st ->
  scanned (qs ++ filter (fun e => Qle_bool font_size_threshold (size e))
                        page_elements)
          (fold_left scan_element page_elements st).
Proof.
  revert qs st. induction page_elements as [|e l IH]; intros qs st H.
  - simpl. rewrite app_nil_r. exact H.
  - cbn [fold_left].
    change (e :: l) with ([e] ++ l). rewrite filter_app, app_assoc.
    apply IH. apply scan_element_scanned. exact H.
Qed.

Lemma scan_pages_scanned (pages_data : list (list Element))
  (qs : list Element) (st : scan_state) :
  scanned qs st ->
  scanned (qs ++ qualifying pages_data)
          (fold_left
             (fun st page_elements => fold_left scan_element page_elements st)
             pages_data st).
Proof.
  revert qs st. induction pages_data as [|pg pages IH]; intros qs st H.
  - simpl. unfold qualifying. simpl. rewrite app_nil_r. exact H.
  - cbn [fold_left]. unfold qualifying. cbn [List.concat].
    rewrite filter_app, app_assoc. apply IH.
    apply scan_page_scanned. exact H.
Qed.

Lemma scan_pages_spec (pages_data : list (list Element)) :
  scanned (qualifying pages_data) (scan_pages pages_data).
Proof.
  apply (scan_pages_scanned pages_data [] ([], [], [])).
  repeat split.
Qed.

End ScanFacts.

(** ** The sizes, clusters and hierarchy of an analysis *)

Module AnalysisFacts.
Import Extractor ExtractorVocabulary ScanFacts.
Local Open Scope Q_scope.

Lemma set_of_incl (l : list Q) (x : Q) : In x (set_of l) -> In x l.
Proof.
  revert x. induction l as [|y l IH]; intros x; simpl.
  - auto.
  - intros [E|H]; [left; exact E|].
    apply filter_In in H. right. apply IH. apply H.
Qed.

Lemma set_of_covers (l : list Q) (x : Q) :
  In x l -> exists y, In y (set_of l) /\ y == x.
Proof.
  induction l as [|z l IH]; simpl; [intros []|].
  intros [E|H].
  - subst z. exists x. split; [left; reflexivity|reflexivity].
  - destruct (IH H) as (y & Hy & Eq).
    destruct (Qeq_bool z y) eqn:Ez.
    + exists z. split; [left; reflexivity|].
      apply Qeq_bool_iff in Ez. rewrite Ez. exact Eq.
    + exists y. split; [|exact Eq].
      right. apply filter_In. split; [exact Hy|]. rewrite Ez. reflexivity.
Qed.

Lemma set_of_distinct (l : list Q) :
  ForallOrdPairs (fun a b => ~ a == b) (set_of l).
Proof.
  induction l as [|y l IH]; simpl.
  - constructor.
  - constructor.
    + apply Forall_forall. intros x Hx. apply filter_In in Hx.
      destruct Hx as [_ E]. apply negb_true_iff in E.
      apply Qeq_bool_neq in E. exact E.
    + clear - IH. induction IH as [|a s Ha Hs IHs]; simpl.
      * constructor.
      * destruct (negb (Qeq_bool y a)).
        -- constructor; [|exact IHs].
           apply Forall_forall. intros x Hx. apply filter_In in Hx.
           rewrite Forall_forall in Ha. apply Ha. apply Hx.
        -- exact IHs.
Qed.

Lemma insert_sorted_strict (x : Q) (s : list Q) :
  StronglySorted (fun a b => b < a) s ->
  Forall (fun y => ~ x == y) s ->
  StronglySorted (fun a b => b < a) (insert_sorted Qgeb x s).
Proof.
  induction 1 as [|y s Hs IH Hy]; intros Hx; simpl.
  - constructor; constructor.
  - inversion Hx as [|? ? Hxy Hx']; subst.
    unfold Qgeb at 1. destruct (Qle_bool y x) eqn:E.
    + apply Qle_bool_iff in E.
      assert (y < x) as Hlt.
      { apply Qle_lteq in E. destruct E as [E|E]; [exact E|].
        exfalso. apply Hxy. symmetry. exact E. }
      constructor; [constructor; assumption|].
      constructor; [exact Hlt|].
      eapply Forall_impl; [|exact Hy].
      intros z Hz. cbn beta in Hz. lra.
    + assert (x < y) as Hlt.
      { apply Qnot_le_lt. intros L. apply Qle_bool_iff in L. congruence. }
      constructor; [apply IH; exact Hx'|].
      apply (Permutation_Forall
               (Permutation_sym (insert_sorted_perm Qgeb x s))).
      constructor; [exact Hlt|exact Hy].
Qed.

Lemma stable_sort_strict (l : list Q) :
  ForallOrdPairs (fun a b => ~ a == b) l ->
  StronglySorted (fun a b => b < a) (stable_sort Qgeb l).
Proof.
  induction 1 as [|x l Hx Hl IH]; simpl.
  - constructor.
  - apply insert_sorted_strict; [exact IH|].
    apply (Permutation_Forall (Permutation_sym (stable_sort_perm Qgeb l))).
    exact Hx.
Qed.

(** The analysis of a stream with qualifying elements, field by field. *)
Lemma analysis_unfold (pages_data : list (list Element)) :
  let qs := qualifying pages_data in
  match qs with
  | [] => analyze_font_distribution pages_data
          = {| sizes := []; counts := None; clusters := [];
               hierarchy := []; size_to_elements := None |}
  | _ :: _ =>
      exists cnt idx,
        scanned qs (List.map size qs, cnt, idx)
        /\ let unique_sizes :=
             stable_sort Qgeb (set_of (List.map size qs)) in
           let cls := _create_font_clusters unique_sizes cnt in
           analyze_font_distribution pages_data
           = {| sizes := unique_sizes; counts := Some cnt; clusters := cls;
                hierarchy := _create_font_hierarchy cls idx;
                size_to_elements := Some idx |}
  end.
Proof.
  cbn zeta. pose proof (scan_pages_spec pages_data) as H.
  unfold analyze_font_distribution.
  destruct (scan_pages pages_data) as [[fs cnt] idx].
  destruct H as (Hfs & Hrest).
  destruct (qualifying pages_data) as [|q qs] eqn:Eq.
  - subst fs. reflexivity.
  - subst fs. exists cnt, idx. split; [split; [reflexivity|exact Hrest]|].
    reflexivity.
Qed.

(** X1. The returned [counts] holds, for every size, the number of
    elements of that size that pass the 8.0 pt threshold, and its values
    add up to the number of such elements; [size_to_elements] holds, for
    every size, those elements in document order. Both are absent exactly
    when no element passes the threshold. *)
Theorem analysis_counts_and_groups (pages_data : list (list Element)) :
  let a := analyze_font_distribution pages_data in
  let qs := qualifying pages_data in
  match counts a, size_to_elements a with
  | Some cnt, Some idx =>
      (0 < List.length qs)%nat
      /\ (forall k, counter_get cnt k = List.length (of_size k qs))
      /\ sum_values cnt = List.length qs
      /\ (forall k, index_get idx k = of_size k qs)
  | None, None => qs = []
  | _, _ => False
  end.
Proof.
  cbn zeta. pose proof (analysis_unfold pages_data) as H. cbn zeta in H.
  destruct (qualifying pages_data) as [|q qs].
  - rewrite H. reflexivity.
  - destruct H as (cnt & idx & (_ & Hc & Hs & Hi) & E). rewrite E.
    cbn [counts size_to_elements]. repeat split; try assumption.
    simpl. lia.
Qed.

Lemma analysis_sizes_spec (pages_data : list (list Element)) :
  let a := analyze_font_distribution pages_data in
  StronglySorted (fun s1 s2 => s2 < s1) (sizes a)
  /\ Forall (fun s => 8.0 <= s
                      /\ exists e, In e (List.concat pages_data)
                                   /\ size e = s) (sizes a)
  /\ Forall (fun e => exists s, In s (sizes a) /\ s == size e)
            (qualifying pages_data).
Proof.
  cbn zeta. pose proof (analysis_unfold pages_data) as H. cbn zeta in H.
  destruct (qualifying pages_data) as [|q qs] eqn:Eq.
  - rewrite H. cbn [sizes]. repeat split; constructor.
  - destruct H as (cnt & idx & _ & E). rewrite E. cbn [sizes]. clear E.
    rewrite <- Eq.
    set (fs := List.map size (qualifying pages_data)).
    pose proof (stable_sort_perm Qgeb (set_of fs)) as Hp.
    split; [|split].
    + apply stable_sort_strict. apply set_of_distinct.
    + apply Forall_forall. intros s Hs.
      apply (Permutation_in _ Hp) in Hs. apply set_of_incl in Hs.
      unfold fs in Hs. apply in_map_iff in Hs.
      destruct Hs as (e & Es & He). unfold qualifying in He.
      apply filter_In in He. destruct He as [He Hq].
      apply Qle_bool_iff in Hq. unfold font_size_threshold in Hq.
      split; [rewrite <- Es; exact Hq|].
      exists e. split; assumption.
    + apply Forall_forall. intros e He.
      destruct (set_of_covers fs (size e)) as (y & Hy & Ey).
      { unfold fs. apply in_map. exact He. }
      exists y. split; [|exact Ey].
      apply (Permutation_in _ (Permutation_sym Hp)). exact Hy.
Qed.

(** X2. The returned [sizes] are strictly descending (so pairwise
    different), each is at least 8.0 and the size of an element of the
    document, and the size of every element that passes the threshold is
    among them. *)
Theorem analysis_sizes_descending (pages_data : list (list Element)) :
  let a := analyze_font_distribution pages_data in
  StronglySorted (fun s1 s2 => s2 < s1) (sizes a)
  /\ Forall (fun s => 8.0 <= s
                      /\ exists e, In e (List.concat pages_data)
                                   /\ size e = s) (sizes a)
  /\ Forall (fun e => exists s, In s (sizes a) /\ s == size e)
            (qualifying pages_data).
Proof. exact (analysis_sizes_spec pages_data). Qed.

Lemma map_size_clusters_from (ref l : list Q) (cnt : Counter) (i : nat) :
  let cls := List.map (fun ix => make_cluster ref cnt (fst ix) (snd ix))
                      (enumerate_from i l) in
  List.map c_size cls = l /\ List.map c_rank cls = seq (S i) (List.length l).
Proof.
  cbn zeta. revert i. induction l as [|s l IH]; intros i; simpl.
  - split; reflexivity.
  - destruct (IH (S i)) as [E1 E2]. rewrite E1, E2. split; reflexivity.
Qed.

Lemma map_size_clusters (all_sizes : list Q) (cnt : Counter) :
  List.map c_size (_create_font_clusters all_sizes cnt) = all_sizes
  /\ List.map c_rank (_create_font_clusters all_sizes cnt)
     = seq 1 (List.length all_sizes).
Proof. exact (map_size_clusters_from all_sizes all_sizes cnt 0). Qed.

Lemma in_clusters (all_sizes : list Q) (cnt : Counter) (c : Cluster) :
  In c (_create_font_clusters all_sizes cnt) ->
  exists i sz, In sz all_sizes /\ c = make_cluster all_sizes cnt i sz.
Proof.
  unfold _create_font_clusters. intros H. apply in_map_iff in H.
  destruct H as ([i sz] & E & Hin). exists i, sz. split; [|symmetry; exact E].
  clear E. revert Hin. generalize 0%nat as j.
  induction all_sizes as [|s l IH]; intros j; simpl; [intros []|].
  intros [E|H]; [left; congruence|right; eapply IH; exact H].
Qed.

Lemma py_max_ge (l : list Q) (x : Q) : In x l -> x <= py_max l.
Proof.
  destruct l as [|y l]; [intros []|]. unfold py_max.
  pose proof (py_max_from_spec (fun q : Q => q) l y) as H.
  cbn zeta beta in H. destruct H as (_ & Hy & Hl).
  intros [E|H]; [subst x; exact Hy|].
  rewrite Forall_forall in Hl. apply Hl. exact H.
Qed.

Lemma Q_of_nat_le (n m : nat) : (n <= m)%nat -> Q_of_nat n <= Q_of_nat m.
Proof.
  intros H. unfold Q_of_nat. rewrite <- Zle_Qle. lia.
Qed.

Lemma ratio_in_unit (a b : Q) : 0 < a -> a <= b -> 0 < a / b <= 1.
Proof.
  intros Ha Hab. assert (0 < b) as Hb by lra. split.
  - apply Qlt_shift_div_l; [exact Hb|]. lra.
  - apply Qle_shift_div_r; [exact Hb|]. lra.
Qed.

(** X3. The clusters mirror [sizes]: same sizes in the same order, ranks
    1, 2, ... Each cluster counts the elements of its size that pass the
    threshold (at least one), and its importance lies in (0, 1]: both
    quotients have a positive denominator. *)
Theorem analysis_clusters_ranked (pages_data : list (list Element)) :
  let a := analyze_font_distribution pages_data in
  List.map c_size (clusters a) = sizes a
  /\ List.map c_rank (clusters a) = seq 1 (List.length (sizes a))
  /\ Forall (fun c =>
               c_count c
               = List.length (of_size (c_size c) (qualifying pages_data))
               /\ (1 <= c_count c)%nat
               /\ 0 < importance c <= 1)
            (clusters a).
Proof.
  cbn zeta. pose proof (analysis_unfold pages_data) as H. cbn zeta in H.
  pose proof (analysis_sizes_spec pages_data) as Hsz. cbn zeta in Hsz.
  destruct (qualifying pages_data) as [|q0 qs0] eqn:Eq.
  - rewrite H. cbn. repeat split; constructor.
  - destruct H as (cnt & idx & (_ & Hc & Hs & _) & E).
    rewrite E in Hsz |- *. cbn [sizes clusters] in Hsz |- *.
    rewrite <- Eq in *. clear E.
    set (fs := stable_sort Qgeb
                 (set_of (List.map size (qualifying pages_data)))) in *.
    destruct (map_size_clusters fs cnt) as [E1 E2].
    split; [exact E1|]. split; [exact E2|].
    apply Forall_forall. intros c Hin.
    apply in_clusters in Hin. destruct Hin as (i & sz & Hsz_in & Ec).
    destruct Hsz as (_ & Hge & _). rewrite Forall_forall in Hge.
    destruct (Hge sz Hsz_in) as (H8 & e & He & Ee).
    assert (In e (qualifying pages_data)) as Hq.
    { unfold qualifying. apply filter_In. split; [exact He|].
      apply Qle_bool_iff. rewrite Ee. exact H8. }
    assert (In e (of_size sz (qualifying pages_data))) as Hof.
    { unfold of_size. apply filter_In. split; [exact Hq|].
      apply Qeq_bool_iff. rewrite Ee. reflexivity. }
    assert (1 <= counter_get cnt sz)%nat as Hone.
    { rewrite Hc. destruct (of_size sz (qualifying pages_data));
        [destruct Hof|simpl; lia]. }
    assert (counter_get cnt sz <= sum_values cnt)%nat as Htot.
    { rewrite Hc, Hs. unfold of_size. apply filter_length_le. }
    subst c. cbn [make_cluster c_count c_size importance].
    split; [apply Hc|]. split; [exact Hone|].
    assert (0 < sz / py_max fs <= 1) as Hr.
    { destruct fs as [|f0 fs'] eqn:Ef; [destruct Hsz_in|]. rewrite <- Ef in *.
      apply ratio_in_unit; [lra|]. apply py_max_ge. exact Hsz_in. }
    assert (0 < Q_of_nat (counter_get cnt sz) / Q_of_nat (sum_values cnt) <= 1)
      as Hf.
    { apply ratio_in_unit; [|apply Q_of_nat_le; exact Htot].
      apply Qlt_le_trans with (Q_of_nat 1); [reflexivity|].
      apply Q_of_nat_le. exact Hone. }
    destruct fs as [|f0 fs'] eqn:Ef; [destruct Hsz_in|]. rewrite <- Ef in *.
    lra.
Qed.

Lemma py_max_from_in {A : Type} (ltb : A -> A -> bool) (l : list A)
  (best : A) : In (py_max_from ltb best l) (best :: l).
Proof.
  revert best. induction l as [|y l IH]; intros best; simpl.
  - left; reflexivity.
  - destruct (IH (if ltb best y then y else best)) as [E|H].
    + destruct (ltb best y); [right; left|left]; exact E.
    + right; right; exact H.
Qed.

Lemma in_firstn {A : Type} (n : nat) (l : list A) (x : A) :
  In x (firstn n l) -> In x l.
Proof.
  intros H. rewrite <- (firstn_skipn n l). apply in_or_app. left. exact H.
Qed.

Lemma choose_title_in (d : SizeIndex) (c0 : Cluster) (cs : list Cluster) :
  In (choose_title d (c0 :: cs)) (List.map c_size (c0 :: cs)).
Proof.
  unfold choose_title.
  destruct (title_candidates d (c0 :: cs)) as [|cand cands] eqn:E.
  - left; reflexivity.
  - pose proof (py_max_from_in (fun a b => (snd a <? snd b)%nat) cands cand)
      as Hin.
    rewrite <- E in Hin. unfold title_candidates in Hin.
    apply in_flat_map in Hin. destruct Hin as (c & Hc & Hm).
    apply in_firstn in Hc.
    destruct (early_count d c); [destruct Hm|].
    destruct Hm as [Em|[]]. rewrite <- Em. cbn [fst].
    apply in_map. exact Hc.
Qed.

Lemma hierarchy_shape (cs : list Cluster) (d : SizeIndex) :
  cs <> [] ->
  exists t h1 h2 h3,
    _create_font_hierarchy cs d = [(Title, t); (H1, h1); (H2, h2); (H3, h3)]
    /\ In t (List.map c_size cs)
    /\ ~ h1 == t.
Proof.
  intros Hne. destruct cs as [|c0 cs0]; [contradiction|].
  unfold _create_font_hierarchy.
  pose proof (stable_sort_perm by_importance_desc (c0 :: cs0)) as Hp.
  set (sorted_clusters := stable_sort by_importance_desc (c0 :: cs0)) in *.
  assert (In (choose_title d sorted_clusters) (List.map c_size (c0 :: cs0)))
    as Ht.
  { apply (Permutation_in _ (Permutation_map c_size Hp)).
    destruct sorted_clusters as [|s0 ss].
    - apply Permutation_nil in Hp. discriminate Hp.
    - apply choose_title_in. }
  set (t := choose_title d sorted_clusters) in *.
  destruct (remaining_sizes t sorted_clusters) as [|r0 rs] eqn:E.
  - cbn. do 4 eexists. split; [reflexivity|]. split; [exact Ht|]. lra.
  - assert (~ r0 == t) as Hr.
    { assert (In r0 (remaining_sizes t sorted_clusters)) as Hin
        by (rewrite E; left; reflexivity).
      unfold remaining_sizes in Hin. apply in_map_iff in Hin.
      destruct Hin as (c & Ec & Hc). apply filter_In in Hc.
      destruct Hc as [_ Hc]. apply negb_true_iff, Qeq_bool_neq in Hc.
      rewrite <- Ec. exact Hc. }
    destruct rs as [|r1 [|r2 rest]]; cbn; do 4 eexists;
      (split; [reflexivity|]); (split; [exact Ht|exact Hr]).
Qed.

(** X4. The hierarchy of an analysis is either empty, when no element
    passes the 8.0 pt threshold, or maps exactly the four levels title, H1,
    H2, H3, in this order; the title size is then the size of an element
    that passes the threshold, and the H1 size differs from it. *)
Theorem analysis_hierarchy_empty_or_complete
  (pages_data : list (list Element)) :
  let h := hierarchy (analyze_font_distribution pages_data) in
  (qualifying pages_data = [] /\ h = [])
  \/ (exists t h1 h2 h3,
        h = [(Title, t); (H1, h1); (H2, h2); (H3, h3)]
        /\ (exists e, In e (qualifying pages_data) /\ size e = t)
        /\ ~ h1 == t).
Proof.
  cbn zeta. pose proof (analysis_unfold pages_data) as H. cbn zeta in H.
  pose proof (analysis_sizes_spec pages_data) as Hsz. cbn zeta in Hsz.
  destruct (qualifying pages_data) as [|q0 qs0] eqn:Eq.
  - left. rewrite H. split; reflexivity.
  - right. destruct H as (cnt & idx & _ & E).
    rewrite E in Hsz |- *. cbn [sizes hierarchy] in Hsz |- *.
    rewrite <- Eq in *. clear E.
    set (fs := stable_sort Qgeb
                 (set_of (List.map size (qualifying pages_data)))) in *.
    destruct (map_size_clusters fs cnt) as [E1 _].
    destruct (hierarchy_shape (_create_font_clusters fs cnt) idx)
      as (t & h1 & h2 & h3 & Eh & Ht & Hn).
    { intros Enil. rewrite Enil in E1. simpl in E1.
      assert (In (size q0) (List.map size (qualifying pages_data))) as Hin
        by (rewrite Eq; left; reflexivity).
      destruct (set_of_covers _ _ Hin) as (y & Hy & _).
      apply (Permutation_in _ (Permutation_sym (stable_sort_perm Qgeb _)))
        in Hy.
      fold fs in Hy. rewrite <- E1 in Hy. destruct Hy. }
    exists t, h1, h2, h3. split; [exact Eh|]. split; [|exact Hn].
    rewrite E1 in Ht.
    destruct Hsz as (_ & Hge & _). rewrite Forall_forall in Hge.
    destruct (Hge t Ht) as (H8 & e & He & Ee).
    exists e. split; [|exact Ee].
    unfold qualifying. apply filter_In. split; [exact He|].
    apply Qle_bool_iff. rewrite Ee. exact H8.
Qed.

Lemma set_of_single (x : Q) (l : list Q) :
  Forall (fun y => y == x) l -> set_of (x :: l) = [x].
Proof.
  intros H. simpl. f_equal.
  assert (Forall (fun y => y == x) (set_of l)) as H'.
  { apply Forall_forall. intros y Hy. apply set_of_incl in Hy.
    rewrite Forall_forall in H. apply H. exact Hy. }
  induction H' as [|y s Hy Hs IH]; simpl; [reflexivity|].
  assert (Qeq_bool x y = true) as E
    by (apply Qeq_bool_iff; symmetry; exact Hy).
  rewrite E. exact IH.
Qed.

(** X5. When all elements that pass the threshold have one size S, the
    hierarchy is title = S, H1 = S - 2, H2 = S - 3 and H3 = S - 4 (the
    last two computed as (S - 2) - 1 and (S - 2) - 2). *)
Theorem single_size_hierarchy (pages_data : list (list Element))
  (q : Element) (qs : list Element) :
  qualifying pages_data = q :: qs ->
  Forall (fun e => size e == size q) qs ->
  hierarchy (analyze_font_distribution pages_data)
  = [(Title, size q); (H1, size q - 2); (H2, size q - 2 - 1);
     (H3, size q - 2 - 2)].
Proof.
  intros Eq Hall.
  pose proof (analysis_unfold pages_data) as H. cbn zeta in H.
  rewrite Eq in H. destruct H as (cnt & idx & _ & E). rewrite E.
  cbn [hierarchy]. cbn [List.map].
  rewrite set_of_single.
  - cbn [stable_sort insert_sorted _create_font_clusters enumerate_from
         List.map fst snd].
    unfold _create_font_hierarchy.
    cbn [stable_sort insert_sorted].
    set (c := make_cluster [size q] cnt 0 (size q)).
    assert (choose_title idx [c] = size q) as Et.
    { unfold choose_title, title_candidates. cbn [firstn flat_map].
      destruct (early_count idx c); reflexivity. }
    rewrite Et. unfold remaining_sizes. cbn [filter].
    assert (Qeq_bool (c_size c) (size q) = true) as Eqb
      by (apply Qeq_bool_iff; reflexivity).
    rewrite Eqb. reflexivity.
  - apply Forall_forall. intros y Hy. apply in_map_iff in Hy.
    destruct Hy as (e & Ee & He). rewrite Forall_forall in Hall.
    rewrite <- Ee. apply Hall. exact He.
Qed.

End AnalysisFacts.

(** ** More on the confidence score *)

Section ScoringFacts.
Context {U : Ucd}.
Local Open Scope Q_scope.

Lemma size_score_monotone (self : Detector) (s1 s2 : Q) :
  s1 <= s2 ->
  _calculate_size_score self s1 <= _calculate_size_score self s2.
Proof.
  intros Hle. unfold _calculate_size_score.
  destruct (font_hierarchy self) as [[|kv h]|]; qle_cases; lra.
Qed.

Lemma cap_monotone (a b : Q) :
  a <= b ->
  (if Qltb 1.0 a then 1.0 else a) <= (if Qltb 1.0 b then 1.0 else b).
Proof.
  intros Hle.
  destruct (Qltb 1.0 a) eqn:Ea, (Qltb 1.0 b) eqn:Eb;
    try apply Qltb_true in Ea; try apply Qltb_true in Eb;
    try apply Qltb_false in Ea; try apply Qltb_false in Eb; lra.
Qed.

(** X6. With all other keys fixed, a larger font size never lowers the
    confidence, and it does not change whether the scoring raises. *)
Theorem confidence_monotone_in_size (self : Detector) (e : Element)
  (s1 s2 : Q) :
  s1 <= s2 ->
  match _calculate_heading_confidence self (with_size e s1),
        _calculate_heading_confidence self (with_size e s2) with
  | Ok c1, Ok c2 => c1 <= c2
  | Raise x1, Raise x2 => x1 = x2
  | _, _ => False
  end.
Proof.
  intros Hle. pose proof (size_score_monotone self s1 s2 Hle) as Hs.
  unfold _calculate_heading_confidence.
  change (_calculate_position_score (with_size e s1))
    with (_calculate_position_score e).
  change (_calculate_position_score (with_size e s2))
    with (_calculate_position_score e).
  change (_calculate_special_score (with_size e s1))
    with (_calculate_special_score e).
  change (_calculate_special_score (with_size e s2))
    with (_calculate_special_score e).
  cbn [with_size text size is_bold language_type].
  destruct (_calculate_position_score e) as [p|x]; cbn [bind];
    [|reflexivity].
  destruct (_calculate_pattern_score _ _) as [q|x]; cbn [bind];
    [|reflexivity].
  apply cap_monotone.
  destruct (get (is_bold e) false); lra.
Qed.

(** The sum of the weighted terms, before the cap. *)
Lemma heading_confidence_range (self : Detector) (e : Element) (s : Q) :
  _calculate_heading_confidence self e = Ok s -> 0.04 <= s <= 0.935.
Proof.
  unfold _calculate_heading_confidence.
  pose proof (size_score_bounds self (size e)) as Hsize.
  pose proof (position_score_spec e) as Hpos.
  pose proof (pattern_score_spec (text e) (get (language_type e) Latin))
    as Hpat.
  pose proof (length_score_bounds (text e)) as Hlen.
  pose proof (special_score_bounds e) as Hspec.
  destruct (_calculate_position_score e) as [p|x]; cbn [bind];
    [|discriminate].
  destruct (_calculate_pattern_score _ _) as [q|x]; cbn [bind];
    [|discriminate].
  intros E. injection E as E. subst s.
  destruct (get (is_bold e) false);
    match goal with
    | |- context [Qltb ?u ?v] =>
        destruct (Qltb u v) eqn:E;
        [apply Qltb_true in E; lra | lra]
    end.
Qed.

(** X7. The cap at 1.0 is never reached: every score that is returned
    lies between 0.04 and 0.935, the least and the greatest sum of the
    weighted terms. *)
Theorem confidence_never_capped (self : Detector) (e : Element) :
  match _calculate_heading_confidence self e with
  | Ok s => 0.04 <= s <= 0.935
  | Raise x => x = KeyError \/ x = IndexError
  end.
Proof.
  pose proof (heading_confidence_range self e) as H.
  pose proof (heading_confidence_spec self e) as H'.
  destruct (_calculate_heading_confidence self e) as [s|x].
  - apply H. reflexivity.
  - destruct H' as [[E _]|[E _]]; [left|right]; exact E.
Qed.

(** X8. Setting the bold flag raises the score: the score of an element
    with the flag set is above the score of the same element with the flag
    cleared. An absent flag scores like a cleared one, and the flag does not
    change whether or how the scoring raises. *)
Theorem bold_raises_confidence (self : Detector) (e : Element) :
  match _calculate_heading_confidence self (with_bold e true),
        _calculate_heading_confidence self (with_bold e false) with
  | Ok cb, Ok cn =>
      cn < cb
      /\ (is_bold e = None ->
          _calculate_heading_confidence self e = Ok cn)
  | Raise x1, Raise x2 => x1 = x2
  | _, _ => False
  end.
Proof.
  pose proof (heading_confidence_range self (with_bold e true)) as Hb.
  pose proof (heading_confidence_range self (with_bold e false)) as Hn.
  assert (is_bold e = None ->
          _calculate_heading_confidence self e
          = _calculate_heading_confidence self (with_bold e false)) as Habs.
  { intros E. unfold _calculate_heading_confidence.
    change (_calculate_position_score (with_bold e false))
      with (_calculate_position_score e).
    change (_calculate_special_score (with_bold e false))
      with (_calculate_special_score e).
    cbn [with_bold text size is_bold language_type]. rewrite E.
    reflexivity. }
  revert Hb Hn Habs. unfold _calculate_heading_confidence.
  change (_calculate_position_score (with_bold e true))
    with (_calculate_position_score e).
  change (_calculate_position_score (with_bold e false))
    with (_calculate_position_score e).
  change (_calculate_special_score (with_bold e true))
    with (_calculate_special_score e).
  change (_calculate_special_score (with_bold e false))
    with (_calculate_special_score e).
  cbn [with_bold text size is_bold language_type get].
  destruct (_calculate_position_score e) as [p|x]; cbn [bind];
    [|reflexivity].
  destruct (_calculate_pattern_score _ _) as [q|x]; cbn [bind];
    [|reflexivity].
  intros Hb Hn Habs.
  specialize (Hb _ eq_refl). specialize (Hn _ eq_refl).
  split; [|exact Habs].
  revert Hb Hn.
  repeat match goal with
         | |- context [Qltb ?u ?v] =>
             let E := fresh "E" in
             destruct (Qltb u v) eqn:E;
             [apply Qltb_true in E|apply Qltb_false in E]
         end; intros; lra.
Qed.

End ScoringFacts.

(** ** Candidate selection *)

Lemma key3_leb_spec (p1 p2 : Z) (c1 c2 y1 y2 : Q) :
  key3_leb (p1, c1, y1) (p2, c2, y2) = true
  <-> (p1 < p2)%Z
      \/ (p1 = p2 /\ (c1 < c2 \/ (c1 == c2 /\ y1 <= y2)))%Q.
Proof.
  unfold key3_leb.
  rewrite orb_true_iff, andb_true_iff, orb_true_iff, andb_true_iff.
  rewrite Z.ltb_lt, Z.eqb_eq, Qltb_true, Qeq_bool_iff, Qle_bool_iff.
  reflexivity.
Qed.

Lemma key3_leb_total (a b : Z * Q * Q) :
  key3_leb a b = false -> key3_leb b a = true.
Proof.
  destruct a as [[p1 c1] y1], b as [[p2 c2] y2]. intros E.
  apply key3_leb_spec.
  assert (~ ((p1 < p2)%Z
             \/ (p1 = p2 /\ (c1 < c2 \/ (c1 == c2 /\ y1 <= y2)))%Q)) as N.
  { intros L. apply key3_leb_spec in L. congruence. }
  destruct (Z.lt_trichotomy p2 p1) as [L|[L|L]];
    [left; exact L| |exfalso; apply N; left; exact L].
  right. split; [exact L|]. symmetry in L.
  destruct (Qlt_le_dec c2 c1) as [C|C]; [left; exact C|].
  destruct (Qlt_le_dec c1 c2) as [C'|C'];
    [exfalso; apply N; right; split; [exact L|left; exact C']|].
  right. split; [lra|].
  destruct (Qlt_le_dec y1 y2) as [Y|Y]; [|exact Y].
  exfalso. apply N. right. split; [exact L|]. right. split; lra.
Qed.

Lemma key3_leb_trans (a b c : Z * Q * Q) :
  key3_leb a b = true -> key3_leb b c = true -> key3_leb a c = true.
Proof.
  destruct a as [[p1 c1] y1], b as [[p2 c2] y2], c as [[p3 c3] y3].
  rewrite !key3_leb_spec.
  intros [H1|[H1 H1']] [H2|[H2 H2']].
  - left; lia.
  - left; lia.
  - left; lia.
  - right. split; [lia|].
    destruct H1' as [H1'|[H1' H1'']], H2' as [H2'|[H2' H2'']].
    + left; lra.
    + left; lra.
    + left; lra.
    + right; split; lra.
Qed.

Section CandidateFacts.
Context {U : Ucd}.
Local Open Scope Q_scope.

Lemma collect_elements (self : Detector) (l : list Element)
  (acc : list Candidate) :
  match foldM (collect_step self) l acc with
  | Ok r => Forall (scorable_by self) l
            /\ r = acc ++ flat_map (heading_candidate self) l
  | Raise x => exists e, In e l
                         /\ _calculate_heading_confidence self e = Raise x
  end.
Proof.
  revert acc. induction l as [|e l IH]; intros acc; cbn [foldM flat_map].
  - split; [constructor|]. rewrite app_nil_r. reflexivity.
  - unfold collect_step at 1, heading_candidate at 1.
    destruct (_calculate_heading_confidence self e) as [c|x] eqn:E;
      cbn [bind].
    + specialize (IH (if Qle_bool min_confidence c
                      then acc ++ [{| element := e; confidence := c |}]
                      else acc)).
      revert IH. destruct (foldM (collect_step self) l _) as [r|x]; intros IH.
      * destruct IH as [Hall Er]. split.
        -- constructor; [exists c; exact E|exact Hall].
        -- rewrite Er. destruct (Qle_bool min_confidence c).
           ++ rewrite <- app_assoc. reflexivity.
           ++ reflexivity.
      * destruct IH as (e' & Hin & E'). exists e'.
        split; [right; exact Hin|exact E'].
    + exists e. split; [left; reflexivity|exact E].
Qed.

Lemma collect_pages (self : Detector) (ps : list (list Element))
  (acc : list Candidate) :
  match foldM (fun acc page_elements =>
                 foldM (collect_step self) page_elements acc) ps acc with
  | Ok r => Forall (scorable_by self) (List.concat ps)
            /\ r = acc ++ flat_map (heading_candidate self) (List.concat ps)
  | Raise x => exists e, In e (List.concat ps)
                         /\ _calculate_heading_confidence self e = Raise x
  end.
Proof.
  revert acc. induction ps as [|pg ps IH]; intros acc;
    cbn [foldM List.concat].
  - split; [constructor|]. rewrite app_nil_r. reflexivity.
  - pose proof (collect_elements self pg acc) as Hpg.
    destruct (foldM (collect_step self) pg acc) as [r1|x]; cbn [bind].
    + destruct Hpg as [Hall1 E1]. specialize (IH r1).
      revert IH. destruct (foldM _ ps r1) as [r|x]; intros IH.
      * destruct IH as [Hall Er]. split.
        -- apply Forall_app. split; assumption.
        -- rewrite Er, E1, flat_map_app, app_assoc. reflexivity.
      * destruct IH as (e & Hin & E). exists e.
        split; [apply in_or_app; right; exact Hin|exact E].
    + destruct Hpg as (e & Hin & E). exists e.
      split; [apply in_or_app; left; exact Hin|exact E].
Qed.

Lemma in_heading_candidate (self : Detector) (l : list Element)
  (c : Candidate) :
  In c (flat_map (heading_candidate self) l) ->
  In (element c) l
  /\ _calculate_heading_confidence self (element c) = Ok (confidence c)
  /\ 0.4 <= confidence c.
Proof.
  intros H. apply in_flat_map in H. destruct H as (e & Hin & Hc).
  unfold heading_candidate in Hc.
  destruct (_calculate_heading_confidence self e) as [s|x] eqn:E;
    [|destruct Hc].
  destruct (Qle_bool min_confidence s) eqn:Em; [|destruct Hc].
  destruct Hc as [Ec|[]]. subst c. cbn [element confidence].
  apply Qle_bool_iff in Em. unfold min_confidence in Em.
  repeat split; assumption.
Qed.

Lemma scored_has_y_pos (self : Detector) (e : Element) (c : Q) :
  _calculate_heading_confidence self e = Ok c ->
  exists y, y_pos e = Some y.
Proof.
  intros E. destruct (y_pos e) as [y|] eqn:Ey; [exists y; reflexivity|].
  rewrite (scoring_needs_y_pos self e Ey) in E. discriminate E.
Qed.

Lemma keys_of_candidates (cands : list Candidate)
  (acc : list ((Z * Q * Q) * Candidate)) :
  Forall (fun c => exists y, y_pos (element c) = Some y) cands ->
  foldM (fun acc c => k <- heading_key c ;; Ok (acc ++ [(k, c)])) cands acc
  = Ok (acc ++ List.map (fun c => (key_of c, c)) cands).
Proof.
  intros H. revert acc.
  induction H as [|c l [y Ey] Hl IH]; intros acc; cbn [foldM List.map].
  - rewrite app_nil_r. reflexivity.
  - unfold heading_key at 1, key_of at 1. rewrite Ey. cbn [getitem bind get].
    rewrite IH, <- app_assoc. reflexivity.
Qed.

Lemma potential_headings_spec (self : Detector)
  (pages_data : list (list Element)) :
  match _find_potential_headings self pages_data with
  | Ok cands =>
      Forall (scorable_by self) (List.concat pages_data)
      /\ Permutation cands
           (flat_map (heading_candidate self) (List.concat pages_data))
      /\ StronglySorted candidate_le cands
  | Raise x =>
      exists e, In e (List.concat pages_data)
                /\ _calculate_heading_confidence self e = Raise x
  end.
Proof.
  unfold _find_potential_headings.
  pose proof (collect_pages self pages_data []) as H.
  change (fun (acc : list Candidate) (page_elements : list Element) =>
            foldM (fun acc0 e =>
                     c <- _calculate_heading_confidence self e ;;
                     Ok (if Qle_bool min_confidence c
                         then acc0 ++ [{| element := e; confidence := c |}]
                         else acc0)) page_elements acc)
    with (fun (acc : list Candidate) (page_elements : list Element) =>
            foldM (collect_step self) page_elements acc).
  destruct (foldM _ pages_data []) as [r|x]; cbn [bind]; [|exact H].
  destruct H as [Hall Er]. cbn [app] in Er. subst r.
  set (cands := flat_map (heading_candidate self) (List.concat pages_data)).
  rewrite (keys_of_candidates cands []).
  - cbn [bind app].
    set (keyed := List.map (fun c => (key_of c, c)) cands).
    set (leb := fun a b : (Z * Q * Q) * Candidate =>
                  key3_leb (fst a) (fst b)).
    pose proof (stable_sort_perm leb keyed) as Hp.
    assert (List.map snd keyed = cands) as Esnd.
    { unfold keyed. rewrite map_map. cbn [snd]. apply map_id. }
    split; [exact Hall|]. split.
    + rewrite <- Esnd. apply Permutation_map. exact Hp.
    + assert (StronglySorted (le_of leb) (stable_sort leb keyed)) as Hs.
      { apply stable_sort_sorted.
        - intros a b. apply key3_leb_total.
        - intros a b c. apply key3_leb_trans. }
      assert (Forall (fun kc => fst kc = key_of (snd kc))
                     (stable_sort leb keyed)) as Hk.
      { apply (Permutation_Forall (Permutation_sym Hp)).
        unfold keyed. apply Forall_forall. intros kc Hin.
        apply in_map_iff in Hin. destruct Hin as (c & E & _).
        subst kc. reflexivity. }
      clear - Hs Hk.
      induction Hs as [|a l Hs IH Ha]; cbn [List.map]; constructor.
      * apply IH. inversion Hk; assumption.
      * inversion Hk as [|? ? Hka Hkl]; subst.
        apply Forall_forall. intros b Hb. apply in_map_iff in Hb.
        destruct Hb as (kb & Eb & Hin). subst b.
        rewrite Forall_forall in Ha, Hkl.
        specialize (Ha kb Hin). specialize (Hkl kb Hin).
        unfold le_of, leb in Ha. rewrite Hka, Hkl in Ha.
        unfold key_of in Ha. apply key3_leb_spec in Ha.
        unfold candidate_le.
        destruct Ha as [Ha|[Ha Ha']]; [left; exact Ha|].
        right. split; [exact Ha|].
        destruct Ha' as [Ha'|[Ha' Ha'']]; [left; lra|right; split; lra].
  - apply Forall_forall. intros c Hin.
    apply in_heading_candidate in Hin. destruct Hin as (_ & E & _).
    eapply scored_has_y_pos. exact E.
Qed.

(** X9. [_find_potential_headings] returns a list exactly when the scoring
    of every element returns: the list then holds, for each element with a
    score of at least 0.4, the element with its score and nothing else, in
    the order of page, then descending confidence, then vertical position.
    Otherwise it raises the exception of the scoring of an element. *)
Theorem potential_headings_selected (self : Detector)
  (pages_data : list (list Element)) :
  match _find_potential_headings self pages_data with
  | Ok cands =>
      Forall (scorable_by self) (List.concat pages_data)
      /\ Permutation cands
           (flat_map (heading_candidate self) (List.concat pages_data))
      /\ StronglySorted candidate_le cands
      /\ Forall (fun c =>
                   In (element c) (List.concat pages_data)
                   /\ _calculate_heading_confidence self (element c)
                      = Ok (confidence c)
                   /\ 0.4 <= confidence c) cands
  | Raise x =>
      exists e, In e (List.concat pages_data)
                /\ _calculate_heading_confidence self e = Raise x
  end.
Proof.
  pose proof (potential_headings_spec self pages_data) as H.
  destruct (_find_potential_headings self pages_data) as [cands|x];
    [|exact H].
  destruct H as (Hall & Hp & Hs). repeat split; try assumption.
  apply Forall_forall. intros c Hin.
  apply in_heading_candidate. apply (Permutation_in _ Hp). exact Hin.
Qed.

End CandidateFacts.

(** ** More on classification *)

Section ClassificationFacts.
Context {U : Ucd}.
Local Open Scope Q_scope.

(** X10. A heading is given the level title only when no title was found
    before, it is on page 1 or 2, its confidence is at least 0.6, its size
    at least the title size minus 1, it has at most ten words and its text
    holds no noise keyword. *)
Theorem title_only_when_eligible (h : FontHierarchy) (heading : Candidate)
  (title_found : bool) :
  _classify_heading_level {| font_hierarchy := Some h |} heading title_found
  = Ok (Some Title) ->
  title_found = false
  /\ (page (element heading) <= 2)%Z
  /\ 0.6 <= confidence heading
  /\ dict_get h Title 16 - 1 <= size (element heading)
  /\ (List.length (str_split (text (element heading))) <= 10)%nat
  /\ has_exclude_keyword (str_lower (text (element heading))) = false.
Proof.
  unfold _classify_heading_level. cbn [font_hierarchy bind].
  match goal with
  | |- context [if ?c then Ok (Some Title) else _] => destruct c eqn:E
  end.
  - intros _. repeat (apply andb_true_iff in E; destruct E as [E ?]).
    repeat split.
    + apply negb_true_iff. exact E.
    + apply Z.leb_le. assumption.
    + apply Qle_bool_iff. assumption.
    + apply Qle_bool_iff. assumption.
    + apply Nat.leb_le. assumption.
    + apply negb_true_iff. assumption.
  - repeat match goal with
           | |- context [if ?b then _ else _] => destruct b
           end; intros H; discriminate H.
Qed.

(** X11. A heading is dropped (no level) only when its size is below the
    H3 size minus 0.5 (and below the H1 and H2 sizes minus 0.5) and its
    text starts with none of the three numbering patterns; a heading whose
    size is at least the H1 size minus 0.5 becomes title or H1. *)
Theorem dropped_only_when_small (h : FontHierarchy) (heading : Candidate)
  (title_found : bool) :
  let result :=
    _classify_heading_level {| font_hierarchy := Some h |} heading
                            title_found in
  let sz := size (element heading) in
  (result = Ok None ->
     sz < dict_get h H1 14 - 0.5 /\ sz < dict_get h H2 12 - 0.5
     /\ sz < dict_get h H3 10 - 0.5
     /\ re_match numbered_1 (text (element heading)) = false
     /\ re_match numbered_2 (text (element heading)) = false
     /\ re_match numbered_3 (text (element heading)) = false)
  /\ (dict_get h H1 14 - 0.5 <= sz ->
      result = Ok (Some Title) \/ result = Ok (Some H1)).
Proof.
  cbn zeta. unfold _classify_heading_level. cbn [font_hierarchy bind].
  match goal with
  | |- context [if ?c then Ok (Some Title) else _] => destruct c
  end.
  - split; [intros H; discriminate H|]. intros _. left. reflexivity.
  - destruct (Qle_bool (dict_get h H1 14 - 0.5) (size (element heading)))
      eqn:E1.
    + split; [intros H; discriminate H|]. intros _. right. reflexivity.
    + assert (size (element heading) < dict_get h H1 14 - 0.5) as L1.
      { apply Qnot_le_lt. intros L. apply Qle_bool_iff in L. congruence. }
      split; [|intros L; exfalso; lra].
      destruct (Qle_bool (dict_get h H2 12 - 0.5) (size (element heading)))
        eqn:E2; [intros H; discriminate H|].
      destruct (Qle_bool (dict_get h H3 10 - 0.5) (size (element heading)))
        eqn:E3; [intros H; discriminate H|].
      destruct (re_match numbered_1 _); [intros H; discriminate H|].
      destruct (re_match numbered_2 _); [intros H; discriminate H|].
      destruct (re_match numbered_3 _); [intros H; discriminate H|].
      intros _. repeat split; try reflexivity; try exact L1;
        apply Qnot_le_lt; intros L; apply Qle_bool_iff in L; congruence.
Qed.

Lemma classify_step_copies (h : FontHierarchy) (all : list Candidate)
  (st : list ClassifiedHeading * bool) (heading : Candidate) :
  In heading all ->
  Forall (copied_from all) (fst st) ->
  exists st',
    classify_step {| font_hierarchy := Some h |} st heading = Ok st'
    /\ Forall (copied_from all) (fst st')
    /\ (List.length (fst st') <= S (List.length (fst st)))%nat.
Proof.
  destruct st as [classified title_found]. cbn [fst]. intros Hin Hall.
  unfold classify_step.
  destruct (classify_level_defined h heading title_found) as (lvl & E & _).
  rewrite E. cbn [bind]. destruct lvl as [l|].
  - eexists. split; [reflexivity|]. cbn [fst]. split.
    + apply Forall_app. split; [exact Hall|]. constructor; [|constructor].
      exists heading. cbn. repeat split; try reflexivity. exact Hin.
    + rewrite length_app. simpl. lia.
  - eexists. split; [reflexivity|]. cbn [fst]. split; [exact Hall|lia].
Qed.

Lemma classify_fold_copies (h : FontHierarchy) (all hs : list Candidate)
  (st : list ClassifiedHeading * bool) :
  incl hs all ->
  Forall (copied_from all) (fst st) ->
  exists st',
    foldM (classify_step {| font_hierarchy := Some h |}) hs st = Ok st'
    /\ Forall (copied_from all) (fst st')
    /\ (List.length (fst st')
        <= List.length (fst st) + List.length hs)%nat.
Proof.
  revert st. induction hs as [|heading hs IH]; intros st Hincl Hall;
    cbn [foldM].
  - exists st. split; [reflexivity|]. split; [exact Hall|simpl; lia].
  - destruct (classify_step_copies h all st heading) as (st1 & E & H1 & L1).
    { apply Hincl. left; reflexivity. }
    { exact Hall. }
    rewrite E. cbn [bind].
    destruct (IH st1) as (st' & E' & H' & L').
    { intros x Hx. apply Hincl. right; exact Hx. }
    { exact H1. }
    exists st'. split; [exact E'|]. split; [exact H'|]. simpl. lia.
Qed.

Lemma classify_headings_copies (h : FontHierarchy)
  (potential_headings : list Candidate) :
  exists classified,
    _classify_headings {| font_hierarchy := Some h |} potential_headings
    = Ok classified
    /\ Forall (copied_from potential_headings) classified
    /\ (List.length classified <= List.length potential_headings)%nat.
Proof.
  unfold _classify_headings.
  destruct (classify_fold_copies h potential_headings potential_headings
              ([], false)) as (st & E & Hc & Hl).
  - intros x Hx; exact Hx.
  - constructor.
  - rewrite E. cbn [bind]. exists (fst st). split; [reflexivity|].
    split; [exact Hc|exact Hl].
Qed.

(** X12. With a hierarchy on the detector, [_classify_headings] returns a
    list that is not longer than the candidate list, and each classified
    heading has the text, page, confidence and font size of a candidate. *)
Theorem classified_copied_from_candidates (h : FontHierarchy)
  (potential_headings : list Candidate) :
  exists classified,
    _classify_headings {| font_hierarchy := Some h |} potential_headings
    = Ok classified
    /\ Forall (copied_from potential_headings) classified
    /\ (List.length classified <= List.length potential_headings)%nat.
Proof. exact (classify_headings_copies h potential_headings). Qed.

End ClassificationFacts.

(** ** The analysis as a whole *)

Section PipelineFacts.
Context {U : Ucd}.
Local Open Scope Q_scope.

Lemma analysis_outcome (self : Detector) (pages_data : list (list Element)) :
  let self' := fst (analyze_document_structure self pages_data) in
  match snd (analyze_document_structure self pages_data) with
  | Ok outline =>
      Forall (scorable_by self') (List.concat pages_data)
      /\ Forall (stems_from self' pages_data) outline
  | Raise x =>
      (x = KeyError \/ x = IndexError)
      /\ exists e, In e (List.concat pages_data)
                   /\ _calculate_heading_confidence self' e = Raise x
  end.
Proof.
  destruct pages_data as [|pg rest].
  - cbn. split; constructor.
  - set (pages := pg :: rest).
    unfold analyze_document_structure. fold pages. cbn [fst snd].
    set (h := Extractor.hierarchy (Extractor.analyze_font_distribution pages)).
    set (self' := {| font_hierarchy := Some h |}).
    pose proof (potential_headings_spec self' pages) as Hp.
    destruct (_find_potential_headings self' pages) as [cands|x];
      cbn [bind].
    + destruct Hp as (Hall & Hperm & _).
      destruct (classify_headings_copies h cands) as (cl & Ecl & Hcl & _).
      fold self' in Ecl. rewrite Ecl. cbn [bind].
      split; [exact Hall|].
      destruct (post_process_spec cl) as (Hmade & _ & _).
      eapply Forall_impl; [|exact Hmade].
      intros o (ch & Hch & Hlev & El & Et & Epg & Hlen).
      rewrite Forall_forall in Hcl.
      destruct (Hcl ch Hch) as (c & Hc & Ect & Ecp & _ & _).
      apply (Permutation_in _ Hperm) in Hc.
      apply in_heading_candidate in Hc. destruct Hc as (Hin & Econf & Hmin).
      exists (element c), (confidence c).
      cbn [text_of page_of level_of ClassifiedHeading_like] in *.
      repeat split; try assumption.
      * rewrite Epg. exact Ecp.
      * rewrite Et, Ect. reflexivity.
      * rewrite El. apply not_title_levels. exact Hlev.
    + destruct Hp as (e & Hin & E). split; [|exists e; split; assumption].
      pose proof (heading_confidence_spec self' e) as Hs.
      rewrite E in Hs. destruct Hs as [[Ex _]|[Ex _]]; [left|right]; exact Ex.
Qed.

(** X13. Every entry of the outline that [analyze_document_structure]
    returns stems from an element of the document whose score, on the
    hierarchy of this document, is at least 0.4: the entry has the page of
    that element, its cleaned text (of more than two characters) and one of
    the levels H1, H2, H3. *)
Theorem outline_entries_stem_from_elements (self : Detector)
  (pages_data : list (list Element)) (outline : list OutlineEntry) :
  snd (analyze_document_structure self pages_data) = Ok outline ->
  Forall (stems_from (fst (analyze_document_structure self pages_data))
                     pages_data)
         outline.
Proof.
  intros E. pose proof (analysis_outcome self pages_data) as H.
  cbn zeta in H. rewrite E in H. apply H.
Qed.

(** X14. [analyze_document_structure] returns an outline exactly when the
    scoring of every element of every page returns; otherwise it raises the
    exception of the scoring of an element, which is KeyError or IndexError
    (never AttributeError: the hierarchy is stored before it is read). In
    particular one record without [y_pos] makes the analysis of the
    document raise. *)
Theorem analysis_raises_as_scoring (self : Detector)
  (pages_data : list (list Element)) :
  let self' := fst (analyze_document_structure self pages_data) in
  match snd (analyze_document_structure self pages_data) with
  | Ok _ =>
      Forall (fun e => scorable_by self' e /\ exists y, y_pos e = Some y)
             (List.concat pages_data)
  | Raise x =>
      (x = KeyError \/ x = IndexError)
      /\ exists e, In e (List.concat pages_data)
                   /\ _calculate_heading_confidence self' e = Raise x
  end.
Proof.
  cbn zeta. pose proof (analysis_outcome self pages_data) as H.
  cbn zeta in H.
  destruct (snd (analyze_document_structure self pages_data)) as [o|x];
    [|exact H].
  destruct H as [Hall _]. eapply Forall_impl; [|exact Hall].
  intros e [c E]. split; [exists c; exact E|].
  eapply scored_has_y_pos. exact E.
Qed.

Lemma title_scan_unset (self : Detector) (l : list Element)
  (acc : list TitleCandidate) :
  font_hierarchy self = None ->
  Forall (scorable_by self) l ->
  match foldM (title_step self) l acc with
  | Ok r => r = acc /\ Forall (below_title_grade self) l
  | Raise x => x = AttributeError /\ Exists (title_grade self) l
  end.
Proof.
  intros Hnone Hall. revert acc.
  induction Hall as [|e l [c E] Hl IH]; intros acc; cbn [foldM].
  - split; [reflexivity|constructor].
  - unfold title_step at 1. rewrite E. cbn [bind].
    destruct (Qle_bool title_confidence c) eqn:Ec.
    + rewrite Hnone. cbn [bind]. split; [reflexivity|].
      apply Exists_cons_hd. exists c. split; [exact E|].
      apply Qle_bool_iff in Ec. exact Ec.
    + cbn [bind]. specialize (IH acc).
      assert (below_title_grade self e) as Hlow.
      { exists c. split; [exact E|]. apply Qnot_le_lt. intros L.
        apply Qle_bool_iff in L. unfold title_confidence in Ec.
        congruence. }
      destruct (foldM (title_step self) l acc) as [r|x].
      * destruct IH as [Er Hlow']. split; [exact Er|].
        constructor; assumption.
      * destruct IH as [Ex Hex]. split; [exact Ex|].
        apply Exists_cons_tl. exact Hex.
Qed.

Lemma title_scan_pages_unset (self : Detector) (ps : list (list Element))
  (acc : list TitleCandidate) :
  font_hierarchy self = None ->
  Forall (scorable_by self) (List.concat ps) ->
  match foldM (fun acc page_elements =>
                 foldM (title_step self) page_elements acc) ps acc with
  | Ok r => r = acc /\ Forall (below_title_grade self) (List.concat ps)
  | Raise x => x = AttributeError
               /\ Exists (title_grade self) (List.concat ps)
  end.
Proof.
  intros Hnone. revert acc.
  induction ps as [|pg ps IH]; intros acc Hall; cbn [foldM List.concat].
  - split; [reflexivity|constructor].
  - cbn [List.concat] in Hall. apply Forall_app in Hall.
    destruct Hall as [Hpg Hps].
    pose proof (title_scan_unset self pg acc Hnone Hpg) as H1.
    destruct (foldM (title_step self) pg acc) as [r1|x]; cbn [bind].
    + destruct H1 as [E1 Hlow1]. subst r1. specialize (IH acc Hps).
      revert IH. destruct (foldM _ ps acc) as [r|x]; intros IH.
      * destruct IH as [Er Hlow]. split; [exact Er|].
        apply Forall_app. split; assumption.
      * destruct IH as [Ex Hex]. split; [exact Ex|].
        apply Exists_app. right. exact Hex.
    + destruct H1 as [Ex Hex]. split; [exact Ex|].
      apply Exists_app. left. exact Hex.
Qed.

(** X15. On a detector that holds no hierarchy yet (no document with
    pages was analysed), with every element of the first two pages
    scorable: [find_document_title] raises AttributeError exactly when
    one of these elements scores 0.6 or more; otherwise it returns the
    cleaned text of an element of largest size of the first page, or the
    placeholder when the first page is empty. *)
Theorem title_before_any_analysis (self : Detector)
  (pages_data : list (list Element)) :
  let scanned := List.concat (firstn 2 pages_data) in
  let first_page := hd [] pages_data in
  font_hierarchy self = None ->
  Forall (scorable_by self) scanned ->
  match find_document_title self pages_data with
  | Raise x => x = AttributeError /\ Exists (title_grade self) scanned
  | Ok r =>
      Forall (below_title_grade self) scanned
      /\ ((first_page = [] /\ r = untitled)
          \/ (exists e,
                In e first_page
                /\ r = _clean_heading_text (text e)
                /\ Forall (fun e' => size e' <= size e) first_page))
  end.
Proof.
  cbn zeta. intros Hnone Hall.
  destruct pages_data as [|first_page rest].
  - cbn. split; [constructor|]. left. split; reflexivity.
  - unfold find_document_title.
    pose proof (title_scan_pages_unset self (firstn 2 (first_page :: rest))
                  [] Hnone Hall) as H.
    revert H.
    destruct (foldM _ (firstn 2 (first_page :: rest)) []) as [r|x];
      cbn [bind]; intros H; [|exact H].
    destruct H as [Er Hlow]. subst r. cbn [stable_sort hd].
    destruct first_page as [|e es]; cbn iota; (split; [exact Hlow|]).
    + left. split; reflexivity.
    + right. pose proof (py_max_from_spec size es e) as Hmax.
      cbn zeta in Hmax. destruct Hmax as (Hin & Hle & Hles).
      eexists. split; [exact Hin|]. split; [reflexivity|].
      constructor; assumption.
Qed.

End PipelineFacts.

(** ** More on cleaning and post-processing *)

Lemma re_longest_star_class (p : N -> bool) (s : pystr) :
  forallb p s = true -> re_longest (Star (Cls p)) s = Some (List.length s).
Proof.
  induction s as [|c s IH]; intros H.
  - reflexivity.
  - cbn [forallb] in H. apply andb_true_iff in H. destruct H as [Hc Hs].
    cbn [re_longest deriv]. rewrite Hc. cbn [mkSeq].
    rewrite (IH Hs). reflexivity.
Qed.

Lemma re_longest_plus_class (p : N -> bool) (c : N) (s : pystr) :
  forallb p (c :: s) = true ->
  re_longest (Plus (Cls p)) (c :: s) = Some (List.length (c :: s)).
Proof.
  intros H. cbn [forallb] in H. apply andb_true_iff in H.
  destruct H as [Hc Hs].
  unfold Plus. cbn [re_longest deriv nullable andb]. rewrite Hc.
  cbn [mkSeq mkAlt]. rewrite (re_longest_star_class p s Hs). reflexivity.
Qed.

Section CleaningFacts.
Context {U : Ucd}.
Context {A : Type} {HL : HeadingLike A}.

Lemma clean_numbering_only (txt : pystr) :
  forallb leading_class txt = true -> _clean_heading_text txt = [].
Proof.
  intros H. unfold _clean_heading_text.
  assert (re_sub_start (Plus (Cls leading_class)) [] txt = []) as E.
  { unfold re_sub_start. destruct txt as [|c s].
    - reflexivity.
    - rewrite (re_longest_plus_class leading_class c s H).
      cbn [app]. apply skipn_all. }
  rewrite E. reflexivity.
Qed.

Lemma dedup_step_short (st : list pystr * list OutlineEntry) (h : A) :
  _clean_heading_text (text_of h) = [] -> dedup_step st h = st.
Proof.
  intros E. unfold dedup_step. destruct st as [seen out]. rewrite E.
  cbn [List.length Nat.ltb Nat.leb]. rewrite andb_false_r. reflexivity.
Qed.

(** X16. A text that consists only of digits, dots, dashes, parentheses
    and white space is cleaned to the empty string, and headings with such
    texts never reach the outline. *)
Theorem numbering_only_headings_vanish (classified : list A) :
  Forall (fun h => forallb leading_class (text_of h) = true) classified ->
  Forall (fun h => _clean_heading_text (text_of h) = []) classified
  /\ _post_process_outline classified = [].
Proof.
  intros H.
  assert (Forall (fun h => _clean_heading_text (text_of h) = []) classified)
    as Hc.
  { eapply Forall_impl; [|exact H]. intros h. apply clean_numbering_only. }
  split; [exact Hc|].
  unfold _post_process_outline. destruct classified as [|h0 hs]; [reflexivity|].
  set (l := filter (fun h => negb (is_title (level_of h))) (h0 :: hs)).
  assert (Forall (fun h => _clean_heading_text (text_of h) = []) l) as Hl.
  { apply Forall_forall. intros h Hin. unfold l in Hin.
    apply filter_In in Hin. rewrite Forall_forall in Hc. apply Hc, Hin. }
  assert (forall st, fold_left dedup_step l st = st) as Hfold.
  { clear - Hl. induction Hl as [|h l Hh Hl IH]; intros st; cbn [fold_left].
    - reflexivity.
    - rewrite (dedup_step_short st h Hh). apply IH. }
  rewrite Hfold. reflexivity.
Qed.

Lemma dedup_fold_grows (l : list A) (seen : list pystr)
  (out : list OutlineEntry) :
  exists more, snd (fold_left dedup_step l (seen, out)) = out ++ more.
Proof.
  revert seen out. induction l as [|h l IH]; intros seen out;
    cbn [fold_left].
  - exists []. rewrite app_nil_r. reflexivity.
  - unfold dedup_step at 2.
    match goal with
    | |- context [if ?c then _ else _] => destruct c
    end.
    + destruct (IH (seen ++ [str_lower (_clean_heading_text (text_of h))])
                   (out ++ [{| entry_level := level_of h;
                               entry_text := _clean_heading_text (text_of h);
                               entry_page := page_of h |}]))
        as (more & E).
      rewrite E. eexists. rewrite <- app_assoc. reflexivity.
    + apply IH.
Qed.

(** X17. Of the headings with the same lower-cased cleaned text the first
    one is kept: a heading that is no title, whose cleaned text has more
    than two characters and differs, lower-cased, from the one of every
    earlier heading that is no title, is in the outline with its level, its
    cleaned text and its page. *)
Theorem first_occurrence_kept (l1 l2 : list A) (h : A) :
  level_of h <> Title ->
  (2 < List.length (_clean_heading_text (text_of h)))%nat ->
  Forall (fun h' =>
            level_of h' = Title
            \/ str_lower (_clean_heading_text (text_of h'))
               <> str_lower (_clean_heading_text (text_of h))) l1 ->
  In {| entry_level := level_of h;
        entry_text := _clean_heading_text (text_of h);
        entry_page := page_of h |}
     (_post_process_outline (l1 ++ h :: l2)).
Proof.
  intros Hlev Hlen Hfirst.
  set (entry := {| entry_level := level_of h;
                   entry_text := _clean_heading_text (text_of h);
                   entry_page := page_of h |}).
  set (keep := fun h : A => negb (is_title (level_of h))).
  assert (_post_process_outline (l1 ++ h :: l2)
          = stable_sort outline_leb
              (snd (fold_left dedup_step (filter keep (l1 ++ h :: l2))
                              ([], [])))) as E.
  { unfold _post_process_outline.
    destruct (l1 ++ h :: l2) eqn:El; [|reflexivity].
    destruct l1; discriminate El. }
  rewrite E. clear E.
  apply (Permutation_in _ (Permutation_sym (stable_sort_perm outline_leb _))).
  assert (keep h = true) as Hk.
  { unfold keep. destruct (level_of h); [contradiction| | |]; reflexivity. }
  rewrite filter_app. cbn [filter]. rewrite Hk. rewrite fold_left_app.
  cbn [fold_left].
  destruct (@dedup_fold_inv U A HL (filter keep l1) (filter keep l1) [] [])
    as (Hseen & _ & Hmade).
  { intros x Hx; exact Hx. }
  { apply filter_not_title. }
  { reflexivity. }
  { constructor. }
  { constructor. }
  destruct (fold_left dedup_step (filter keep l1) ([], [])) as [seen1 out1].
  cbn [fst snd] in Hseen, Hmade.
  assert (dedup_step (seen1, out1) h
          = (seen1 ++ [str_lower (_clean_heading_text (text_of h))],
             out1 ++ [entry])) as Estep.
  { unfold dedup_step.
    apply Nat.ltb_lt in Hlen. rewrite Hlen.
    rewrite seen_true_false; [reflexivity|].
    intros Hin. rewrite Hseen in Hin. apply in_map_iff in Hin.
    destruct Hin as (o & Eo & Ho).
    rewrite Forall_forall in Hmade.
    destruct (Hmade o Ho) as (h' & Hh' & Hl' & _ & Et & _).
    apply filter_In in Hh'. destruct Hh' as [Hh' _].
    rewrite Forall_forall in Hfirst.
    destruct (Hfirst h' Hh') as [T|N]; [contradiction|].
    apply N. unfold lowered in Eo. rewrite Et in Eo. exact Eo. }
  rewrite Estep.
  destruct (dedup_fold_grows (filter keep l2)
              (seen1 ++ [str_lower (_clean_heading_text (text_of h))])
              (out1 ++ [entry])) as (more & Eg).
  rewrite Eg. apply in_or_app. left. apply in_or_app. right.
  left. reflexivity.
Qed.

End CleaningFacts.

(** ** The processor *)

Lemma drop_while_head {A : Type} (p : A -> bool) (l : list A) :
  match drop_while p l with
  | [] => True
  | x :: _ => p x = false
  end.
Proof.
  induction l as [|y l IH]; simpl; [exact I|].
  destruct (p y) eqn:E; [exact IH|exact E].
Qed.

Lemma drop_while_suffix {A : Type} (p : A -> bool) (l : list A) :
  exists pre, l = pre ++ drop_while p l.
Proof.
  induction l as [|y l IH]; simpl.
  - exists []. reflexivity.
  - destruct (p y).
    + destruct IH as [pre E]. exists (y :: pre). simpl. rewrite <- E.
      reflexivity.
    + exists []. reflexivity.
Qed.

Section ProcessorFacts.
Context {U : Ucd}.

(** A stripped text has no white space at either end. *)
Lemma str_strip_ends (s : pystr) :
  match str_strip s with
  | [] => True
  | c :: _ => isspace c = false
              /\ isspace (last (str_strip s) 0%N) = false
  end.
Proof.
  unfold str_strip.
  set (t := drop_while isspace s).
  set (u := drop_while isspace (rev t)).
  pose proof (drop_while_head isspace s) as Ht. fold t in Ht.
  pose proof (drop_while_head isspace (rev t)) as Hu. fold u in Hu.
  destruct (drop_while_suffix isspace (rev t)) as [pre Epre]. fold u in Epre.
  destruct (rev u) as [|c r] eqn:Er; [exact I|].
  destruct u as [|x u'] eqn:Eu; [discriminate Er|].
  split.
  - (* the first character of [rev u] is the last one of [u], which is
       the last one of [rev t], the first one of [t] *)
    assert (rev (rev t) = rev (x :: u') ++ rev pre) as E.
    { rewrite Epre at 1. apply rev_app_distr. }
    rewrite rev_involutive, Er in E. rewrite E in Ht. exact Ht.
  - rewrite <- Er. cbn [rev]. rewrite last_last. exact Hu.
Qed.

Lemma validate_item_spec (item o : OutlineEntry) :
  In o (validate_item item) ->
  In (entry_level o) [H1; H2; H3]
  /\ entry_page o = entry_page item
  /\ entry_level o = entry_level item
  /\ entry_text o = str_strip (entry_text item)
  /\ entry_text o <> [].
Proof.
  unfold validate_item. cbn [entry_level entry_text].
  destruct (existsb (Level_eqb (entry_level item)) [H1; H2; H3]) eqn:El;
    [|intros []].
  destruct (0 <? List.length (str_strip (entry_text item)))%nat eqn:Et;
    [|intros []].
  intros [E|[]]. subst o. cbn [entry_level entry_text entry_page].
  repeat split.
  - destruct (entry_level item); cbn in El |- *; try discriminate El; auto.
  - apply Nat.ltb_lt in Et. intros E. rewrite E in Et. simpl in Et. lia.
Qed.

(** X18. Whatever the detector holds and whatever the pages are,
    [process_single_pdf] returns a record whose outline entries have a level
    among H1, H2, H3 and a text that is not empty and has no white space at
    either end. *)
Theorem processed_outline_well_formed (detector : Detector)
  (pages_data : list (list Element)) :
  Forall (fun o =>
            In (entry_level o) [H1; H2; H3]
            /\ entry_text o <> []
            /\ isspace (hd 0%N (entry_text o)) = false
            /\ isspace (last (entry_text o) 0%N) = false)
         (result_outline (snd (process_single_pdf detector pages_data))).
Proof.
  unfold process_single_pdf.
  destruct pages_data as [|pg rest]; [constructor|].
  destruct (analyze_document_structure detector (pg :: rest))
    as [detector' outline_data].
  cbn [snd]. destruct outline_data as [outline|x]; [|constructor].
  destruct (find_document_title detector' (pg :: rest)) as [title|x];
    [|constructor].
  cbn [_validate_and_clean_result result_outline].
  apply Forall_forall. intros o Hin. apply in_flat_map in Hin.
  destruct Hin as (item & _ & Ho).
  apply validate_item_spec in Ho.
  destruct Ho as (Hl & _ & _ & Et & Hne).
  split; [exact Hl|]. split; [exact Hne|].
  pose proof (str_strip_ends (entry_text item)) as Hs.
  rewrite <- Et in Hs.
  destruct (entry_text o) as [|c r]; [contradiction|].
  cbn [hd]. exact Hs.
Qed.

(** X19. One record without [y_pos] anywhere in the document makes
    [process_single_pdf] return the empty result, title "Untitled Document"
    and no outline, for the whole document. *)
Theorem record_without_y_pos_voids_document (detector : Detector)
  (pages_data : list (list Element)) (e : Element) :
  In e (List.concat pages_data) ->
  y_pos e = None ->
  snd (process_single_pdf detector pages_data) = _create_empty_result.
Proof.
  intros Hin Hy. unfold process_single_pdf.
  destruct pages_data as [|pg rest]; [reflexivity|].
  pose proof (analysis_outcome detector (pg :: rest)) as H. cbn zeta in H.
  destruct (analyze_document_structure detector (pg :: rest))
    as [detector' outline_data].
  cbn [fst snd] in H |- *.
  destruct outline_data as [outline|x]; [|reflexivity].
  destruct H as [Hall _]. rewrite Forall_forall in Hall.
  destruct (Hall e Hin) as [c E].
  rewrite (scoring_needs_y_pos detector' e Hy) in E. discriminate E.
Qed.

(** X20. The record that [process_single_pdf] returns for a document does
    not depend on what the detector of the processor holds from the
    documents processed before, and after a document with pages the
    detector holds the hierarchy of that document. *)
Theorem processing_independent_of_history (d1 d2 : Detector)
  (pages_data : list (list Element)) :
  snd (process_single_pdf d1 pages_data)
  = snd (process_single_pdf d2 pages_data)
  /\ match pages_data with
     | [] => fst (process_single_pdf d1 pages_data) = d1
     | _ :: _ =>
         fst (process_single_pdf d1 pages_data)
         = {| font_hierarchy :=
                Some (Extractor.hierarchy
                        (Extractor.analyze_font_distribution pages_data)) |}
     end.
Proof.
  destruct pages_data as [|pg rest]; split; reflexivity.
Qed.

End ProcessorFacts.

(** ** The computed properties of an element *)

Lemma existsb_false_forall {A : Type} (p : A -> bool) (l : list A) :
  existsb p l = false -> Forall (fun x => p x = false) l.
Proof.
  induction l as [|x l IH]; simpl; intros H; constructor.
  - apply orb_false_iff in H. apply H.
  - apply IH. apply orb_false_iff in H. apply H.
Qed.

(** X21. The language type is one of the three CJK types exactly when
    the text holds a CJK character. It is [Cjk] (the only type with the CJK
    keyword list) only when the text holds no kana and no character of the
    unified ideographs U+4E00-U+9FFF, so all its CJK characters are
    compatibility ideographs U+F900-U+FAFF; and a text of code points below
    U+0590 is Latin. *)
Theorem language_type_detection (txt : pystr) :
  is_cjk_language (_detect_language_type txt) = _has_cjk_characters txt
  /\ (_detect_language_type txt = Cjk ->
      Forall (fun c => is_kana c = false
                       /\ in_range 0x4E00 0x9FFF c = false) txt
      /\ Exists (fun c => in_range 0xF900 0xFAFF c = true) txt)
  /\ (Forall (fun c => (c < 0x0590)%N) txt ->
      _detect_language_type txt = Latin).
Proof.
  unfold _detect_language_type. split; [|split].
  - destruct (_has_cjk_characters txt);
      repeat match goal with
             | |- context [if ?b then _ else _] => destruct b
             end; reflexivity.
  - destruct (_has_cjk_characters txt) eqn:Ec.
    + destruct (existsb is_kana txt) eqn:Ek; [discriminate|].
      destruct (existsb (in_range 0x4E00 0x9FFF) txt) eqn:Eu; [discriminate|].
      intros _.
      apply existsb_false_forall in Ek. apply existsb_false_forall in Eu.
      split.
      * rewrite Forall_forall in Ek, Eu |- *. intros c Hc.
        split; [apply Ek|apply Eu]; exact Hc.
      * unfold _has_cjk_characters in Ec. apply existsb_exists in Ec.
        destruct Ec as (c & Hc & E). apply Exists_exists. exists c.
        split; [exact Hc|].
        rewrite Forall_forall in Ek, Eu.
        specialize (Ek c Hc). specialize (Eu c Hc).
        unfold is_cjk_char in E. unfold is_kana in Ek.
        apply orb_false_iff in Ek. destruct Ek as [Ek1 Ek2].
        rewrite Eu, Ek1, Ek2 in E. exact E.
    + repeat match goal with
             | |- context [if ?b then _ else _] => destruct b
             end; discriminate.
  - intros Hlow.
    assert (forall lo hi, (0x0590 <= lo)%N ->
                          existsb (in_range lo hi) txt = false) as Hno.
    { intros lo hi Hlo.
      destruct (existsb (in_range lo hi) txt) eqn:E; [|reflexivity].
      apply existsb_exists in E. destruct E as (c & Hc & E).
      rewrite Forall_forall in Hlow. specialize (Hlow c Hc).
      unfold in_range in E. apply andb_true_iff in E. destruct E as [E _].
      apply N.leb_le in E. lia. }
    assert (_has_cjk_characters txt = false) as Ec.
    { unfold _has_cjk_characters.
      destruct (existsb is_cjk_char txt) eqn:E; [|reflexivity].
      apply existsb_exists in E. destruct E as (c & Hc & E).
      rewrite Forall_forall in Hlow. specialize (Hlow c Hc).
      unfold is_cjk_char, in_range in E.
      repeat (apply orb_true_iff in E; destruct E as [E|E]);
        apply andb_true_iff in E; destruct E as [E _];
        apply N.leb_le in E; lia. }
    rewrite Ec. rewrite !Hno by lia. reflexivity.
Qed.

Lemma re_longest_void (rest s : pystr) : re_longest Void s = None.
Proof.
  induction s as [|c s IH]; simpl; [reflexivity|].
  rewrite IH. reflexivity.
Qed.

Lemma re_longest_eps (s : pystr) : re_longest Eps s = Some 0%nat.
Proof.
  destruct s as [|c s]; simpl; [reflexivity|].
  rewrite (re_longest_void s s). reflexivity.
Qed.

Lemma re_match_digit_dot_head (p : N -> bool) (c : N) (s : pystr) :
  re_match (Seq (Plus (Cls p)) (Chr 46)) (c :: s) = true -> p c = true.
Proof.
  unfold re_match, Plus. cbn [re_longest deriv nullable andb].
  destruct (p c); [reflexivity|].
  cbn [mkSeq mkAlt]. rewrite (re_longest_void s s). discriminate.
Qed.

Section BuiltElementFacts.
Context {U : Ucd}.
Local Open Scope Q_scope.

Lemma starts_with_number_has_numbers (txt : pystr) :
  re_match (Seq (Plus re_d) (Chr 46)) txt = true ->
  re_search re_d txt = true.
Proof.
  destruct txt as [|c s]; [discriminate|]. intros H.
  apply (re_match_digit_dot_head isdecimal c s) in H.
  cbn [re_search]. apply orb_true_iff. left.
  unfold re_match, re_d. cbn [re_longest deriv]. rewrite H.
  rewrite re_longest_eps. reflexivity.
Qed.

Lemma bbox_position (bbox : list Q) :
  match bbox with
  | [] => True
  | x0 :: _ => bbox_item bbox 0 = Ok x0
  end.
Proof. destruct bbox; [exact I|reflexivity]. Qed.

Lemma computed_properties_spec (raw : RawElement) :
  match _compute_element_properties raw with
  | Ok p =>
      (raw_bbox raw = [] \/ (4 <= List.length (raw_bbox raw))%nat)
      /\ p_is_left_aligned p && p_is_centered p = false
      /\ (raw_bbox raw = [] ->
          p_x_pos p = 0 /\ p_y_pos p = 0 /\ p_width p = 0 /\ p_height p = 0
          /\ p_is_left_aligned p = false /\ p_is_centered p = false)
      /\ (p_starts_with_number p = true -> p_has_numbers p = true)
  | Raise x =>
      x = IndexError
      /\ (1 <= List.length (raw_bbox raw) <= 3)%nat
  end.
Proof.
  unfold _compute_element_properties.
  destruct (raw_bbox raw) as [|x0 [|y0 [|x1 [|y1 rest]]]];
    cbn [bbox_item nth_error bind]; try (split; [reflexivity|simpl; lia]).
  - cbn. repeat split; try reflexivity; try (left; reflexivity).
    apply starts_with_number_has_numbers.
  - cbn [p_is_left_aligned p_is_centered p_x_pos p_y_pos p_width p_height
         p_starts_with_number p_has_numbers].
    split; [right; simpl; lia|]. split; [|split].
    + destruct (Qltb x0 100) eqn:E1; [|reflexivity].
      destruct (Qltb 200 x0) eqn:E2; [|reflexivity].
      apply Qltb_true in E1, E2. exfalso. lra.
    + intros E. discriminate E.
    + apply starts_with_number_has_numbers.
Qed.

(** X22. [_compute_element_properties] raises IndexError exactly for a
    bbox of one to three coordinates. Otherwise the element is never both
    left-aligned and centered, all position properties are 0 or false when
    the bbox is empty, and an element that starts with a number has
    numbers. *)
Theorem computed_properties_outcome (raw : RawElement) :
  match _compute_element_properties raw with
  | Ok p =>
      (raw_bbox raw = [] \/ (4 <= List.length (raw_bbox raw))%nat)
      /\ p_is_left_aligned p && p_is_centered p = false
      /\ (raw_bbox raw = [] ->
          p_x_pos p = 0 /\ p_y_pos p = 0 /\ p_width p = 0 /\ p_height p = 0
          /\ p_is_left_aligned p = false /\ p_is_centered p = false)
      /\ (p_starts_with_number p = true -> p_has_numbers p = true)
  | Raise x =>
      x = IndexError
      /\ (1 <= List.length (raw_bbox raw) <= 3)%nat
  end.
Proof. exact (computed_properties_spec raw). Qed.

Lemma heading_confidence_by_position (self : Detector) (e : Element)
  (s : Q) :
  _calculate_heading_confidence self e = Ok s ->
  exists p, _calculate_position_score e = Ok p /\ s <= 0.735 + p * 0.2.
Proof.
  unfold _calculate_heading_confidence.
  pose proof (size_score_bounds self (size e)) as Hsize.
  pose proof (pattern_score_spec (text e) (get (language_type e) Latin))
    as Hpat.
  pose proof (length_score_bounds (text e)) as Hlen.
  pose proof (special_score_bounds e) as Hspec.
  destruct (_calculate_position_score e) as [p|x]; cbn [bind];
    [|discriminate].
  destruct (_calculate_pattern_score _ _) as [q|x]; cbn [bind];
    [|discriminate].
  intros E. injection E as E. subst s. exists p. split; [reflexivity|].
  destruct (get (is_bold e) false);
    match goal with
    | |- context [Qltb ?u ?v] =>
        destruct (Qltb u v) eqn:E;
        [apply Qltb_true in E; lra | lra]
    end.
Qed.

(** X23. For an element as the extractor builds it (the raw span record
    updated with its computed properties) the scoring never raises
    KeyError: the position key is always there. The two alignment bonuses
    never add up, so the position score is at most 0.7 and the confidence
    at most 0.875; the scoring raises only IndexError, for a text that is
    empty once stripped. *)
Theorem built_element_scoring (self : Detector) (raw : RawElement)
  (e : Element) :
  updated_element raw = Ok e ->
  (exists y, y_pos e = Some y)
  /\ (exists p, _calculate_position_score e = Ok p /\ 0 <= p <= 0.7)
  /\ match _calculate_heading_confidence self e with
     | Ok s => 0.04 <= s <= 0.875
     | Raise x => x = IndexError /\ str_strip (raw_text raw) = []
     end.
Proof.
  unfold updated_element.
  pose proof (computed_properties_spec raw) as Hp.
  destruct (_compute_element_properties raw) as [p|x]; cbn [bind];
    [|discriminate].
  intros E. injection E as E. destruct Hp as (_ & Hex & _).
  assert (exists q, _calculate_position_score e = Ok q /\ 0 <= q <= 0.7)
    as Hpos.
  { subst e. unfold _calculate_position_score.
    cbn [y_pos is_left_aligned is_centered get getitem bind].
    destruct (p_is_left_aligned p), (p_is_centered p);
      try discriminate Hex;
      destruct (Qltb (p_y_pos p) 150); eexists; (split; [reflexivity|lra]). }
  split; [subst e; eexists; reflexivity|]. split; [exact Hpos|].
  pose proof (heading_confidence_spec self e) as Hs.
  pose proof (heading_confidence_range self e) as Hr.
  pose proof (heading_confidence_by_position self e) as Hb.
  destruct (_calculate_heading_confidence self e) as [s|x].
  - destruct (Hb s eq_refl) as (q & Eq & Hq).
    destruct Hpos as (q' & Eq' & Hq'). rewrite Eq in Eq'.
    injection Eq' as Eq'. subst q'.
    specialize (Hr s eq_refl). lra.
  - destruct Hs as [[_ Hy]|[Ex Ht]].
    + subst e. discriminate Hy.
    + subst e. split; [exact Ex|exact Ht].
Qed.

End BuiltElementFacts.

(** ** Evaluations for the further properties *)

Module MoreEvaluations.
Import Samples MoreSamples Extractor ExtractorSpec ExtractorVocabulary.
Import AnalysisFacts.
#[local] Existing Instance ascii_ucd.
Local Open Scope Q_scope.

Lemma single_size_hierarchy_witness :
  let q := span "2025" 24 1 100 true true false in
  qualifying doc_year = [q]
  /\ Forall (fun e => size e == size q) []
  /\ hierarchy (analyze_font_distribution doc_year)
     = [(Title, size q); (H1, size q - 2); (H2, size q - 2 - 1);
        (H3, size q - 2 - 2)].
Proof.
  cbn zeta.
  assert (qualifying doc_year = [span "2025" 24 1 100 true true false]) as H1
    by reflexivity.
  assert (Forall (fun e => size e
                           == size (span "2025" 24 1 100 true true false))
                 []) as H2 by constructor.
  split; [exact H1|]. split; [exact H2|].
  exact (single_size_hierarchy doc_year _ [] H1 H2).
Defined.

Lemma confidence_monotone_in_size_witness :
  let self := {| font_hierarchy := Some fallback_hierarchy |} in
  let e := span "1. Introduction" 10 1 100 true true true in
  10 <= 14
  /\ match _calculate_heading_confidence self (with_size e 10),
           _calculate_heading_confidence self (with_size e 14) with
     | Ok c1, Ok c2 => c1 <= c2
     | Raise x1, Raise x2 => x1 = x2
     | _, _ => False
     end.
Proof.
  cbn zeta. assert (10 <= 14) as H by (unfold Qle; simpl; lia).
  split; [exact H|].
  exact (confidence_monotone_in_size
           {| font_hierarchy := Some fallback_hierarchy |}
           (span "1. Introduction" 10 1 100 true true true) 10 14 H).
Defined.

Lemma title_only_when_eligible_witness :
  _classify_heading_level {| font_hierarchy := Some fallback_hierarchy |}
                          report_title_candidate false
  = Ok (Some Title)
  /\ (false = false
      /\ (page (element report_title_candidate) <= 2)%Z
      /\ 0.6 <= confidence report_title_candidate
      /\ dict_get fallback_hierarchy Title 16 - 1
         <= size (element report_title_candidate)
      /\ (List.length (str_split (text (element report_title_candidate)))
          <= 10)%nat
      /\ has_exclude_keyword
           (str_lower (text (element report_title_candidate))) = false).
Proof.
  assert (_classify_heading_level
            {| font_hierarchy := Some fallback_hierarchy |}
            report_title_candidate false = Ok (Some Title)) as H
    by (vm_compute; reflexivity).
  split; [exact H|].
  exact (title_only_when_eligible fallback_hierarchy report_title_candidate
                                  false H).
Defined.

Lemma outline_entries_stem_from_elements_witness :
  snd (analyze_document_structure new_detector doc_report)
  = Ok report_outline
  /\ Forall (stems_from (fst (analyze_document_structure new_detector
                                                         doc_report))
                        doc_report)
            report_outline.
Proof.
  assert (snd (analyze_document_structure new_detector doc_report)
          = Ok report_outline) as H by (vm_compute; reflexivity).
  split; [exact H|].
  exact (outline_entries_stem_from_elements new_detector doc_report
                                            report_outline H).
Defined.

Lemma title_before_any_analysis_witness :
  font_hierarchy new_detector = None
  /\ Forall (scorable_by new_detector) (List.concat (firstn 2 doc_plain))
  /\ match find_document_title new_detector doc_plain with
     | Raise x =>
         x = AttributeError
         /\ Exists (title_grade new_detector)
                   (List.concat (firstn 2 doc_plain))
     | Ok r =>
         Forall (below_title_grade new_detector)
                (List.concat (firstn 2 doc_plain))
         /\ ((hd [] doc_plain = [] /\ r = untitled)
             \/ (exists e,
                   In e (hd [] doc_plain)
                   /\ r = _clean_heading_text (text e)
                   /\ Forall (fun e' => size e' <= size e)
                             (hd [] doc_plain)))
     end.
Proof.
  assert (font_hierarchy new_detector = None) as H1 by reflexivity.
  assert (Forall (scorable_by new_detector)
                 (List.concat (firstn 2 doc_plain))) as H2.
  { repeat constructor; eexists; vm_compute; reflexivity. }
  split; [exact H1|]. split; [exact H2|].
  exact (title_before_any_analysis new_detector doc_plain H1 H2).
Defined.

Lemma numbering_only_headings_vanish_witness :
  Forall (fun h => forallb leading_class (text_of h) = true)
         headings_numbering_only
  /\ Forall (fun h => _clean_heading_text (text_of h) = [])
            headings_numbering_only
  /\ _post_process_outline headings_numbering_only = [].
Proof.
  assert (Forall (fun h => forallb leading_class (text_of h) = true)
                 headings_numbering_only) as H.
  { repeat constructor. }
  split; [exact H|].
  exact (numbering_only_headings_vanish headings_numbering_only H).
Defined.

Lemma first_occurrence_kept_witness :
  let l1 := [heading H1 "1. Introduction" 1] in
  let h := heading H2 "2. Background" 2 in
  let l2 := [heading H3 "Background" 5] in
  level_of h <> Title
  /\ (2 < List.length (_clean_heading_text (text_of h)))%nat
  /\ Forall (fun h' =>
               level_of h' = Title
               \/ str_lower (_clean_heading_text (text_of h'))
                  <> str_lower (_clean_heading_text (text_of h))) l1
  /\ In {| entry_level := level_of h;
           entry_text := _clean_heading_text (text_of h);
           entry_page := page_of h |}
        (_post_process_outline (l1 ++ h :: l2)).
Proof.
  cbn zeta.
  assert (level_of (heading H2 "2. Background" 2) <> Title) as Ha
    by (intros E; discriminate E).
  assert (2 < List.length
                (_clean_heading_text
                   (text_of (heading H2 "2. Background" 2))))%nat
    as Hb by (vm_compute; lia).
  assert (Forall (fun h' =>
                    level_of h' = Title
                    \/ str_lower (_clean_heading_text (text_of h'))
                       <> str_lower
                            (_clean_heading_text
                               (text_of (heading H2 "2. Background" 2))))
                 [heading H1 "1. Introduction" 1]) as Hc.
  { constructor; [|constructor]. right. vm_compute. intros E. discriminate E. }
  split; [exact Ha|]. split; [exact Hb|]. split; [exact Hc|].
  exact (first_occurrence_kept [heading H1 "1. Introduction" 1]
                               [heading H3 "Background" 5]
                               (heading H2 "2. Background" 2) Ha Hb Hc).
Defined.

Lemma record_without_y_pos_witness :
  In (bare "Background" 12 1) (List.concat doc_with_bare_record)
  /\ y_pos (bare "Background" 12 1) = None
  /\ snd (process_single_pdf new_detector doc_with_bare_record)
     = _create_empty_result.
Proof.
  assert (In (bare "Background" 12 1) (List.concat doc_with_bare_record))
    as H1 by (simpl; auto).
  assert (y_pos (bare "Background" 12 1) = None) as H2 by reflexivity.
  split; [exact H1|]. split; [exact H2|].
  exact (record_without_y_pos_voids_document new_detector
           doc_with_bare_record (bare "Background" 12 1) H1 H2).
Defined.

Lemma built_element_scoring_witness :
  let self := {| font_hierarchy := Some fallback_hierarchy |} in
  updated_element raw_heading = Ok built_heading
  /\ (exists y, y_pos built_heading = Some y)
  /\ (exists p, _calculate_position_score built_heading = Ok p
                /\ 0 <= p <= 0.7)
  /\ match _calculate_heading_confidence self built_heading with
     | Ok s => 0.04 <= s <= 0.875
     | Raise x => x = IndexError /\ str_strip (raw_text raw_heading) = []
     end.
Proof.
  cbn zeta.
  assert (updated_element raw_heading = Ok built_heading) as H
    by (vm_compute; reflexivity).
  split; [exact H|].
  exact (built_element_scoring {| font_hierarchy := Some fallback_hierarchy |}
                               raw_heading built_heading H).
Defined.

End MoreEvaluations.
